(** * batsim-py: the simulation handlers of [batsim_py/simulator.py]

    A shallow embedding of [GridSimulatorHandler] (the self-contained
    backend) and [BatsimSimulatorHandler] (the remote backend), and the
    properties of the specification checked against them.

    Conventions of the embedding.
    - Python numbers (timestamps, walltime, cpu work, speeds) are carried
      by their exact values, rationals [Q]; cpu work and speeds are
      [float]s.  Comparisons, [math.floor] ([Qfloor]) and sums are exact.
      A true division is a [float] division: the quotient is rounded to
      the nearest binary64 value ([round_float]), may overflow to an
      infinity, and [int(x)] truncates it toward zero or raises.
    - Python [int] identifiers (resource ids, power-state ids, resource
      counts) are [Z]; job and profile names are [string]s.
    - A method is a function from the handler's state to an [Outcome] and
      the state the call leaves behind; a raised exception keeps the
      mutations made before the [raise].
    - [dict]s keyed by name are [gmap]s; the event queue, the request
      buffer and the [defaultdict(list)]s, whose order is observable, are
      lists. *)

From Stdlib Require Import QArith Qround Qminmax Qabs Qpower ZArith List Bool Lia Sorted.
From stdpp Require Import gmap strings.
Import ListNotations.

Local Open Scope Z_scope.
Local Open Scope Q_scope.

(** ** Numbers *)

(** [a < b] on floats. *)
Definition Qltb (a b : Q) : bool := negb (Qle_bool b a).

(** Truncation toward zero. *)
Definition Qtrunc (x : Q) : Z :=
  if Qle_bool 0 x then Qfloor x else Qceiling x.

(** The builtin [min(a, b)]: [b] only when [b < a]. *)
Definition py_min (a b : Q) : Q := if Qltb b a then b else a.

(** The builtin [min(iterable)]; [None] stands for the [ValueError] on an
    empty iterable. *)
Definition py_min_list (l : list Q) : option Q :=
  match l with
  | [] => None
  | x :: xs => Some (fold_left py_min xs x)
  end.

(** ** Exceptions and outcomes *)

Inductive Exception : Set :=
| AssertionError
| KeyError
| StopIteration
| ValueError
| ZeroDivisionError
| NotImplementedError
| RuntimeError
| UnboundLocalError
| AttributeError
| OverflowError.

Inductive Outcome : Set :=
| Returned
| Raised (e : Exception)
| OutOfFuel.

(** ** Floats *)

(** A [float]: a finite value, an infinity or a NaN (signed zeros are not
    told apart). *)
Inductive Float : Set :=
| Finite (q : Q)
| Infinite (negative : bool)
| NaN.

Definition pow2 (e : Z) : Q := Qpower 2 e.

(** [floor(log2 q)] of a positive rational. *)
Definition Qlog2 (q : Q) : Z :=
  let k := (Z.log2 (Qnum q) - Z.log2 (Zpos (Qden q)))%Z in
  if Qle_bool (pow2 k) q then k else (k - 1)%Z.

(** The nearest integer, ties to the even one. *)
Definition round_half_even (q : Q) : Z :=
  let f := Qfloor q in
  match Qcompare (q - inject_Z f) (1 # 2) with
  | Lt => f
  | Gt => (f + 1)%Z
  | Eq => if Z.even f then f else (f + 1)%Z
  end.

(** Rounding of a real to binary64, to nearest and ties to even: 53
    significant bits, the last place not below [2^-1074], and an infinity
    from [2^1024 - 2^970] on. *)
Definition round_float (q : Q) : Float :=
  if Qeq_bool q 0 then Finite 0
  else
    let a := Qabs q in
    let e := Z.max (Qlog2 a - 52) (-1074) in
    let r := inject_Z (round_half_even (a / pow2 e)) * pow2 e in
    if Qle_bool (pow2 1024) r then Infinite (Qltb q 0)
    else Finite (Qred (if Qltb q 0 then - r else r)).

(** The [float] that a number of the model stands for. *)
Definition float_of (q : Q) : Float := round_float q.

(** The conversion of an [int] operand to [float]. *)
Definition float_of_int (z : Z) : Exception + Float :=
  match round_float (inject_Z z) with
  | Infinite _ => inl OverflowError
  | x => inr x
  end.

Definition float_is_zero (x : Float) : bool :=
  match x with
  | Finite q => Qeq_bool q 0
  | _ => false
  end.

(** [x / y] on floats. *)
Definition float_div (x y : Float) : Exception + Float :=
  if float_is_zero y then inl ZeroDivisionError
  else
    inr match x, y with
        | NaN, _ | _, NaN => NaN
        | Infinite _, Infinite _ => NaN
        | Infinite s, Finite b => Infinite (xorb s (Qltb b 0))
        | Finite _, Infinite _ => Finite 0
        | Finite a, Finite b => round_float (a / b)
        end.

(** [int(x)] on a float. *)
Definition py_int (x : Float) : Exception + Z :=
  match x with
  | Finite q => inr (Qtrunc q)
  | Infinite _ => inl OverflowError
  | NaN => inl ValueError
  end.

(** Sequencing of steps that may raise. *)
Definition bind {A B : Type} (x : Exception + A) (f : A -> Exception + B)
    : Exception + B :=
  match x with
  | inl ex => inl ex
  | inr a => f a
  end.

(** ** Platform (batsim_py.resource) *)

Inductive PowerStateType : Set :=
| computation
| sleep
| switching_on
| switching_off.

Definition PowerStateType_eqb (a b : PowerStateType) : bool :=
  match a, b with
  | computation, computation | sleep, sleep
  | switching_on, switching_on | switching_off, switching_off => true
  | _, _ => false
  end.

Record PowerState : Set := {
  ps_id : Z;
  ps_type : PowerStateType;
  ps_speed : Q
}.

Record Resource : Set := {
  r_id : Z;
  r_parent_id : Z;
  r_speed : Q
}.

Record Node : Set := {
  n_id : Z;
  n_power_states : list PowerState;
  n_resources : list Resource;
  n_is_on : bool
}.

Record Platform : Set := {
  p_nodes : list Node
}.

Definition all_resources (p : Platform) : list Resource :=
  flat_map n_resources (p_nodes p).

(** Modelled from the spec: [Platform.get_resources] of batsim_py/resource.py,
    which is not among the sources.  It resolves resource ids to the
    resource objects, in the order of the ids; an unknown resource id is a
    fatal lookup miss ([None]). *)
Fixpoint get_resources (p : Platform) (ids : list Z) : option (list Resource) :=
  match ids with
  | [] => Some []
  | i :: rest =>
      match find (fun r => Z.eqb (r_id r) i) (all_resources p),
            get_resources p rest with
      | Some r, Some rs => Some (r :: rs)
      | _, _ => None
      end
  end.

(** Modelled from the spec: [Platform.get_node] of batsim_py/resource.py; the
    node owning a resource, by node id. *)
Definition get_node (p : Platform) (id : Z) : option Node :=
  find (fun n => Z.eqb (n_id n) id) (p_nodes p).

(** Modelled from the spec: [str(ProcSet( *ids))] of the procset package, the
    compact encoding of a set of resource ids.  The set is kept in its
    canonical form, the strictly increasing list of its members; the
    rendering of that list as text is left out. *)
Fixpoint procset_insert (i : Z) (s : list Z) : list Z :=
  match s with
  | [] => [i]
  | x :: r =>
      if Z.ltb i x then i :: s
      else if Z.eqb i x then s
      else x :: procset_insert i r
  end.

Definition ProcSet (ids : list Z) : list Z :=
  fold_left (fun s i => procset_insert i s) ids [].

(** The constructor [ProcSet( *ids)] on ids passed by the caller: a
    negative id is refused with [ValueError] ([None]). *)
Definition ProcSet_new (ids : list Z) : option (list Z) :=
  if existsb (fun i => Z.ltb i 0) ids then None else Some (ProcSet ids).

(** ** Jobs and profiles (batsim_py.job, batsim_py.utils.commons) *)

Inductive WorkloadProfileType : Set :=
| parallel_homogeneous
| parallel_homogeneous_total
| delay.

Record WorkloadProfile : Set := {
  wp_type : WorkloadProfileType;
  wp_cpu : Q
}.

Inductive JobState : Set :=
| COMPLETED_SUCCESSFULLY
| COMPLETED_WALLTIME_REACHED.

Record Job : Set := {
  job_id : string;
  job_profile : string;
  job_res : Z;
  job_walltime : Q;
  job_user : string
}.

Inductive NotifyType : Set :=
| no_more_static_job_to_submit
| registration_finished
| continue_registration
| no_more_external_event_to_occur.

(** ** Events (batsim_py.network) *)

Inductive EventType : Set :=
| SIMULATION_BEGINS
| SIMULATION_ENDS
| JOB_SUBMITTED
| JOB_STARTED
| JOB_COMPLETED
| JOB_KILLED
| RESOURCE_POWER_STATE_CHANGED
| REQUESTED_CALL
| NOTIFY.

Definition EventType_eqb (a b : EventType) : bool :=
  match a, b with
  | SIMULATION_BEGINS, SIMULATION_BEGINS
  | SIMULATION_ENDS, SIMULATION_ENDS
  | JOB_SUBMITTED, JOB_SUBMITTED
  | JOB_STARTED, JOB_STARTED
  | JOB_COMPLETED, JOB_COMPLETED
  | JOB_KILLED, JOB_KILLED
  | RESOURCE_POWER_STATE_CHANGED, RESOURCE_POWER_STATE_CHANGED
  | REQUESTED_CALL, REQUESTED_CALL
  | NOTIFY, NOTIFY => true
  | _, _ => false
  end.

(** The payload of an event; one constructor per event class. *)
Inductive EventData : Set :=
| SimulationBeginsData (platform : Platform)
| SimulationEndsData
| JobSubmittedData (job : Job)
| JobStartedData (id : string) (alloc : list Z)
| JobCompletedData (id : string) (state : JobState) (return_code : string)
    (alloc : list Z)
| JobKilledData (ids : list string)
| ResourcePowerStateChangedData (resources : list Z) (pstate : Z)
| RequestedCallData
| NotifyData (notify_type : NotifyType).

Record Event : Set := {
  timestamp : Q;
  data : EventData
}.

Definition type (e : Event) : EventType :=
  match data e with
  | SimulationBeginsData _ => SIMULATION_BEGINS
  | SimulationEndsData => SIMULATION_ENDS
  | JobSubmittedData _ => JOB_SUBMITTED
  | JobStartedData _ _ => JOB_STARTED
  | JobCompletedData _ _ _ _ => JOB_COMPLETED
  | JobKilledData _ => JOB_KILLED
  | ResourcePowerStateChangedData _ _ => RESOURCE_POWER_STATE_CHANGED
  | RequestedCallData => REQUESTED_CALL
  | NotifyData _ => NOTIFY
  end.

Definition SimulationBeginsEvent (t : Z) (p : Platform) : Event :=
  {| timestamp := inject_Z t; data := SimulationBeginsData p |}.
Definition SimulationEndsEvent (t : Z) : Event :=
  {| timestamp := inject_Z t; data := SimulationEndsData |}.
Definition JobSubmittedEvent (t : Z) (id profile : string) (res : Z)
    (walltime : Q) (user : string) : Event :=
  {| timestamp := inject_Z t;
     data := JobSubmittedData
               {| job_id := id; job_profile := profile; job_res := res;
                  job_walltime := walltime; job_user := user |} |}.
Definition JobStartedEvent (t : Z) (id : string) (alloc : list Z) : Event :=
  {| timestamp := inject_Z t; data := JobStartedData id alloc |}.
Definition JobCompletedEvent (t : Q) (id : string) (st : JobState)
    (rc : string) (alloc : list Z) : Event :=
  {| timestamp := t; data := JobCompletedData id st rc alloc |}.
Definition JobKilledEvent (t : Z) (ids : list string) : Event :=
  {| timestamp := inject_Z t; data := JobKilledData ids |}.
Definition ResourcePowerStateChangedEvent (t : Z) (resources : list Z)
    (pstate : Z) : Event :=
  {| timestamp := inject_Z t;
     data := ResourcePowerStateChangedData resources pstate |}.
Definition RequestedCallEvent (t : Z) : Event :=
  {| timestamp := inject_Z t; data := RequestedCallData |}.
Definition NotifyEvent (t : Z) (nt : NotifyType) : Event :=
  {| timestamp := inject_Z t; data := NotifyData nt |}.

(** ** The sorted container *)

(** Modelled from the spec: [SortedList(key=...)], reached through
    batsim_py/utils/commons.py, which is not among the sources.  [add]
    inserts preserving key order and, for equal keys, insertion order: the
    new element goes after every element whose key is not greater. *)
Section SortedList.
Context {A : Type} (key : A -> Q).

Fixpoint SortedList_add (x : A) (l : list A) : list A :=
  match l with
  | [] => [x]
  | y :: r =>
      if Qle_bool (key y) (key x) then y :: SortedList_add x r
      else x :: l
  end.

(** [pop(p)]: the list without its element of index [p]. *)
Fixpoint SortedList_pop (p : nat) (l : list A) {struct l} : list A :=
  match l, p with
  | [], _ => []
  | _ :: r, O => r
  | y :: r, S p' => y :: SortedList_pop p' r
  end.
End SortedList.

(** [next(p for p, x in enumerate(l) if f(x))]; [None] stands for the
    [StopIteration] of an exhausted generator. *)
Fixpoint next_index {A : Type} (f : A -> bool) (l : list A) : option nat :=
  match l with
  | [] => None
  | x :: r => if f x then Some O else option_map S (next_index f r)
  end.

(** [itertools.takewhile]. *)
Fixpoint takewhile {A : Type} (f : A -> bool) (l : list A) : list A :=
  match l with
  | [] => []
  | x :: r => if f x then x :: takewhile f r else []
  end.

(** [d[k].append(v)] on a [defaultdict(list)]; the dict keeps its keys in
    the order of their first insertion. *)
Fixpoint dd_append (k v : Z) (d : list (Z * list Z)) : list (Z * list Z) :=
  match d with
  | [] => [(k, [v])]
  | (k', vs) :: r =>
      if Z.eqb k' k then (k', vs ++ [v]) :: r
      else (k', vs) :: dd_append k v r
  end.

(** The choice of the transition state of a node for the target [pstate]:
    [inl] an exception, [inr] the transition state, if one is needed. *)
Definition transition_of (n : Node) (pstate : Z) : Exception + option PowerState :=
  match find (fun ps => Z.eqb (ps_id ps) pstate) (n_power_states n) with
  | None => inl StopIteration
  | Some next_ps =>
      if PowerStateType_eqb (ps_type next_ps) sleep then
        match find (fun ps => PowerStateType_eqb (ps_type ps) switching_off)
                (n_power_states n) with
        | None => inl StopIteration
        | Some ps => inr (Some ps)
        end
      else if PowerStateType_eqb (ps_type next_ps) computation && negb (n_is_on n) then
        match find (fun ps => PowerStateType_eqb (ps_type ps) switching_on)
                (n_power_states n) with
        | None => inl StopIteration
        | Some ps => inr (Some ps)
        end
      else inr None
  end.

(** * The self-contained backend: [GridSimulatorHandler] *)

Module Grid.

(** The handler's fields.  [notified] is the trace of the events handed to
    the registered callbacks, in dispatch order; the feeder, the monitors
    and the output file are external collaborators and are left out. *)
Record t : Type := {
  current_time_ : Q;
  events : list Event;
  profiles : gmap string WorkloadProfile;
  submitter_ended : bool;
  platform : option Platform;
  is_running : bool;
  jobs : gmap string Job;
  notified : list Event
}.

(** [__init__]. *)
Definition init : t :=
  {| current_time_ := 0; events := []; profiles := ∅;
     submitter_ended := true; platform := None; is_running := false;
     jobs := ∅; notified := [] |}.

Definition set_current_time_ (x : Q) (g : t) : t :=
  {| current_time_ := x; events := events g; profiles := profiles g;
     submitter_ended := submitter_ended g; platform := platform g;
     is_running := is_running g; jobs := jobs g; notified := notified g |}.
Definition set_events (x : list Event) (g : t) : t :=
  {| current_time_ := current_time_ g; events := x; profiles := profiles g;
     submitter_ended := submitter_ended g; platform := platform g;
     is_running := is_running g; jobs := jobs g; notified := notified g |}.
Definition set_profiles (x : gmap string WorkloadProfile) (g : t) : t :=
  {| current_time_ := current_time_ g; events := events g; profiles := x;
     submitter_ended := submitter_ended g; platform := platform g;
     is_running := is_running g; jobs := jobs g; notified := notified g |}.
Definition set_submitter_ended (x : bool) (g : t) : t :=
  {| current_time_ := current_time_ g; events := events g;
     profiles := profiles g; submitter_ended := x; platform := platform g;
     is_running := is_running g; jobs := jobs g; notified := notified g |}.
Definition set_platform (x : option Platform) (g : t) : t :=
  {| current_time_ := current_time_ g; events := events g;
     profiles := profiles g; submitter_ended := submitter_ended g;
     platform := x; is_running := is_running g; jobs := jobs g;
     notified := notified g |}.
Definition set_is_running (x : bool) (g : t) : t :=
  {| current_time_ := current_time_ g; events := events g;
     profiles := profiles g; submitter_ended := submitter_ended g;
     platform := platform g; is_running := x; jobs := jobs g;
     notified := notified g |}.
Definition set_jobs (x : gmap string Job) (g : t) : t :=
  {| current_time_ := current_time_ g; events := events g;
     profiles := profiles g; submitter_ended := submitter_ended g;
     platform := platform g; is_running := is_running g; jobs := x;
     notified := notified g |}.
Definition set_notified (x : list Event) (g : t) : t :=
  {| current_time_ := current_time_ g; events := events g;
     profiles := profiles g; submitter_ended := submitter_ended g;
     platform := platform g; is_running := is_running g; jobs := jobs g;
     notified := x |}.

(** The [current_time] property. *)
Definition current_time (g : t) : Z := Qfloor (current_time_ g).

(** [self.__events.add(e)]. *)
Definition add_event (e : Event) (g : t) : t :=
  set_events (SortedList_add timestamp e (events g)) g.

(** [execute_job]. *)
Definition execute_job (id : string) (alloc : list Z) (g : t) : Outcome * t :=
  match ProcSet_new alloc with
  | None => (Raised ValueError, g)
  | Some allocation =>
      let event_1 := JobStartedEvent (current_time g) id allocation in
      match jobs g !! id with
      | None => (Raised KeyError, g)
      | Some job =>
          let g := set_jobs (delete id (jobs g)) g in
          match platform g with
          | None => (Raised AttributeError, g)
          | Some p =>
              match get_resources p alloc with
              | None => (Raised KeyError, g)
              | Some rs =>
                  match py_min_list (map r_speed rs) with
                  | None => (Raised ValueError, g)
                  | Some min_speed =>
                      match profiles g !! job_profile job with
                      | None => (Raised KeyError, g)
                      | Some job_profile =>
                          match
                            match wp_type job_profile with
                            | parallel_homogeneous =>
                                bind (float_div (float_of (wp_cpu job_profile))
                                        (float_of min_speed)) py_int
                            | parallel_homogeneous_total =>
                                bind (float_of_int (job_res job)) (fun res =>
                                bind (float_div (float_of (wp_cpu job_profile)) res)
                                  (fun cpu =>
                                bind (float_div cpu (float_of min_speed)) py_int))
                            | delay => inl NotImplementedError
                            end
                          with
                          | inl ex => (Raised ex, g)
                          | inr runtime =>
                              let event_2 :=
                                JobCompletedEvent
                                  (inject_Z (current_time g)
                                   + py_min (inject_Z runtime) (job_walltime job))
                                  id
                                  (if Qltb (inject_Z runtime) (job_walltime job)
                                   then COMPLETED_SUCCESSFULLY
                                   else COMPLETED_WALLTIME_REACHED)
                                  "0" allocation in
                              (Returned, add_event event_2 (add_event event_1 g))
                          end
                      end
                  end
              end
          end
      end
  end.

(** [reject_job]: [del self.__jobs[job_id]]. *)
Definition reject_job (id : string) (g : t) : Outcome * t :=
  match jobs g !! id with
  | None => (Raised KeyError, g)
  | Some _ => (Returned, set_jobs (delete id (jobs g)) g)
  end.

Definition is_requested_call_at (at_ : Z) (e : Event) : bool :=
  EventType_eqb (type e) REQUESTED_CALL && Qeq_bool (timestamp e) (inject_Z at_).

(** [call_me_later]. *)
Definition call_me_later (at_ : Q) (g : t) : Outcome * t :=
  let at_ := Qfloor at_ in
  if Z.leb (current_time g) at_ then
    let evs := takewhile (fun e => Qle_bool (timestamp e) (inject_Z at_)) (events g) in
    if negb (existsb (is_requested_call_at at_) evs)
    then (Returned, add_event (RequestedCallEvent at_) g)
    else (Returned, g)
  else (Raised AssertionError, g).

Definition is_completion_of (i : string) (e : Event) : bool :=
  match data e with
  | JobCompletedData id _ _ _ => String.eqb id i
  | _ => false
  end.

(** The loop of [kill_job]: each id removes the first completion event that
    carries it; an id without one stops the loop with [StopIteration]. *)
Fixpoint kill_loop (ids : list string) (g : t) : Outcome * t :=
  match ids with
  | [] => (Returned, g)
  | i :: rest =>
      match next_index (is_completion_of i) (events g) with
      | None => (Raised StopIteration, g)
      | Some p => kill_loop rest (set_events (SortedList_pop p (events g)) g)
      end
  end.

(** [kill_job]. *)
Definition kill_job (ids : list string) (g : t) : Outcome * t :=
  match kill_loop ids g with
  | (Returned, g') => (Returned, add_event (JobKilledEvent (current_time g') ids) g')
  | r => r
  end.

(** [register_job]. *)
Definition register_job (id profile : string) (res : Z) (walltime : Q)
    (user : string) (g : t) : Outcome * t :=
  let e := JobSubmittedEvent (current_time g) id profile res walltime user in
  let job := {| job_id := id; job_profile := profile; job_res := res;
                job_walltime := walltime; job_user := user |} in
  (Returned, add_event e (set_jobs (<[id := job]> (jobs g)) g)).

(** [register_profile]. *)
Definition register_profile (workload_name profile_name : string)
    (profile : WorkloadProfile) (g : t) : Outcome * t :=
  (Returned, set_profiles (<[profile_name := profile]> (profiles g)) g).

(** The local variables of [set_resources_pstate]: the two
    [defaultdict(list)]s, the visited nodes and the variable [r] of the
    inner loop, which outlives it ([None] while unbound). *)
Record PstateLocals : Set := {
  timestamps : list (Z * list Z);
  transitions : list (Z * list Z);
  nodes_visited : list Z;
  r_var : option Resource
}.

(** [for r in n.resources: ...] of [set_resources_pstate]. *)
Fixpoint pstate_node_loop (time_to_switch : Z) (trans_ps : option PowerState)
    (rs : list Resource) (l : PstateLocals) : PstateLocals :=
  match rs with
  | [] => l
  | r :: rest =>
      pstate_node_loop time_to_switch trans_ps rest
        {| timestamps := dd_append time_to_switch (r_id r) (timestamps l);
           transitions :=
             match trans_ps with
             | Some ps => dd_append (ps_id ps) (r_id r) (transitions l)
             | None => transitions l
             end;
           nodes_visited := nodes_visited l;
           r_var := Some r |}
  end.

(** [for resource in self.__platform.get_resources(resources): ...]. *)
Fixpoint pstate_loop (p : Platform) (pstate : Z) (rs : list Resource)
    (l : PstateLocals) : Exception + PstateLocals :=
  match rs with
  | [] => inr l
  | resource :: rest =>
      if existsb (Z.eqb (r_parent_id resource)) (nodes_visited l)
      then pstate_loop p pstate rest l
      else
        match get_node p (r_parent_id resource) with
        | None => inl KeyError
        | Some n =>
            match transition_of n pstate with
            | inl ex => inl ex
            | inr trans_ps =>
                match
                  match trans_ps with
                  | None => inr 0%Z
                  | Some ps =>
                      bind (float_div (Finite 1) (float_of (ps_speed ps))) py_int
                  end
                with
                | inl ex => inl ex
                | inr time_to_switch =>
                    let l := pstate_node_loop time_to_switch trans_ps
                               (n_resources n) l in
                    match r_var l with
                    | None => inl UnboundLocalError
                    | Some r =>
                        pstate_loop p pstate rest
                          {| timestamps := timestamps l;
                             transitions := transitions l;
                             nodes_visited :=
                               if existsb (Z.eqb (r_parent_id r)) (nodes_visited l)
                               then nodes_visited l
                               else nodes_visited l ++ [r_parent_id r];
                             r_var := r_var l |}
                    end
                end
            end
        end
  end.

(** [set_resources_pstate]. *)
Definition set_resources_pstate (resources : list Z) (pstate : Z) (g : t)
    : Outcome * t :=
  match platform g with
  | None => (Raised AttributeError, g)
  | Some p =>
      match get_resources p resources with
      | None => (Raised KeyError, g)
      | Some rs =>
          match pstate_loop p pstate rs
                  {| timestamps := []; transitions := [];
                     nodes_visited := []; r_var := None |} with
          | inl ex => (Raised ex, g)
          | inr l =>
              let g1 :=
                fold_left
                  (fun g '(ps_id, res_ids) =>
                     add_event (ResourcePowerStateChangedEvent
                                  (current_time g) (ProcSet res_ids) ps_id) g)
                  (transitions l) g in
              let g2 :=
                fold_left
                  (fun g '(time_to_switch, ids) =>
                     add_event (ResourcePowerStateChangedEvent
                                  (current_time g + time_to_switch)
                                  (ProcSet ids) pstate) g)
                  (timestamps l) g1 in
              (Returned, g2)
          end
      end
  end.

(** [notify]. *)
Definition notify (notify_type : NotifyType) (g : t) : Outcome * t :=
  let g :=
    match notify_type with
    | no_more_static_job_to_submit | registration_finished =>
        set_submitter_ended true g
    | _ => g
    end in
  (Returned, add_event (NotifyEvent (current_time g) notify_type) g).

(** The commands of the handler that policy code may issue, from the driver
    or from inside a callback. *)
Inductive Cmd : Type :=
| ExecuteJob (id : string) (alloc : list Z)
| RejectJob (id : string)
| CallMeLater (at_ : Q)
| KillJob (ids : list string)
| RegisterJob (id profile : string) (res : Z) (walltime : Q) (user : string)
| RegisterProfile (workload_name profile_name : string) (profile : WorkloadProfile)
| SetResourcesPstate (resources : list Z) (pstate : Z)
| Notify (notify_type : NotifyType).

Definition run_cmd (c : Cmd) (g : t) : Outcome * t :=
  match c with
  | ExecuteJob id alloc => execute_job id alloc g
  | RejectJob id => reject_job id g
  | CallMeLater at_ => call_me_later at_ g
  | KillJob ids => kill_job ids g
  | RegisterJob id profile res walltime user =>
      register_job id profile res walltime user g
  | RegisterProfile w n p => register_profile w n p g
  | SetResourcesPstate rs ps => set_resources_pstate rs ps g
  | Notify nt => notify nt g
  end.

(** A sequence of commands; the first exception ends it. *)
Fixpoint run_cmds (cs : list Cmd) (g : t) : Outcome * t :=
  match cs with
  | [] => (Returned, g)
  | c :: rest =>
      match run_cmd c g with
      | (Returned, g') => run_cmds rest g'
      | r => r
      end
  end.

(** [ack]. *)
Definition ack (g : t) : Outcome * t := (Returned, g).

(** [get_next_event_time]. *)
Definition get_next_event_time (g : t) : Q :=
  match events g with
  | e :: _ => timestamp e
  | [] => 0
  end.

(** [change_job_state]. *)
Definition change_job_state (id job_state kill_reason : string) (g : t)
    : Outcome * t :=
  (Raised NotImplementedError, g).

Section Callbacks.
(** The callbacks registered with [set_callback] are policy code.  What
    they do to the handler when an event is handed to them is a sequence
    of commands, which may depend on everything the handler has seen. *)
Variable callbacks : t -> Event -> list Cmd.

(** [_dispatch_events]: the [while] loop runs as long as the head of the
    queue carries the current time; [fuel] bounds its iterations. *)
Fixpoint _dispatch_events (fuel : nat) (g : t) : Outcome * t :=
  match fuel with
  | O => (OutOfFuel, g)
  | S fuel =>
      match events g with
      | [] => (Returned, g)
      | event :: rest =>
          if Qeq_bool (timestamp event) (inject_Z (current_time g)) then
            let g := set_notified (notified g ++ [event]) (set_events rest g) in
            match run_cmds (callbacks g event) g with
            | (Returned, g') => _dispatch_events fuel g'
            | r => r
            end
          else (Returned, g)
      end
  end.

(** [finish]. *)
Definition finish (fuel : nat) (g : t) : Outcome * t :=
  if negb (is_running g) then (Returned, g)
  else
    let g := set_is_running false g in
    let g := set_submitter_ended true g in
    let g := set_events [] g in
    let g := set_profiles ∅ g in
    let g := set_jobs ∅ g in
    let g := add_event (SimulationEndsEvent (current_time g)) g in
    _dispatch_events fuel g.

(** [proceed_simulation]. *)
Definition proceed_simulation (fuel : nat) (g : t) : Outcome * t :=
  if negb (is_running g) then (Raised AssertionError, g)
  else
    match events g with
    | [] =>
        if submitter_ended g && bool_decide (jobs g = ∅)
        then finish fuel g
        else (Raised RuntimeError, g)
    | e :: _ =>
        _dispatch_events fuel (set_current_time_ (timestamp e) g)
    end.

(** [start]; [platform_fn] is the platform the file resolves to, if a
    file is given, and [workload_fn] the commands the job feeder issues
    when it is started on the workload. *)
Definition start (platform_fn : option Platform) (workload_fn : option (list Cmd))
    (fuel : nat) (g : t) : Outcome * t :=
  if is_running g then (Raised AssertionError, g)
  else
    match platform_fn with
    | None => (Raised AssertionError, g)
    | Some resources =>
        let g := set_submitter_ended false g in
        let g := set_jobs ∅ g in
        let g := set_current_time_ 0 g in
        let event := SimulationBeginsEvent (current_time g) resources in
        let g := set_platform (Some resources) g in
        match
          match workload_fn with
          | Some cs => run_cmds cs g
          | None => (Returned, g)
          end
        with
        | (Returned, g) =>
            let g := add_event event g in
            let g := set_is_running true g in
            _dispatch_events fuel g
        | r => r
        end
    end.
End Callbacks.

End Grid.

(** * The remote backend: [BatsimSimulatorHandler] *)

Module Batsim.

(** Requests (batsim_py.network); one constructor per request class, and
    [NotifyData] for the [Notify] objects that share the buffer. *)
Inductive RequestData : Set :=
| ExecuteJobData (id : string) (alloc : list Z)
| RejectJobData (id : string)
| CallMeLaterData (at_ : Q)
| KillJobData (ids : list string)
| RegisterJobData (job : Job)
| RegisterProfileData (workload_name profile_name : string)
    (profile : WorkloadProfile)
| SetResourceStateData (resources : list Z) (state : Z)
| ChangeJobStateData (id job_state kill_reason : string)
| NotifyRequestData (notify_type : NotifyType).

Record Request : Set := {
  rq_timestamp : Q;
  rq_data : RequestData
}.

(** [req.type == RequestType.SET_RESOURCE_STATE]. *)
Definition is_set_resource_state (r : Request) : bool :=
  match rq_data r with
  | SetResourceStateData _ _ => true
  | _ => false
  end.

(** Modelled from the spec: [SetResourceStateRequest] and its
    [update_resources] of batsim_py/network.py, which is not among the
    sources.  The request carries the set of the resource ids and the
    target state; [update_resources] merges by taking the union of the
    resource ids with the new ones and leaves the rest of the request as
    it is. *)
Definition SetResourceStateRequest (t : Z) (resources : list Z) (pstate : Z)
    : Request :=
  {| rq_timestamp := inject_Z t;
     rq_data := SetResourceStateData (ProcSet resources) pstate |}.

Definition update_resources (resources : list Z) (r : Request) : Request :=
  match rq_data r with
  | SetResourceStateData old st =>
      {| rq_timestamp := rq_timestamp r;
         rq_data := SetResourceStateData (ProcSet (old ++ resources)) st |}
  | _ => r
  end.

(** An outgoing message: the time and the batch of requests. *)
Record Message : Set := {
  msg_now : Z;
  msg_requests : list Request
}.

(** An incoming message: the time and the batch of events. *)
Record Reply : Set := {
  reply_now : Q;
  reply_events : list Event
}.

(** The handler's fields.  [simulator] tells whether [self.__simulator]
    holds a process; [sent] is the trace of the messages handed to the
    network, [bound] whether the channel is bound, and [notified] the trace
    of the events handed to the registered callbacks.  Callbacks other than
    the handler's own [on_simulation_ends] are policy code: every call of
    them is recorded in [notified], and the commands they issue are calls
    of the methods below. *)
Record t : Type := {
  requests : list Request;
  current_time_ : Q;
  simulator : bool;
  platform : option Platform;
  sent : list Message;
  bound : bool;
  notified : list Event
}.

(** [__init__]. *)
Definition init : t :=
  {| requests := []; current_time_ := 0; simulator := false;
     platform := None; sent := []; bound := false; notified := [] |}.

Definition set_requests (x : list Request) (b : t) : t :=
  {| requests := x; current_time_ := current_time_ b;
     simulator := simulator b; platform := platform b; sent := sent b;
     bound := bound b; notified := notified b |}.
Definition set_current_time_ (x : Q) (b : t) : t :=
  {| requests := requests b; current_time_ := x;
     simulator := simulator b; platform := platform b; sent := sent b;
     bound := bound b; notified := notified b |}.
Definition set_simulator (x : bool) (b : t) : t :=
  {| requests := requests b; current_time_ := current_time_ b;
     simulator := x; platform := platform b; sent := sent b;
     bound := bound b; notified := notified b |}.
Definition set_platform (x : option Platform) (b : t) : t :=
  {| requests := requests b; current_time_ := current_time_ b;
     simulator := simulator b; platform := x; sent := sent b;
     bound := bound b; notified := notified b |}.
Definition set_sent (x : list Message) (b : t) : t :=
  {| requests := requests b; current_time_ := current_time_ b;
     simulator := simulator b; platform := platform b; sent := x;
     bound := bound b; notified := notified b |}.
Definition set_bound (x : bool) (b : t) : t :=
  {| requests := requests b; current_time_ := current_time_ b;
     simulator := simulator b; platform := platform b; sent := sent b;
     bound := x; notified := notified b |}.
Definition set_notified (x : list Event) (b : t) : t :=
  {| requests := requests b; current_time_ := current_time_ b;
     simulator := simulator b; platform := platform b; sent := sent b;
     bound := bound b; notified := x |}.

(** The [is_running] and [current_time] properties. *)
Definition is_running (b : t) : bool := simulator b.
Definition current_time (b : t) : Z := Qfloor (current_time_ b).

(** [self.__network.send(msg)]. *)
Definition network_send (m : Message) (b : t) : t :=
  set_sent (sent b ++ [m]) b.

(** [ack]. *)
Definition ack (b : t) : t :=
  network_send {| msg_now := current_time b; msg_requests := [] |} b.

(** [_close_simulator]. *)
Definition _close_simulator (b : t) : t :=
  if simulator b then set_simulator false b else b.

(** [on_simulation_ends], the callback the constructor registers for
    [SIMULATION_ENDS]. *)
Definition on_simulation_ends (b : t) : t :=
  let b := if simulator b then _close_simulator (ack b) else b in
  set_bound false (set_requests [] b).

(** [_append_request]. *)
Definition _append_request (r : Request) (b : t) : t :=
  set_requests (SortedList_add rq_timestamp r (requests b)) b.

(** [reject_job]. *)
Definition reject_job (id : string) (b : t) : Outcome * t :=
  let request := {| rq_timestamp := inject_Z (current_time b);
                    rq_data := RejectJobData id |} in
  (Returned, _append_request request b).

(** [call_me_later]. *)
Definition call_me_later (at_ : Q) (b : t) : Outcome * t :=
  let request := {| rq_timestamp := inject_Z (current_time b);
                    rq_data := CallMeLaterData (inject_Z (Qfloor at_) + (9 # 10000)) |} in
  (Returned, _append_request request b).

(** [kill_job]. *)
Definition kill_job (ids : list string) (b : t) : Outcome * t :=
  let request := {| rq_timestamp := inject_Z (current_time b);
                    rq_data := KillJobData ids |} in
  (Returned, _append_request request b).

(** [register_profile]. *)
Definition register_profile (workload_name profile_name : string)
    (profile : WorkloadProfile) (b : t) : Outcome * t :=
  let request := {| rq_timestamp := inject_Z (current_time b);
                    rq_data := RegisterProfileData workload_name profile_name profile |} in
  (Returned, _append_request request b).

(** [change_job_state]. *)
Definition change_job_state (id job_state kill_reason : string) (b : t)
    : Outcome * t :=
  let request := {| rq_timestamp := inject_Z (current_time b);
                    rq_data := ChangeJobStateData id job_state kill_reason |} in
  (Returned, _append_request request b).

(** The merge loop of [set_resources_pstate]: the first request of the
    buffer with the current time and the type [SET_RESOURCE_STATE] takes
    the resources; [None] when there is none ([append] stays [True]). *)
Fixpoint merge_request (now : Z) (resources : list Z) (rs : list Request)
    : option (list Request) :=
  match rs with
  | [] => None
  | req :: rest =>
      if Qeq_bool (rq_timestamp req) (inject_Z now) && is_set_resource_state req
      then Some (update_resources resources req :: rest)
      else option_map (cons req) (merge_request now resources rest)
  end.

(** The loop of [set_resources_pstate] that collects the transitions; the
    locals are the [defaultdict(list)], the visited nodes and the variable
    [r] of the inner loop, which is bound only when a node has a
    transition. *)
Fixpoint transitions_loop (p : Platform) (pstate : Z) (rs : list Resource)
    (transitions : list (Z * list Z)) (nodes_visited : list Z)
    (r_var : option Resource) : Exception + list (Z * list Z) :=
  match rs with
  | [] => inr transitions
  | resource :: rest =>
      if existsb (Z.eqb (r_parent_id resource)) nodes_visited
      then transitions_loop p pstate rest transitions nodes_visited r_var
      else
        match get_node p (r_parent_id resource) with
        | None => inl KeyError
        | Some n =>
            match transition_of n pstate with
            | inl ex => inl ex
            | inr trans_ps =>
                let transitions :=
                  match trans_ps with
                  | Some ps =>
                      fold_left (fun d r => dd_append (ps_id ps) (r_id r) d)
                        (n_resources n) transitions
                  | None => transitions
                  end in
                let r_var :=
                  match trans_ps with
                  | Some _ => List.last (map Some (n_resources n)) r_var
                  | None => r_var
                  end in
                match r_var with
                | None => inl UnboundLocalError
                | Some r =>
                    transitions_loop p pstate rest transitions
                      (if existsb (Z.eqb (r_parent_id r)) nodes_visited
                       then nodes_visited
                       else nodes_visited ++ [r_parent_id r])
                      r_var
                end
            end
        end
  end.

(** [_send_requests]. *)
Definition _send_requests (b : t) : t :=
  let msg := {| msg_now := current_time b; msg_requests := requests b |} in
  network_send msg (set_requests [] b).

(** [_read_events]; [msg] is what the network delivers. *)
Definition _read_events (msg : Reply) (b : t) : list Event * t :=
  (reply_events msg, set_current_time_ (reply_now msg) b).

(** The commands of the handler that policy code may issue, from the driver
    or from inside a callback. *)
Inductive Cmd : Type :=
| ExecuteJob (id : string) (alloc : list Z)
| RejectJob (id : string)
| CallMeLater (at_ : Q)
| KillJob (ids : list string)
| RegisterJob (id profile : string) (res : Z) (walltime : Q) (user : string)
| RegisterProfile (workload_name profile_name : string) (profile : WorkloadProfile)
| SetResourcesPstate (resources : list Z) (pstate : Z)
| ChangeJobState (id job_state kill_reason : string)
| Notify (notify_type : NotifyType).

(** The methods that hand events to the callbacks.  They reach the
    callbacks through [self._dispatch_events], and a callback may call
    them in turn; [dispatch] is the dispatcher they call, and an exception
    raised under it goes through them. *)
Section Dispatcher.
Variable dispatch : list Event -> t -> Outcome * t.

(** [finish]. *)
Definition finish (b : t) : Outcome * t :=
  let b := _close_simulator b in
  dispatch [SimulationEndsEvent (current_time b)] b.

(** [execute_job]. *)
Definition execute_job (id : string) (alloc : list Z) (b : t) : Outcome * t :=
  let request := {| rq_timestamp := inject_Z (current_time b);
                    rq_data := ExecuteJobData id (ProcSet alloc) |} in
  match dispatch [JobStartedEvent (current_time b) id (ProcSet alloc)] b with
  | (Returned, b) => (Returned, _append_request request b)
  | r => r
  end.

(** [register_job]. *)
Definition register_job (id profile : string) (res : Z) (walltime : Q)
    (user : string) (b : t) : Outcome * t :=
  let job := {| job_id := id; job_profile := profile; job_res := res;
                job_walltime := walltime; job_user := user |} in
  let request := {| rq_timestamp := inject_Z (current_time b);
                    rq_data := RegisterJobData job |} in
  let b := _append_request request b in
  dispatch [JobSubmittedEvent (current_time b) id profile res walltime user] b.

(** [set_resources_pstate]. *)
Definition set_resources_pstate (resources : list Z) (pstate : Z) (b : t)
    : Outcome * t :=
  let b :=
    match merge_request (current_time b) resources (requests b) with
    | Some rs => set_requests rs b
    | None =>
        _append_request (SetResourceStateRequest (current_time b) resources pstate) b
    end in
  match platform b with
  | None => (Raised AttributeError, b)
  | Some p =>
      match get_resources p resources with
      | None => (Raised KeyError, b)
      | Some rs =>
          match transitions_loop p pstate rs [] [] None with
          | inl ex => (Raised ex, b)
          | inr transitions =>
              let evs :=
                map (fun '(ps_id, res_ids) =>
                       ResourcePowerStateChangedEvent (current_time b)
                         (ProcSet res_ids) ps_id)
                  transitions in
              dispatch evs b
          end
      end
  end.

(** [notify]. *)
Definition notify (notify_type : NotifyType) (b : t) : Outcome * t :=
  let request := {| rq_timestamp := inject_Z (current_time b);
                    rq_data := NotifyRequestData notify_type |} in
  let b := _append_request request b in
  dispatch [NotifyEvent (current_time b) notify_type] b.

(** [proceed_simulation]; [msg] is the reply of the external process to the
    batch. *)
Definition proceed_simulation (msg : Reply) (b : t) : Outcome * t :=
  if negb (is_running b) then (Raised AssertionError, b)
  else
    let '(evs, b) := _read_events msg (_send_requests b) in
    dispatch evs b.

(** [start]; [platform_fn] is the platform the file resolves to, if a file
    is given. *)
Definition start (platform_fn : option Platform) (b : t) : Outcome * t :=
  if is_running b then (Raised AssertionError, b)
  else
    match platform_fn with
    | None => (Raised AssertionError, b)
    | Some resources =>
        let b := set_simulator true b in
        let b := set_bound true b in
        let b := set_current_time_ 0 b in
        let event := SimulationBeginsEvent (current_time b) resources in
        let b := set_platform (Some resources) b in
        dispatch [event] b
    end.

Definition run_cmd (c : Cmd) (b : t) : Outcome * t :=
  match c with
  | ExecuteJob id alloc => execute_job id alloc b
  | RejectJob id => reject_job id b
  | CallMeLater at_ => call_me_later at_ b
  | KillJob ids => kill_job ids b
  | RegisterJob id profile res walltime user =>
      register_job id profile res walltime user b
  | RegisterProfile w n p => register_profile w n p b
  | SetResourcesPstate rs ps => set_resources_pstate rs ps b
  | ChangeJobState id st reason => change_job_state id st reason b
  | Notify nt => notify nt b
  end.

(** A sequence of commands; the first exception ends it. *)
Fixpoint run_cmds (cs : list Cmd) (b : t) : Outcome * t :=
  match cs with
  | [] => (Returned, b)
  | c :: rest =>
      match run_cmd c b with
      | (Returned, b') => run_cmds rest b'
      | r => r
      end
  end.
End Dispatcher.

Section Callbacks.
(** The callbacks registered with [set_callback] are policy code.  What
    they do to the handler when an event is handed to them is a sequence
    of commands, which may depend on everything the handler has seen. *)
Variable callbacks : t -> Event -> list Cmd.

(** [_dispatch_events(events)]: each event goes to the callbacks of its
    type in the order of their registration, [on_simulation_ends], which
    the constructor registers, before the policy's.  The commands of a
    callback dispatch in turn; [fuel] bounds the depth of that nesting. *)
Fixpoint _dispatch_events (fuel : nat) (evs : list Event) (b : t) {struct fuel}
    : Outcome * t :=
  match fuel with
  | O => (OutOfFuel, b)
  | S fuel =>
      (fix loop (evs : list Event) (b : t) {struct evs} : Outcome * t :=
         match evs with
         | [] => (Returned, b)
         | e :: rest =>
             let b := set_notified (notified b ++ [e]) b in
             let b := if EventType_eqb (type e) SIMULATION_ENDS
                      then on_simulation_ends b else b in
             match run_cmds (_dispatch_events fuel) (callbacks b e) b with
             | (Returned, b') => loop rest b'
             | r => r
             end
         end) evs b
  end.
End Callbacks.

End Batsim.

(** * The event enumerations of [batsim_py/events.py] *)

Module Events.

Inductive JobEvent : Set :=
| SUBMITTED
| ALLOCATED
| REJECTED
| STARTED
| COMPLETED.

Inductive HostEvent : Set :=
| STATE_CHANGED
| COMPUTATION_POWER_STATE_CHANGED
| SWITCHING_OFF
| SWITCHING_ON
| SLEEP
| ON
| IDLE
| COMPUTING.

Inductive SimulatorEvent : Set :=
| SIMULATION_BEGINS
| SIMULATION_ENDS.

(** The [value] of a member. *)
Definition JobEvent_value (e : JobEvent) : Z :=
  match e with
  | SUBMITTED => 0
  | ALLOCATED => 1
  | REJECTED => 2
  | STARTED => 3
  | COMPLETED => 4
  end.

Definition HostEvent_value (e : HostEvent) : Z :=
  match e with
  | STATE_CHANGED => 0
  | COMPUTATION_POWER_STATE_CHANGED => 1
  | SWITCHING_OFF => 2
  | SWITCHING_ON => 3
  | SLEEP => 4
  | ON => 5
  | IDLE => 6
  | COMPUTING => 7
  end.

Definition SimulatorEvent_value (e : SimulatorEvent) : Z :=
  match e with
  | SIMULATION_BEGINS => 0
  | SIMULATION_ENDS => 1
  end.

(** The members in the order of their definition, as iterating over the
    class yields them. *)
Definition JobEvent_members : list JobEvent :=
  [SUBMITTED; ALLOCATED; REJECTED; STARTED; COMPLETED].

Definition HostEvent_members : list HostEvent :=
  [STATE_CHANGED; COMPUTATION_POWER_STATE_CHANGED; SWITCHING_OFF;
   SWITCHING_ON; SLEEP; ON; IDLE; COMPUTING].

Definition SimulatorEvent_members : list SimulatorEvent :=
  [SIMULATION_BEGINS; SIMULATION_ENDS].

(** The lookup of a member by value, [JobEvent(v)]: the first member with
    that value; [None] stands for the [ValueError]. *)
Definition JobEvent_of_value (v : Z) : option JobEvent :=
  find (fun e => Z.eqb (JobEvent_value e) v) JobEvent_members.

Definition HostEvent_of_value (v : Z) : option HostEvent :=
  find (fun e => Z.eqb (HostEvent_value e) v) HostEvent_members.

Definition SimulatorEvent_of_value (v : Z) : option SimulatorEvent :=
  find (fun e => Z.eqb (SimulatorEvent_value e) v) SimulatorEvent_members.

End Events.

(** * Specification-side definitions *)

(** A float that is not negative. *)
Definition float_nonneg (x : Float) : Prop :=
  match x with
  | Finite r => 0 <= r
  | Infinite negative => negative = false
  | NaN => True
  end.

(** [l'] is [l] with [x] put in by key, as [SortedList.add] does: after
    the elements whose key is not greater, before the first one whose key
    is greater. *)
Definition inserted {A : Type} (key : A -> Q) (x : A) (l l' : list A) : Prop :=
  exists before after,
    l = (before ++ after)%list /\ l' = (before ++ x :: after)%list /\
    Forall (fun y => key y <= key x) before /\
    match after with
    | [] => True
    | y :: _ => key x < key y
    end.

(** The quotient that [execute_job] truncates to the runtime: the work of
    the profile over the least speed, in float arithmetic. *)
Definition work_quotient (prof : WorkloadProfile) (job : Job) (min_speed : Q)
    : Exception + Float :=
  match wp_type prof with
  | parallel_homogeneous =>
      float_div (float_of (wp_cpu prof)) (float_of min_speed)
  | parallel_homogeneous_total =>
      bind (float_of_int (job_res job)) (fun res =>
      bind (float_div (float_of (wp_cpu prof)) res) (fun cpu =>
      float_div cpu (float_of min_speed)))
  | delay => inl NotImplementedError
  end.


Definition example_power_states : list PowerState :=
  [ {| ps_id := 0; ps_type := computation; ps_speed := 2 |};
    {| ps_id := 1; ps_type := sleep; ps_speed := 0 |};
    {| ps_id := 2; ps_type := switching_off; ps_speed := 1 # 5 |};
    {| ps_id := 3; ps_type := switching_on; ps_speed := 1 # 3 |} ].

Definition example_node : Node :=
  {| n_id := 0; n_power_states := example_power_states;
     n_resources := [ {| r_id := 0; r_parent_id := 0; r_speed := 2 |};
                      {| r_id := 1; r_parent_id := 0; r_speed := 2 |} ];
     n_is_on := true |}.

Definition example_platform : Platform := {| p_nodes := [example_node] |}.

Definition example_job (walltime : Q) : Job :=
  {| job_id := "j1"; job_profile := "p"; job_res := 1;
     job_walltime := walltime; job_user := "user" |}.

Definition example_profile : WorkloadProfile :=
  {| wp_type := parallel_homogeneous; wp_cpu := 100 |}.

(** A running handler at time 7 with one pending job of the given
    walltime. *)
Definition example_grid (walltime : Q) : Grid.t :=
  {| Grid.current_time_ := 7; Grid.events := [];
     Grid.profiles := {[ "p"%string := example_profile ]};
     Grid.submitter_ended := true;
     Grid.platform := Some example_platform; Grid.is_running := true;
     Grid.jobs := {[ "j1"%string := example_job walltime ]};
     Grid.notified := [] |}.


(** The pending events that are not the completion of one of [ids]. *)
Definition without_completions (ids : list string) (l : list Event) : list Event :=
  List.filter (fun e => negb (existsb (fun i => Grid.is_completion_of i e) ids)) l.

(** The list without the first element that satisfies [f]. *)
Fixpoint remove_first {A : Type} (f : A -> bool) (l : list A) : list A :=
  match l with
  | [] => []
  | x :: r => if f x then r else x :: remove_first f r
  end.

(** The pending events once the first completion event of each of [ids],
    in turn, is taken out. *)
Definition without_first_completions (ids : list string) (l : list Event)
    : list Event :=
  fold_left (fun l i => remove_first (Grid.is_completion_of i) l) ids l.

(** A handler at time 10: the completion of job "a" is pending for time 50,
    the completion of job "b" has been dispatched at time 5. *)
Definition example_kill_grid : Grid.t :=
  {| Grid.current_time_ := 10;
     Grid.events := [ JobCompletedEvent 50 "a" COMPLETED_SUCCESSFULLY "0" [0%Z] ];
     Grid.profiles := ∅; Grid.submitter_ended := true;
     Grid.platform := Some example_platform; Grid.is_running := true;
     Grid.jobs := ∅;
     Grid.notified := [ JobCompletedEvent 5 "b" COMPLETED_SUCCESSFULLY "0" [1%Z] ] |}.

(** The order of a container sorted by [key]. *)
Definition key_le {A : Type} (key : A -> Q) (a b : A) : Prop := key a <= key b.

(** The order of the event queue. *)
Definition by_timestamp : Event -> Event -> Prop := key_le timestamp.

(** The number of requested-call events of the queue at a time. *)
Definition requested_calls_at (at_ : Z) (l : list Event) : nat :=
  length (List.filter (Grid.is_requested_call_at at_) l).

(** The request that the remote [call_me_later] builds. *)
Definition call_me_later_request (now : Z) (at_ : Q) : Batsim.Request :=
  {| Batsim.rq_timestamp := inject_Z now;
     Batsim.rq_data := Batsim.CallMeLaterData (inject_Z (Qfloor at_) + (9 # 10000)) |}.

(** The request that the remote [reject_job] builds. *)
Definition reject_job_request (now : Z) (id : string) : Batsim.Request :=
  {| Batsim.rq_timestamp := inject_Z now;
     Batsim.rq_data := Batsim.RejectJobData id |}.

(** A remote handler at time 5, its process running, nothing queued. *)
Definition example_batsim : Batsim.t :=
  {| Batsim.requests := []; Batsim.current_time_ := 5;
     Batsim.simulator := true; Batsim.platform := Some example_platform;
     Batsim.sent := []; Batsim.bound := true; Batsim.notified := [] |}.

(** What no command touches: the clock, the running flag, the platform and
    the trace of the callbacks. *)
Definition same_frame (g g' : Grid.t) : Prop :=
  Grid.current_time_ g' = Grid.current_time_ g /\
  Grid.is_running g' = Grid.is_running g /\
  Grid.platform g' = Grid.platform g /\
  Grid.notified g' = Grid.notified g.

(** The locals of [set_resources_pstate] before its loop. *)
Definition no_locals : Grid.PstateLocals :=
  {| Grid.timestamps := []; Grid.transitions := [];
     Grid.nodes_visited := []; Grid.r_var := None |}.

(** The delay of a transition: [0 if not trans_ps else int(1/trans_ps.speed)]. *)
Definition time_to_switch (trans_ps : option PowerState) : Exception + Z :=
  match trans_ps with
  | None => inr 0%Z
  | Some ps => bind (float_div (Finite 1) (float_of (ps_speed ps))) py_int
  end.

(** The resources of a node carry the id of the node. *)
Definition node_owns_resources (n : Node) : Prop :=
  Forall (fun r => r_parent_id r = n_id n) (n_resources n).

(** A handler at time 7 on the example platform, both resources of the
    node computing. *)
Definition example_pstate_grid : Grid.t :=
  {| Grid.current_time_ := 7; Grid.events := [];
     Grid.profiles := ∅; Grid.submitter_ended := true;
     Grid.platform := Some example_platform; Grid.is_running := true;
     Grid.jobs := ∅; Grid.notified := [] |}.

(** The test of the merge loop of the remote [set_resources_pstate]: a
    request for a power state stamped with the time [now]. *)
Definition merge_candidate (now : Z) (r : Batsim.Request) : bool :=
  Qeq_bool (Batsim.rq_timestamp r) (inject_Z now) && Batsim.is_set_resource_state r.

(** The request left by two calls for the same time: the union of the
    resource ids with the target state of the first call. *)
Definition merged_request (now : Z) (r1 r2 : list Z) (p1 : Z) : Batsim.Request :=
  {| Batsim.rq_timestamp := inject_Z now;
     Batsim.rq_data := Batsim.SetResourceStateData (ProcSet (ProcSet r1 ++ r2)) p1 |}.

(** The batch that [_send_requests] hands to the network. *)
Definition batch (b : Batsim.t) : Batsim.Message :=
  {| Batsim.msg_now := Batsim.current_time b;
     Batsim.msg_requests := Batsim.requests b |}.

(** A reply of the external process that carries no event. *)
Definition empty_reply (now : Q) : Batsim.Reply :=
  {| Batsim.reply_now := now; Batsim.reply_events := [] |}.

(** [itertools.dropwhile], the rest of what [takewhile] takes. *)
Fixpoint dropwhile {A : Type} (f : A -> bool) (l : list A) : list A :=
  match l with
  | [] => []
  | x :: r => if f x then dropwhile f r else l
  end.

(** The test of the loop of [_dispatch_events]. *)
Definition at_time (now : Z) (e : Event) : bool :=
  Qeq_bool (timestamp e) (inject_Z now).

(** Callbacks that issue no command. *)
Definition quiet : Grid.t -> Event -> list Grid.Cmd := fun _ _ => [].

(** Callbacks of the remote handler that issue no command. *)
Definition batsim_quiet : Batsim.t -> Event -> list Batsim.Cmd := fun _ _ => [].

(** The dispatcher of a remote handler whose policy callbacks issue no
    command; any depth of nesting is enough for it. *)
Definition quiet_dispatch (n : nat) : list Event -> Batsim.t -> Outcome * Batsim.t :=
  Batsim._dispatch_events batsim_quiet (S n).

(** What handing events over does to the remote handler itself, apart
    from what the callbacks of the policy do: each event joins the trace,
    and [SimulationEnds] runs [on_simulation_ends]. *)
Definition hand_over_one (e : Event) (b : Batsim.t) : Batsim.t :=
  let b := Batsim.set_notified (Batsim.notified b ++ [e]) b in
  if EventType_eqb (type e) SIMULATION_ENDS
  then Batsim.on_simulation_ends b else b.

Fixpoint hand_over (evs : list Event) (b : Batsim.t) : Batsim.t :=
  match evs with
  | [] => b
  | e :: rest => hand_over rest (hand_over_one e b)
  end.

Definition is_simulation_ends (e : Event) : bool :=
  EventType_eqb (type e) SIMULATION_ENDS.

(** A started handler with nothing to do and a feeder that has not
    signalled its end: the state [start] leaves without a workload. *)
Definition example_started_grid : Grid.t :=
  snd (Grid.start quiet (Some example_platform) None 2 Grid.init).

(** ** Runs of the self-contained backend *)

(** A float that holds an integer. *)
Definition integral (q : Q) : Prop := q == inject_Z (Qfloor q).

(** Well-formed inputs: walltimes are non-negative integers, resource
    counts, work and speeds are non-negative. *)
Definition wf_job (j : Job) : Prop :=
  0 <= job_walltime j /\ integral (job_walltime j) /\ (0 <= job_res j)%Z.

Definition wf_profile (p : WorkloadProfile) : Prop := 0 <= wp_cpu p.

Definition wf_node (n : Node) : Prop :=
  Forall (fun r => 0 <= r_speed r) (n_resources n) /\
  Forall (fun ps => 0 <= ps_speed ps) (n_power_states n).

Definition wf_platform (p : Platform) : Prop := Forall wf_node (p_nodes p).

Definition wf_cmd (c : Grid.Cmd) : Prop :=
  match c with
  | Grid.RegisterJob id profile res walltime user =>
      wf_job {| job_id := id; job_profile := profile; job_res := res;
                job_walltime := walltime; job_user := user |}
  | Grid.RegisterProfile _ _ p => wf_profile p
  | _ => True
  end.

(** An event that may enter the queue: not before the current time, at an
    integer time. *)
Definition event_ok (now : Z) (e : Event) : Prop :=
  inject_Z now <= timestamp e /\ integral (timestamp e).

(** The order of the trace: by floored timestamp. *)
Definition by_floor (a b : Event) : Prop :=
  (Qfloor (timestamp a) <= Qfloor (timestamp b))%Z.

(** The invariant of a run. *)
Record grid_inv (g : Grid.t) : Prop := {
  inv_sorted : StronglySorted by_timestamp (Grid.events g);
  inv_queue : Forall (event_ok (Grid.current_time g)) (Grid.events g);
  inv_past :
    Forall (fun e => (Qfloor (timestamp e) <= Grid.current_time g)%Z)
      (Grid.notified g);
  inv_trace : StronglySorted by_floor (Grid.notified g);
  inv_jobs : map_Forall (fun _ j => wf_job j) (Grid.jobs g);
  inv_profiles : map_Forall (fun _ p => wf_profile p) (Grid.profiles g);
  inv_platform : forall p, Grid.platform g = Some p -> wf_platform p
}.

(** The current time is the time of the event dispatched last. *)
Definition at_last (g : Grid.t) : Prop :=
  forall e, last (Grid.notified g) = Some e ->
            Grid.current_time g = Qfloor (timestamp e).

(** The calls of a driver on a started handler. *)
Inductive Call : Type :=
| Proceed
| Finish
| Command (c : Grid.Cmd).

Definition wf_call (c : Call) : Prop :=
  match c with
  | Command c => wf_cmd c
  | _ => True
  end.

Definition run_call (callbacks : Grid.t -> Event -> list Grid.Cmd)
    (fuel : nat) (c : Call) (g : Grid.t) : Outcome * Grid.t :=
  match c with
  | Proceed => Grid.proceed_simulation callbacks fuel g
  | Finish => Grid.finish callbacks fuel g
  | Command c => Grid.run_cmd c g
  end.

(** The states of a run: [start] on a fresh handler, then any calls, each
    of which returns or raises. *)
Inductive reachable (callbacks : Grid.t -> Event -> list Grid.Cmd)
    : Grid.t -> Prop :=
| reach_start (p : Platform) (w : option (list Grid.Cmd)) (fuel : nat)
    (o : Outcome) (g : Grid.t) :
    wf_platform p ->
    (forall cs, w = Some cs -> Forall wf_cmd cs) ->
    Grid.start callbacks (Some p) w fuel Grid.init = (o, g) ->
    o <> OutOfFuel ->
    reachable callbacks g
| reach_call (c : Call) (fuel : nat) (o : Outcome) (g g' : Grid.t) :
    reachable callbacks g ->
    wf_call c ->
    run_call callbacks fuel c g = (o, g') ->
    o <> OutOfFuel ->
    reachable callbacks g'.

(** A sequence of calls of a driver that goes on after an exception. *)
Fixpoint run_calls (callbacks : Grid.t -> Event -> list Grid.Cmd) (fuel : nat)
    (cs : list Call) (g : Grid.t) : Grid.t :=
  match cs with
  | [] => g
  | c :: rest => run_calls callbacks fuel rest (snd (run_call callbacks fuel c g))
  end.

(** A run: the feeder registers a profile and a job; the job is executed,
    completes at time 50, the feeder signals its end and the simulation
    finishes. *)
Definition example_run : Grid.t :=
  run_calls quiet 5
    [ Command (Grid.ExecuteJob "j1" [0%Z]); Proceed; Proceed;
      Command (Grid.Notify no_more_static_job_to_submit); Proceed; Proceed ]
    (snd (Grid.start quiet (Some example_platform)
            (Some [ Grid.RegisterProfile "w" "p" example_profile;
                    Grid.RegisterJob "j1" "p" 1 1000 "user" ])
            5 Grid.init)).

(** The state that [start] leaves when the feeder registers the example
    profile and the job "j1" with the given walltime. *)
Definition example_fed_grid (walltime : Q) : Grid.t :=
  snd (Grid.start quiet (Some example_platform)
         (Some [ Grid.RegisterProfile "w" "p" example_profile;
                 Grid.RegisterJob "j1" "p" 1 walltime "user" ])
         5 Grid.init).

(** A run under way: the job "j1" of walltime 1000 has been started and
    its completion is pending for time 50. *)
Definition example_midrun_grid : Grid.t :=
  run_calls quiet 5 [ Command (Grid.ExecuteJob "j1" [0%Z]); Proceed ]
    (example_fed_grid 1000).

(** ** Further specification-side definitions *)

(** The exceptions that [execute_job] can raise. *)
Definition execute_job_exception (e : Exception) : bool :=
  match e with
  | KeyError | AttributeError | ValueError | ZeroDivisionError
  | OverflowError | NotImplementedError => true
  | _ => false
  end.

(** The job record that [register_job] stores. *)
Definition make_job (id profile : string) (res : Z) (walltime : Q)
    (user : string) : Job :=
  {| job_id := id; job_profile := profile; job_res := res;
     job_walltime := walltime; job_user := user |}.

(** A handler at time 7 with a pending job whose profile is of a kind that
    the execution model does not support. *)
Definition example_delay_grid : Grid.t :=
  {| Grid.current_time_ := 7; Grid.events := [];
     Grid.profiles := {[ "p"%string := {| wp_type := delay; wp_cpu := 100 |} ]};
     Grid.submitter_ended := true;
     Grid.platform := Some example_platform; Grid.is_running := true;
     Grid.jobs := {[ "j1"%string := example_job 1000 ]};
     Grid.notified := [] |}.

(** The state that [start] leaves when the feeder registers the example
    profile and the job "j1" of walltime 1000. *)
Definition example_loaded_grid : Grid.t :=
  snd (Grid.start quiet (Some example_platform)
         (Some [ Grid.RegisterProfile "w" "p" example_profile;
                 Grid.RegisterJob "j1" "p" 1 1000 "user" ])
         5 Grid.init).

(** The example node switched off, and its platform. *)
Definition example_off_node : Node :=
  {| n_id := 0; n_power_states := example_power_states;
     n_resources := [ {| r_id := 0; r_parent_id := 0; r_speed := 2 |};
                      {| r_id := 1; r_parent_id := 0; r_speed := 2 |} ];
     n_is_on := false |}.

Definition example_off_platform : Platform := {| p_nodes := [example_off_node] |}.

(** A handler at time 7 on the platform whose node is off. *)
Definition example_off_grid : Grid.t :=
  {| Grid.current_time_ := 7; Grid.events := [];
     Grid.profiles := ∅; Grid.submitter_ended := true;
     Grid.platform := Some example_off_platform; Grid.is_running := true;
     Grid.jobs := ∅; Grid.notified := [] |}.

(** The loaded example with a callback requested for time 9. *)
Definition example_waiting_grid : Grid.t :=
  snd (Grid.call_me_later 9 example_loaded_grid).

(** The state that a [finish] on a running handler leaves when the
    callbacks issue no command: the tables and the queue are empty and the
    [SimulationEnds] event has been handed over. *)
Definition finished (g : Grid.t) : Grid.t :=
  {| Grid.current_time_ := Grid.current_time_ g; Grid.events := [];
     Grid.profiles := ∅; Grid.submitter_ended := true;
     Grid.platform := Grid.platform g; Grid.is_running := false;
     Grid.jobs := ∅;
     Grid.notified :=
       Grid.notified g ++ [SimulationEndsEvent (Grid.current_time g)] |}.

(** The state that [start] leaves on a stopped handler with an empty queue
    when there is no workload and the callbacks issue no command. *)
Definition started (p : Platform) (g : Grid.t) : Grid.t :=
  {| Grid.current_time_ := 0; Grid.events := [];
     Grid.profiles := Grid.profiles g; Grid.submitter_ended := false;
     Grid.platform := Some p; Grid.is_running := true;
     Grid.jobs := ∅;
     Grid.notified := Grid.notified g ++ [SimulationBeginsEvent 0 p] |}.

(** ** The remote backend *)

(** The request that a command of the remote handler builds at the time
    [now]. *)
Definition request_of (now : Z) (c : Batsim.Cmd) : Batsim.Request :=
  {| Batsim.rq_timestamp := inject_Z now;
     Batsim.rq_data :=
       match c with
       | Batsim.ExecuteJob id alloc => Batsim.ExecuteJobData id (ProcSet alloc)
       | Batsim.RejectJob id => Batsim.RejectJobData id
       | Batsim.CallMeLater at_ =>
           Batsim.CallMeLaterData (inject_Z (Qfloor at_) + (9 # 10000))
       | Batsim.KillJob ids => Batsim.KillJobData ids
       | Batsim.RegisterJob id profile res walltime user =>
           Batsim.RegisterJobData (make_job id profile res walltime user)
       | Batsim.RegisterProfile w n p => Batsim.RegisterProfileData w n p
       | Batsim.SetResourcesPstate rs ps =>
           Batsim.SetResourceStateData (ProcSet rs) ps
       | Batsim.ChangeJobState id st reason =>
           Batsim.ChangeJobStateData id st reason
       | Batsim.Notify nt => Batsim.NotifyRequestData nt
       end |}.

(** The event that a command of the remote handler hands to the callbacks
    at once, if any; the transition events of [set_resources_pstate] are
    apart. *)
Definition mirrored_event (now : Z) (c : Batsim.Cmd) : list Event :=
  match c with
  | Batsim.ExecuteJob id alloc => [JobStartedEvent now id (ProcSet alloc)]
  | Batsim.RegisterJob id profile res walltime user =>
      [JobSubmittedEvent now id profile res walltime user]
  | Batsim.Notify nt => [NotifyEvent now nt]
  | _ => []
  end.

Definition is_pstate_cmd (c : Batsim.Cmd) : bool :=
  match c with
  | Batsim.SetResourcesPstate _ _ => true
  | _ => false
  end.

(** A sequence of commands on the remote handler that goes on after an
    exception. *)
Fixpoint batsim_run_cmds (dispatch : list Event -> Batsim.t -> Outcome * Batsim.t)
    (cs : list Batsim.Cmd) (b : Batsim.t) : Batsim.t :=
  match cs with
  | [] => b
  | c :: rest =>
      batsim_run_cmds dispatch rest (snd (Batsim.run_cmd dispatch c b))
  end.

(** What no command of the remote handler touches: the messages sent,
    the clock, the process, the channel and the platform. *)
Definition batsim_frame (b b' : Batsim.t) : Prop :=
  Batsim.sent b' = Batsim.sent b /\
  Batsim.current_time_ b' = Batsim.current_time_ b /\
  Batsim.simulator b' = Batsim.simulator b /\
  Batsim.bound b' = Batsim.bound b /\
  Batsim.platform b' = Batsim.platform b.

(** No queued request is stamped after the current time. *)
Definition not_after_now (b : Batsim.t) : Prop :=
  Forall (fun r => Batsim.rq_timestamp r <= inject_Z (Batsim.current_time b))
    (Batsim.requests b).

(** The acknowledgement: an empty batch. *)
Definition ack_message (now : Z) : Batsim.Message :=
  {| Batsim.msg_now := now; Batsim.msg_requests := [] |}.

(** The commands that end the feeding of jobs: [notify] with
    [no_more_static_job_to_submit] or [registration_finished]. *)
Definition ends_feeding (c : Grid.Cmd) : bool :=
  match c with
  | Grid.Notify no_more_static_job_to_submit
  | Grid.Notify registration_finished => true
  | _ => false
  end.

(** * Properties *)

(** ** Numbers *)

Lemma Qtrunc_nonneg (x : Q) : 0 <= x -> Qtrunc x = Qfloor x.
Proof.
  intros H. unfold Qtrunc.
  apply Qle_bool_iff in H. now rewrite H.
Qed.

Lemma Qltb_lt (a b : Q) : Qltb a b = true <-> a < b.
Proof.
  unfold Qltb. rewrite negb_true_iff. split.
  - intros H. apply Qnot_le_lt. intros Hle.
    apply Qle_bool_iff in Hle. congruence.
  - intros H. destruct (Qle_bool b a) eqn:E; [| reflexivity].
    apply Qle_bool_iff in E. exfalso. exact (Qlt_not_le _ _ H E).
Qed.

Lemma py_min_Qmin (a b : Q) : py_min a b = Qmin a b.
Proof.
  unfold py_min, Qmin, GenericMinMax.gmin.
  destruct (Qltb b a) eqn:E.
  - apply Qltb_lt in E. apply Qgt_alt in E. now rewrite E.
  - destruct (a ?= b) eqn:C; try reflexivity.
    apply Qgt_alt in C. apply Qltb_lt in C. congruence.
Qed.

Lemma py_min_le_l (a b : Q) : py_min a b <= a.
Proof. rewrite py_min_Qmin. apply Q.le_min_l. Qed.

Lemma py_min_le_r (a b : Q) : py_min a b <= b.
Proof. rewrite py_min_Qmin. apply Q.le_min_r. Qed.

Lemma py_min_cases (a b : Q) : py_min a b = a \/ py_min a b = b.
Proof. unfold py_min. destruct (Qltb b a); auto. Qed.

Lemma fold_py_min_spec (xs : list Q) (x : Q) :
  In (fold_left py_min xs x) (x :: xs) /\
  forall y, In y (x :: xs) -> fold_left py_min xs x <= y.
Proof.
  revert x. induction xs as [| z xs IH]; intros x; simpl.
  - split; [now left |]. intros y [<- | []]. apply Qle_refl.
  - destruct (IH (py_min x z)) as [Hin Hle]. split.
    + destruct Hin as [Hin | Hin]; [| now right; right].
      rewrite <- Hin. destruct (py_min_cases x z) as [-> | ->]; auto.
    + intros y [<- | [<- | Hy]].
      * eapply Qle_trans; [apply Hle; now left | apply py_min_le_l].
      * eapply Qle_trans; [apply Hle; now left | apply py_min_le_r].
      * apply Hle. now right.
Qed.

(** [py_min_list] returns a least element of a non-empty list. *)
Lemma py_min_list_spec (l : list Q) (m : Q) :
  py_min_list l = Some m -> In m l /\ forall y, In y l -> m <= y.
Proof.
  destruct l as [| x xs]; simpl; [discriminate |].
  intros [= <-]. apply fold_py_min_spec.
Qed.

(** ** Floats *)

Lemma pow2_pos (e : Z) : 0 < pow2 e.
Proof. unfold pow2. apply Qpower_0_lt. reflexivity. Qed.

Lemma round_half_even_nonneg (q : Q) : 0 <= q -> (0 <= round_half_even q)%Z.
Proof.
  intros H. unfold round_half_even.
  assert (0 <= Qfloor q)%Z as Hf.
  { change 0%Z with (Qfloor 0). now apply Qfloor_resp_le. }
  destruct (Qcompare _ _); [destruct (Z.even _) |..]; lia.
Qed.

Lemma Qltb_nonneg (q : Q) : 0 <= q -> Qltb q 0 = false.
Proof.
  intros H. unfold Qltb. apply negb_false_iff. now apply Qle_bool_iff.
Qed.

(** Rounding keeps the sign. *)
Lemma round_float_nonneg (q : Q) : 0 <= q -> float_nonneg (round_float q).
Proof.
  intros H. unfold round_float.
  destruct (Qeq_bool q 0); [apply Qle_refl |].
  rewrite (Qltb_nonneg q H).
  destruct (Qle_bool _ _); [reflexivity |].
  cbn [float_nonneg]. rewrite Qred_correct.
  apply Qmult_le_0_compat; [| apply Qlt_le_weak, pow2_pos].
  change 0 with (inject_Z 0). rewrite <- Zle_Qle.
  apply round_half_even_nonneg.
  apply Qle_shift_div_l; [apply pow2_pos |].
  rewrite Qmult_0_l. apply Qabs_nonneg.
Qed.

Lemma float_div_nonneg (x y z : Float) :
  float_nonneg x -> float_nonneg y -> float_div x y = inr z -> float_nonneg z.
Proof.
  unfold float_div. destruct (float_is_zero y) eqn:Z; [discriminate |].
  intros Hx Hy [= <-].
  destruct x as [a | sa |], y as [b | sb |]; cbn in Hx, Hy;
    subst; cbn; try exact I.
  - apply round_float_nonneg.
    assert (0 < b) as Hb.
    { apply Qle_lt_or_eq in Hy as [Hy | Hy]; [exact Hy |].
      cbn in Z. symmetry in Hy. apply Qeq_bool_iff in Hy. congruence. }
    apply Qle_shift_div_l; [exact Hb |]. now rewrite Qmult_0_l.
  - apply Qle_refl.
  - now rewrite (Qltb_nonneg b Hy).
Qed.

Lemma float_of_int_nonneg (z : Z) (x : Float) :
  (0 <= z)%Z -> float_of_int z = inr x -> float_nonneg x.
Proof.
  intros Hz. unfold float_of_int.
  assert (float_nonneg (round_float (inject_Z z))) as H.
  { apply round_float_nonneg. change 0 with (inject_Z 0). now rewrite <- Zle_Qle. }
  destruct (round_float (inject_Z z)); intros [= <-]; exact H.
Qed.

(** [int(x)] of a float that is not negative is its floor. *)
Lemma py_int_nonneg (x : Float) (z : Z) :
  float_nonneg x -> py_int x = inr z ->
  exists q, x = Finite q /\ 0 <= q /\ z = Qfloor q /\ (0 <= z)%Z.
Proof.
  destruct x as [q | s |]; cbn; intros H; try discriminate.
  intros [= <-]. exists q. rewrite (Qtrunc_nonneg q H).
  repeat split; [exact H |].
  change 0%Z with (Qfloor 0). now apply Qfloor_resp_le.
Qed.

(** The worked divisions: [0.3 / 0.1] falls short of [3], [6 / 0.1] and
    [1 / 0.1] reach [60] and [10]; a quotient beyond the range of the
    floats has no integer part. *)
Example float_div_examples :
  bind (float_div (float_of (3 # 10)) (float_of (1 # 10))) py_int = inr 2%Z /\
  bind (float_div (float_of 6) (float_of (1 # 10))) py_int = inr 60%Z /\
  bind (float_div (float_of 1) (float_of (1 # 10))) py_int = inr 10%Z /\
  bind (float_div (float_of 100) (float_of 2)) py_int = inr 50%Z /\
  bind (float_div (float_of (10 ^ 308)) (float_of (1 # 10 ^ 308))) py_int
    = inl OverflowError /\
  bind (float_div (float_of 1) (float_of 0)) py_int = inl ZeroDivisionError.
Proof. repeat split; vm_compute; reflexivity. Qed.

(** ** The sorted container *)

Lemma pop_incl {A : Type} (p : nat) (l : list A) :
  incl (SortedList_pop p l) l.
Proof.
  revert p. induction l as [| x l IH]; intros p; simpl.
  - apply incl_refl.
  - destruct p.
    + apply incl_tl, incl_refl.
    + intros y [<- | Hy]; [now left | right; now apply (IH p)].
Qed.

Section SortedListFacts.
Context {A : Type} (key : A -> Q).

Lemma SortedList_add_In (x y : A) (l : list A) :
  In y (SortedList_add key x l) <-> y = x \/ In y l.
Proof.
  induction l as [| z l IH]; simpl.
  - intuition.
  - destruct (Qle_bool (key z) (key x)); simpl; [rewrite IH |]; intuition.
Qed.

Lemma SortedList_add_length (x : A) (l : list A) :
  length (SortedList_add key x l) = S (length l).
Proof.
  induction l as [| z l IH]; simpl; [reflexivity |].
  destruct (Qle_bool (key z) (key x)); simpl; now rewrite ?IH.
Qed.

Lemma SortedList_add_filter_length (f : A -> bool) (x : A) (l : list A) :
  length (List.filter f (SortedList_add key x l)) =
  ((if f x then 1 else 0) + length (List.filter f l))%nat.
Proof.
  induction l as [| z l IH]; simpl.
  - destruct (f x); reflexivity.
  - destruct (Qle_bool (key z) (key x)); simpl.
    + destruct (f z); simpl; rewrite IH; lia.
    + destruct (f x); reflexivity.
Qed.

(** [add] keeps a sorted list sorted. *)
Lemma SortedList_add_sorted (x : A) (l : list A) :
  StronglySorted (key_le key) l -> StronglySorted (key_le key) (SortedList_add key x l).
Proof.
  induction 1 as [| z l Hs IH Hall]; simpl.
  - repeat constructor.
  - destruct (Qle_bool (key z) (key x)) eqn:E.
    + constructor; [exact IH |].
      apply List.Forall_forall. intros y Hy.
      apply SortedList_add_In in Hy as [-> | Hy].
      * now apply Qle_bool_iff.
      * rewrite List.Forall_forall in Hall. now apply Hall.
    + assert (key x <= key z) as Hxz.
      { apply Qlt_le_weak, Qnot_le_lt. intros H.
        apply Qle_bool_iff in H. congruence. }
      constructor; [now constructor |].
      constructor; [exact Hxz |].
      eapply List.Forall_impl; [| exact Hall].
      intros y Hy. unfold key_le in *. eapply Qle_trans; eassumption.
Qed.

(** [add] is stable: the new element goes after the elements that are
    not greater and before the first greater one. *)
Lemma SortedList_add_split (x : A) (l : list A) :
  exists l1 l2,
    l = l1 ++ l2 /\ SortedList_add key x l = l1 ++ x :: l2 /\
    Forall (fun y => key y <= key x) l1 /\
    match l2 with [] => True | y :: _ => key x < key y end.
Proof.
  induction l as [| z l IH]; simpl.
  - exists [], []. repeat split. constructor.
  - destruct (Qle_bool (key z) (key x)) eqn:E.
    + destruct IH as (l1 & l2 & -> & -> & Hall & Hhd).
      exists (z :: l1), l2. repeat split; [| exact Hhd].
      constructor; [now apply Qle_bool_iff | exact Hall].
    + exists [], (z :: l). repeat split; [constructor |].
      apply Qnot_le_lt. intros H. apply Qle_bool_iff in H. congruence.
Qed.

Lemma SortedList_pop_sorted (p : nat) (l : list A) :
  StronglySorted (key_le key) l -> StronglySorted (key_le key) (SortedList_pop p l).
Proof.
  intros Hs. revert p. induction Hs as [| z l Hs IH Hall]; intros p; simpl.
  - constructor.
  - destruct p; [exact Hs |].
    constructor; [apply IH |].
    rewrite List.Forall_forall in *. intros y Hy. apply Hall.
    revert Hy. apply pop_incl.
Qed.

(** In a sorted list the prefix that [takewhile] cuts at a key holds
    every element up to that key. *)
Lemma takewhile_sorted_In (k : Q) (x : A) (l : list A) :
  StronglySorted (key_le key) l -> In x l -> key x <= k ->
  In x (takewhile (fun y => Qle_bool (key y) k) l).
Proof.
  induction 1 as [| z l Hs IH Hall]; simpl; [tauto |].
  intros [-> | Hx] Hk.
  - apply Qle_bool_iff in Hk. rewrite Hk. now left.
  - rewrite List.Forall_forall in Hall.
    assert (Qle_bool (key z) k = true) as ->.
    { apply Qle_bool_iff. eapply Qle_trans; [apply (Hall _ Hx) | exact Hk]. }
    right. now apply IH.
Qed.

Lemma takewhile_incl (f : A -> bool) (l : list A) : incl (takewhile f l) l.
Proof.
  induction l as [| z l IH]; simpl; [apply incl_refl |].
  destruct (f z); [| intros y []].
  intros y [<- | Hy]; [now left | right; now apply IH].
Qed.

(** The element that [add] inserts lies in the prefix up to its key. *)
Lemma takewhile_add_existsb (f : A -> bool) (x : A) (l : list A) :
  f x = true ->
  existsb f (takewhile (fun y => Qle_bool (key y) (key x))
               (SortedList_add key x l)) = true.
Proof.
  intros Hf. induction l as [| z l IH]; simpl.
  - assert (Qle_bool (key x) (key x) = true) as ->
      by (apply Qle_bool_iff, Qle_refl).
    simpl. now rewrite Hf.
  - destruct (Qle_bool (key z) (key x)) eqn:E; simpl.
    + rewrite E. simpl. rewrite IH. apply orb_true_r.
    + assert (Qle_bool (key x) (key x) = true) as ->
        by (apply Qle_bool_iff, Qle_refl).
      simpl. now rewrite Hf.
Qed.
End SortedListFacts.

Lemma SortedList_add_inserted {A : Type} (key : A -> Q) (x : A) (l : list A) :
  inserted key x l (SortedList_add key x l).
Proof. exact (SortedList_add_split key x l). Qed.

(** What [inserted] says of the members and of the size. *)
Lemma inserted_In {A : Type} (key : A -> Q) (x y : A) (l l' : list A) :
  inserted key x l l' -> (In y l' <-> y = x \/ In y l).
Proof.
  intros (l1 & l2 & -> & -> & _). rewrite !in_app_iff. simpl. intuition.
Qed.

Lemma inserted_length {A : Type} (key : A -> Q) (x : A) (l l' : list A) :
  inserted key x l l' -> length l' = S (length l).
Proof.
  intros (l1 & l2 & -> & -> & _). rewrite !length_app. simpl. lia.
Qed.

(** ** Job execution model *)

Lemma ProcSet_new_valid (ids : list Z) :
  Forall (fun i => (0 <= i)%Z) ids -> ProcSet_new ids = Some (ProcSet ids).
Proof.
  intros H. unfold ProcSet_new.
  assert (existsb (fun i => Z.ltb i 0) ids = false) as ->; [| reflexivity].
  induction H as [| i ids Hi _ IH]; simpl; [reflexivity |].
  rewrite IH, orb_false_r. apply Z.ltb_ge. exact Hi.
Qed.

Lemma ProcSet_new_invalid (ids : list Z) :
  Exists (fun i => (i < 0)%Z) ids -> ProcSet_new ids = None.
Proof.
  intros H. unfold ProcSet_new.
  assert (existsb (fun i => Z.ltb i 0) ids = true) as ->; [| reflexivity].
  apply existsb_exists. apply List.Exists_exists in H as (i & Hin & Hi).
  exists i. split; [exact Hin | now apply Z.ltb_lt].
Qed.

Lemma ProcSet_new_cases (ids : list Z) :
  ProcSet_new ids = Some (ProcSet ids) \/ ProcSet_new ids = None.
Proof. unfold ProcSet_new. destruct (existsb _ _); auto. Qed.

(** The runtime that [execute_job] computes is the integer part of the
    quotient of the work by the least speed. *)
Lemma runtime_work_quotient (prof : WorkloadProfile) (job : Job) (min_speed : Q) :
  match wp_type prof with
  | parallel_homogeneous =>
      bind (float_div (float_of (wp_cpu prof)) (float_of min_speed)) py_int
  | parallel_homogeneous_total =>
      bind (float_of_int (job_res job)) (fun res =>
      bind (float_div (float_of (wp_cpu prof)) res) (fun cpu =>
      bind (float_div cpu (float_of min_speed)) py_int))
  | delay => inl NotImplementedError
  end = bind (work_quotient prof job min_speed) py_int.
Proof.
  unfold work_quotient. destruct (wp_type prof); [reflexivity | | reflexivity].
  destruct (float_of_int _) as [ex | res]; [reflexivity |]. cbn [bind].
  destruct (float_div _ res) as [ex | cpu]; reflexivity.
Qed.

(** Non-negative work on non-negative speeds and resource counts gives a
    quotient that is not negative. *)
Lemma work_quotient_nonneg (prof : WorkloadProfile) (job : Job) (min_speed : Q)
    (x : Float) :
  0 <= wp_cpu prof -> 0 <= min_speed -> (0 <= job_res job)%Z ->
  work_quotient prof job min_speed = inr x -> float_nonneg x.
Proof.
  intros Hcpu Hms Hres. unfold work_quotient.
  pose proof (round_float_nonneg _ Hcpu) as Hc.
  pose proof (round_float_nonneg _ Hms) as Hm.
  destruct (wp_type prof); [| | discriminate].
  - apply float_div_nonneg; assumption.
  - destruct (float_of_int _) as [ex | res] eqn:Er; [discriminate |].
    cbn [bind].
    destruct (float_div _ res) as [ex | cpu] eqn:Ec; [discriminate |].
    cbn [bind]. apply float_div_nonneg; [| exact Hm].
    eapply float_div_nonneg; [exact Hc | | exact Ec].
    eapply float_of_int_nonneg; eassumption.
Qed.



(** The worked example of the specification: work 100 on a resource of
    speed 2 needs 50; with walltime 1000 the job completes at
    [current_time + 50] successfully. *)
Example execute_job_example_success :
  Grid.events (snd (Grid.execute_job "j1" [0%Z] (example_grid 1000))) =
  [ JobStartedEvent 7 "j1" [0%Z];
    JobCompletedEvent (7 + 50) "j1" COMPLETED_SUCCESSFULLY "0" [0%Z] ].
Proof. vm_compute. reflexivity. Qed.

(** With walltime 40 the same job is stopped at [current_time + 40]. *)
Example execute_job_example_walltime :
  Grid.events (snd (Grid.execute_job "j1" [0%Z] (example_grid 40))) =
  [ JobStartedEvent 7 "j1" [0%Z];
    JobCompletedEvent (7 + 40) "j1" COMPLETED_WALLTIME_REACHED "0" [0%Z] ].
Proof. vm_compute. reflexivity. Qed.

(** The rounding of the division is that of the floats: work [0.3] at
    speed [0.1] falls short of 3 and runs for 2, work 6 at speed [0.1] runs
    for 60. *)
Example execute_job_example_rounding :
  work_quotient {| wp_type := parallel_homogeneous; wp_cpu := 3 # 10 |}
    (example_job 1000) (1 # 10)
  = inr (Finite (6755399441055743 # 2251799813685248)) /\
  Qfloor (6755399441055743 # 2251799813685248) = 2%Z /\
  work_quotient {| wp_type := parallel_homogeneous; wp_cpu := 6 |}
    (example_job 1000) (1 # 10)
  = inr (Finite 60).
Proof. repeat split; vm_compute; reflexivity. Qed.

(** ** Cancellation *)

Lemma set_events_events (g : Grid.t) : Grid.set_events (Grid.events g) g = g.
Proof. now destruct g. Qed.

Lemma next_index_none {A : Type} (f : A -> bool) (l : list A) :
  next_index f l = None <-> existsb f l = false.
Proof.
  induction l as [| x l IH]; simpl; [split; reflexivity |].
  destruct (f x); simpl; [split; discriminate |].
  destruct (next_index f l); simpl.
  - split; [discriminate |]. intros H. apply IH in H. discriminate.
  - split; [intros _; now apply IH | reflexivity].
Qed.

Lemma filter_nil_negb {A : Type} (f : A -> bool) (l : list A) :
  List.filter f l = [] -> List.filter (fun x => negb (f x)) l = l.
Proof.
  induction l as [| x l IH]; simpl; [reflexivity |].
  destruct (f x); simpl; [discriminate |]. intros H. now rewrite IH.
Qed.

(** Popping the index that [next_index] finds removes the first match; when
    it is the only match, what is left is the list without matches. *)
Lemma pop_next_index_unique {A : Type} (f : A -> bool) (l : list A) :
  length (List.filter f l) = 1%nat ->
  exists p, next_index f l = Some p /\
            SortedList_pop p l = List.filter (fun x => negb (f x)) l.
Proof.
  induction l as [| x l IH]; simpl; [discriminate |].
  destruct (f x) eqn:E; simpl.
  - intros H. exists O. split; [reflexivity |].
    cbn [SortedList_pop]. rewrite filter_nil_negb; [reflexivity |].
    destruct (List.filter f l); [reflexivity | discriminate].
  - intros H. destruct (IH H) as (p & Hp & Hpop).
    exists (S p). rewrite Hp. simpl. now rewrite Hpop.
Qed.

Lemma is_completion_of_inj (i j : string) (e : Event) :
  Grid.is_completion_of i e = true -> Grid.is_completion_of j e = true -> i = j.
Proof.
  unfold Grid.is_completion_of. destruct (data e); try discriminate.
  intros Hi Hj. apply String.eqb_eq in Hi, Hj. congruence.
Qed.

Lemma filter_other_completion (i j : string) (l : list Event) :
  i <> j ->
  List.filter (Grid.is_completion_of j)
    (List.filter (fun e => negb (Grid.is_completion_of i e)) l) =
  List.filter (Grid.is_completion_of j) l.
Proof.
  intros Hne. induction l as [| e l IH]; simpl; [reflexivity |].
  destruct (Grid.is_completion_of i e) eqn:Ei; simpl.
  - destruct (Grid.is_completion_of j e) eqn:Ej; [| exact IH].
    exfalso. apply Hne. eapply is_completion_of_inj; eassumption.
  - now rewrite IH.
Qed.

Lemma without_completions_cons (i : string) (ids : list string) (l : list Event) :
  without_completions ids (List.filter (fun e => negb (Grid.is_completion_of i e)) l) =
  without_completions (i :: ids) l.
Proof.
  unfold without_completions.
  induction l as [| e l IH]; simpl; [reflexivity |].
  destruct (Grid.is_completion_of i e); simpl; [exact IH |].
  destruct (existsb _ ids); simpl; now rewrite IH.
Qed.

Lemma without_completions_nil (l : list Event) : without_completions [] l = l.
Proof.
  unfold without_completions.
  induction l as [| e l IH]; simpl in *; [reflexivity | now rewrite IH].
Qed.

(** The loop of [kill_job] when every id has exactly one pending
    completion. *)
Lemma kill_loop_all_pending (ids : list string) (g : Grid.t) :
  List.NoDup ids ->
  (forall i, In i ids ->
     length (List.filter (Grid.is_completion_of i) (Grid.events g)) = 1%nat) ->
  Grid.kill_loop ids g =
    (Returned, Grid.set_events (without_completions ids (Grid.events g)) g).
Proof.
  revert g. induction ids as [| i ids IH]; intros g Hnd Hone; simpl.
  - now rewrite without_completions_nil, set_events_events.
  - apply List.NoDup_cons_iff in Hnd as [Hni Hnd].
    destruct (pop_next_index_unique _ _ (Hone i (or_introl eq_refl)))
      as (p & -> & ->).
    rewrite IH; [| exact Hnd |].
    + cbn [Grid.events Grid.set_events].
      rewrite without_completions_cons. now destruct g.
    + intros j Hj. cbn [Grid.events Grid.set_events].
      rewrite filter_other_completion.
      * apply Hone. now right.
      * intros ->. contradiction.
Qed.

(** The loop of [kill_job] only removes events and leaves the rest of the
    handler alone. *)
Lemma kill_loop_shrinks (ids : list string) (g g' : Grid.t) (o : Outcome) :
  Grid.kill_loop ids g = (o, g') ->
  g' = Grid.set_events (Grid.events g') g /\
  incl (Grid.events g') (Grid.events g) /\
  (o = Returned \/ o = Raised StopIteration).
Proof.
  revert g. induction ids as [| i ids IH]; intros g; simpl.
  - intros [= <- <-]. rewrite set_events_events.
    repeat split; [apply incl_refl | now left].
  - destruct (next_index _ _) as [p |] eqn:E.
    + intros H. apply IH in H as (Hg & Hincl & Ho).
      cbn [Grid.events Grid.set_events] in *. repeat split.
      * rewrite Hg. now destruct g.
      * eapply incl_tran; [exact Hincl | apply pop_incl].
      * exact Ho.
    + intros [= <- <-]. rewrite set_events_events.
      repeat split; [apply incl_refl | now right].
Qed.

(** An id without a pending completion stops the loop. *)
Lemma kill_loop_missing (ids : list string) (g : Grid.t) (i : string) :
  In i ids ->
  existsb (Grid.is_completion_of i) (Grid.events g) = false ->
  fst (Grid.kill_loop ids g) = Raised StopIteration.
Proof.
  revert g. induction ids as [| j ids IH]; intros g Hin Hnone; simpl.
  - destruct Hin.
  - destruct (next_index _ _) as [p |] eqn:E; [| reflexivity].
    destruct Hin as [-> | Hin].
    + apply next_index_none in Hnone. congruence.
    + apply IH; [exact Hin |]. cbn [Grid.events Grid.set_events].
      destruct (existsb _ (SortedList_pop p _)) eqn:Ex; [| reflexivity].
      apply existsb_exists in Ex as (e & He & Hc).
      apply pop_incl in He.
      assert (existsb (Grid.is_completion_of i) (Grid.events g) = true) as Hx
        by (apply existsb_exists; eauto).
      congruence.
Qed.

(** Popping the index that [next_index] finds takes out the first match. *)
Lemma pop_next_index {A : Type} (f : A -> bool) (l : list A) (p : nat) :
  next_index f l = Some p -> SortedList_pop p l = remove_first f l.
Proof.
  revert p. induction l as [| x l IH]; intros p; simpl; [discriminate |].
  destruct (f x).
  - intros [= <-]. reflexivity.
  - destruct (next_index f l) as [q |]; [| discriminate].
    intros [= <-]. simpl. now rewrite (IH q).
Qed.

Lemma next_index_some {A : Type} (f : A -> bool) (l : list A) :
  existsb f l = true -> exists p, next_index f l = Some p.
Proof.
  intros H. destruct (next_index f l) as [p |] eqn:E; [eauto |].
  apply next_index_none in E. congruence.
Qed.

(** Taking out a match of [g] keeps the matches of [f] when nothing
    matches both. *)
Lemma existsb_remove_first {A : Type} (f g : A -> bool) (l : list A) :
  (forall x, g x = true -> f x = false) ->
  existsb f (remove_first g l) = existsb f l.
Proof.
  intros H. induction l as [| x l IH]; simpl; [reflexivity |].
  destruct (g x) eqn:E; simpl.
  - now rewrite (H x E).
  - now rewrite IH.
Qed.

Lemma remove_first_incl {A : Type} (f : A -> bool) (l : list A) :
  incl (remove_first f l) l.
Proof.
  induction l as [| x l IH]; simpl; [apply incl_refl |].
  destruct (f x); [apply incl_tl, incl_refl |].
  intros y [<- | Hy]; [now left | right; now apply IH].
Qed.

Lemma remove_first_keeps {A : Type} (f : A -> bool) (x : A) (l : list A) :
  In x l -> f x = false -> In x (remove_first f l).
Proof.
  intros Hin Hf. induction l as [| y l IH]; simpl; [destruct Hin |].
  destruct Hin as [-> | Hin].
  - rewrite Hf. now left.
  - destruct (f y); [exact Hin | right; now apply IH].
Qed.

Lemma remove_first_length {A : Type} (f : A -> bool) (l : list A) :
  existsb f l = true -> S (length (remove_first f l)) = length l.
Proof.
  induction l as [| x l IH]; simpl; [discriminate |].
  destruct (f x); simpl; [reflexivity |]. intros H. now rewrite IH.
Qed.

Lemma is_completion_of_other (i j : string) (e : Event) :
  i <> j -> Grid.is_completion_of i e = true -> Grid.is_completion_of j e = false.
Proof.
  intros Hne Hi. destruct (Grid.is_completion_of j e) eqn:Hj; [| reflexivity].
  exfalso. apply Hne. eapply is_completion_of_inj; eassumption.
Qed.

(** The loop of [kill_job] up to an id without pending completion: the
    ids before it each lose their first completion event, then the loop
    stops. *)
Lemma kill_loop_stops (done rest : list string) (i : string) (g : Grid.t) :
  List.NoDup (done ++ [i]) ->
  (forall j, In j done ->
     existsb (Grid.is_completion_of j) (Grid.events g) = true) ->
  existsb (Grid.is_completion_of i) (Grid.events g) = false ->
  Grid.kill_loop (done ++ i :: rest) g =
    (Raised StopIteration,
     Grid.set_events (without_first_completions done (Grid.events g)) g).
Proof.
  revert g. induction done as [| j done IH]; intros g Hnd Hall Hnone.
  - cbn. apply next_index_none in Hnone. rewrite Hnone.
    now rewrite set_events_events.
  - cbn [app Grid.kill_loop without_first_completions fold_left].
    destruct (next_index_some _ _ (Hall j (or_introl eq_refl))) as (p & Hp).
    rewrite Hp, (pop_next_index _ _ _ Hp).
    cbn [app] in Hnd. apply List.NoDup_cons_iff in Hnd as [Hj Hnd].
    rewrite IH; [now destruct g | exact Hnd | |];
      cbn [Grid.events Grid.set_events].
    + intros k Hk. rewrite existsb_remove_first; [apply Hall; now right |].
      intros e He. eapply is_completion_of_other; [| exact He].
      intros ->. apply Hj. apply in_or_app. now left.
    + rewrite existsb_remove_first; [exact Hnone |].
      intros e He. eapply is_completion_of_other; [| exact He].
      intros ->. apply Hj. apply in_or_app. right. now left.
Qed.

Lemma without_first_completions_incl (ids : list string) (l : list Event) :
  incl (without_first_completions ids l) l.
Proof.
  revert l. induction ids as [| i ids IH]; intros l; cbn; [apply incl_refl |].
  eapply incl_tran; [apply IH | apply remove_first_incl].
Qed.

Lemma without_first_completions_keeps (ids : list string) (l : list Event)
    (e : Event) :
  In e l -> (forall i, In i ids -> Grid.is_completion_of i e = false) ->
  In e (without_first_completions ids l).
Proof.
  revert l. induction ids as [| i ids IH]; intros l Hin Hno; cbn; [exact Hin |].
  apply IH; [| intros k Hk; apply Hno; now right].
  apply remove_first_keeps; [exact Hin | apply Hno; now left].
Qed.

Lemma without_completions_length (ids : list string) (l : list Event) :
  List.NoDup ids ->
  (forall i, In i ids ->
     length (List.filter (Grid.is_completion_of i) l) = 1%nat) ->
  length (without_completions ids l) = (length l - length ids)%nat.
Proof.
  revert l. induction ids as [| i ids IH]; intros l Hnd Hone.
  - rewrite without_completions_nil. simpl. lia.
  - apply List.NoDup_cons_iff in Hnd as [Hni Hnd].
    rewrite <- without_completions_cons, IH; [| exact Hnd |].
    + pose proof (List.filter_length (Grid.is_completion_of i) l) as Hl.
      rewrite (Hone i (or_introl eq_refl)) in Hl. simpl. lia.
    + intros j Hj. rewrite filter_other_completion.
      * apply Hone. now right.
      * intros ->. contradiction.
Qed.

Lemma without_first_completions_length (ids : list string) (l : list Event) :
  List.NoDup ids ->
  (forall j, In j ids -> existsb (Grid.is_completion_of j) l = true) ->
  (length (without_first_completions ids l) + length ids)%nat = length l.
Proof.
  revert l. induction ids as [| i ids IH]; intros l Hnd Hall; cbn.
  - lia.
  - apply List.NoDup_cons_iff in Hnd as [Hni Hnd].
    change (fold_left _ ids ?x) with (without_first_completions ids x).
    pose proof (remove_first_length _ _ (Hall i (or_introl eq_refl))) as Hl.
    rewrite <- Hl, <- (IH (remove_first (Grid.is_completion_of i) l)); [lia | exact Hnd |].
    intros j Hj. rewrite existsb_remove_first; [apply Hall; now right |].
    intros e He. eapply is_completion_of_other; [| exact He].
    intros ->. contradiction.
Qed.

(** C2, against the source: an id whose completion has already been
    dispatched is not skipped.  Killing "a" (pending) and "b" (completed)
    removes the completion of "a", then raises [StopIteration], and no
    [JobKilled] event is queued. *)
Lemma kill_job_completed_id_raises :
  Grid.kill_job ["a"; "b"]%string example_kill_grid =
    (Raised StopIteration, Grid.set_events [] example_kill_grid) /\
  Grid.kill_job ["b"]%string example_kill_grid =
    (Raised StopIteration, example_kill_grid).
Proof. split; reflexivity. Qed.

(** C2, as the source has it.  When the ids are distinct and each has
    exactly one pending completion event, [kill_job] returns and changes
    the queue only: these events are gone, so that no completion of a
    killed id is left to dispatch, and one [JobKilled] event at the current
    time listing all the ids is put in by timestamp.  When the ids up to
    [i] are distinct, those before [i] have a pending completion event and
    [i] has none, [kill_job] raises [StopIteration] and changes the queue
    only: the first completion event of each id before [i] is gone, every
    other event is left, and no [JobKilled] event is queued. *)
Theorem kill_job_cancels (g : Grid.t) (ids : list string) :
  (List.NoDup ids ->
   (forall i, In i ids ->
      length (List.filter (Grid.is_completion_of i) (Grid.events g)) = 1%nat) ->
   let g' := snd (Grid.kill_job ids g) in
   fst (Grid.kill_job ids g) = Returned /\
   g' = Grid.set_events (Grid.events g') g /\
   inserted timestamp (JobKilledEvent (Grid.current_time g) ids)
     (without_completions ids (Grid.events g)) (Grid.events g') /\
   (forall i e, In i ids -> In e (Grid.events g') ->
                Grid.is_completion_of i e = false) /\
   length (Grid.events g') =
     (1 + (length (Grid.events g) - length ids))%nat) /\
  (forall done i rest,
     ids = done ++ i :: rest ->
     List.NoDup (done ++ [i]) ->
     (forall j, In j done ->
        existsb (Grid.is_completion_of j) (Grid.events g) = true) ->
     existsb (Grid.is_completion_of i) (Grid.events g) = false ->
     let g' := snd (Grid.kill_job ids g) in
     fst (Grid.kill_job ids g) = Raised StopIteration /\
     g' = Grid.set_events (Grid.events g') g /\
     Grid.events g' = without_first_completions done (Grid.events g) /\
     incl (Grid.events g') (Grid.events g) /\
     (forall e, In e (Grid.events g) ->
        (forall j, In j done -> Grid.is_completion_of j e = false) ->
        In e (Grid.events g')) /\
     (length (Grid.events g') + length done)%nat = length (Grid.events g)).
Proof.
  split.
  - intros Hnd Hone g'. subst g'. unfold Grid.kill_job.
    rewrite kill_loop_all_pending by assumption. cbn [fst snd].
    assert (forall i e, In i ids ->
              In e (without_completions ids (Grid.events g)) ->
              Grid.is_completion_of i e = false) as Hgone.
    { intros i e Hi He. unfold without_completions in He.
      apply filter_In in He as [_ He]. apply negb_true_iff in He.
      destruct (Grid.is_completion_of i e) eqn:E; [| reflexivity].
      assert (existsb (fun j => Grid.is_completion_of j e) ids = true) as Hx
        by (apply existsb_exists; eauto).
      congruence. }
    split; [reflexivity |]. split; [now destruct g |].
    split; [apply SortedList_add_inserted |].
    cbn [Grid.add_event Grid.events Grid.set_events]. split.
    + intros i e Hi He. apply SortedList_add_In in He as [-> | He].
      * reflexivity.
      * now apply (Hgone i).
    + rewrite SortedList_add_length.
      rewrite (without_completions_length ids (Grid.events g) Hnd Hone).
      reflexivity.
  - intros done i rest -> Hnd Hall Hnone g'. subst g'. unfold Grid.kill_job.
    rewrite (kill_loop_stops done rest i g Hnd Hall Hnone). cbn [fst snd].
    split; [reflexivity |]. split; [now destruct g |].
    cbn [Grid.events Grid.set_events].
    split; [reflexivity |].
    split; [apply without_first_completions_incl |].
    split; [intros e; apply without_first_completions_keeps |].
    apply without_first_completions_length.
    + pose proof (List.NoDup_remove_1 done [] i Hnd) as H.
      now rewrite app_nil_r in H.
    + exact Hall.
Qed.

Lemma kill_job_cancels_witness :
  (let g' := snd (Grid.kill_job ["a"]%string example_kill_grid) in
   fst (Grid.kill_job ["a"]%string example_kill_grid) = Returned /\
   g' = Grid.set_events (Grid.events g') example_kill_grid /\
   inserted timestamp (JobKilledEvent 10 ["a"]%string)
     (without_completions ["a"]%string (Grid.events example_kill_grid))
     (Grid.events g') /\
   (forall i e, In i ["a"]%string -> In e (Grid.events g') ->
                Grid.is_completion_of i e = false) /\
   length (Grid.events g') =
     (1 + (length (Grid.events example_kill_grid) - 1))%nat) /\
  (let g' := snd (Grid.kill_job ["a"; "b"; "c"]%string example_kill_grid) in
   fst (Grid.kill_job ["a"; "b"; "c"]%string example_kill_grid)
     = Raised StopIteration /\
   g' = Grid.set_events (Grid.events g') example_kill_grid /\
   Grid.events g' =
     without_first_completions ["a"]%string (Grid.events example_kill_grid) /\
   incl (Grid.events g') (Grid.events example_kill_grid) /\
   (forall e, In e (Grid.events example_kill_grid) ->
      (forall j, In j ["a"]%string -> Grid.is_completion_of j e = false) ->
      In e (Grid.events g')) /\
   (length (Grid.events g') + 1)%nat = length (Grid.events example_kill_grid)).
Proof.
  split.
  - refine (proj1 (kill_job_cancels example_kill_grid ["a"%string]) _ _).
    + repeat constructor. simpl. tauto.
    + intros i [<- | []]. reflexivity.
  - refine (proj2 (kill_job_cancels example_kill_grid ["a"; "b"; "c"]%string)
              ["a"%string] "b"%string ["c"%string] eq_refl _ _ _).
    + repeat constructor; simpl; intuition discriminate.
    + intros j [<- | []]. reflexivity.
    + reflexivity.
Defined.

(** ** Rejection *)

(** C7, against the source: the self-contained handler emits nothing when
    it rejects a job.  After [reject_job] on the pending job "j1" the queue
    is as empty as before and no callback has been called. *)
Lemma grid_reject_job_emits_nothing :
  Grid.reject_job "j1" (example_grid 1000) =
    (Returned, Grid.set_jobs ∅ (example_grid 1000)) /\
  Grid.events (Grid.set_jobs ∅ (example_grid 1000)) = [] /\
  Grid.notified (Grid.set_jobs ∅ (example_grid 1000)) = [].
Proof.
  split; [| split]; reflexivity.
Qed.

(** C7, as the source has it.  On the self-contained handler [reject_job]
    of a pending job removes it from the pending set and changes nothing
    else: no event is queued and no callback is called.  On the remote
    handler, which keeps no pending set, it queues one reject request for
    the id, stamped with the current time. *)
Theorem reject_job_effect :
  (forall (g : Grid.t) (id : string) (job : Job),
     Grid.jobs g !! id = Some job ->
     Grid.reject_job id g = (Returned, Grid.set_jobs (delete id (Grid.jobs g)) g) /\
     Grid.jobs (Grid.set_jobs (delete id (Grid.jobs g)) g) !! id = None /\
     Grid.events (Grid.set_jobs (delete id (Grid.jobs g)) g) = Grid.events g /\
     Grid.notified (Grid.set_jobs (delete id (Grid.jobs g)) g) = Grid.notified g) /\
  (forall (b : Batsim.t) (id : string),
     Batsim.reject_job id b =
       (Returned,
        Batsim.set_requests
          (SortedList_add Batsim.rq_timestamp
             (reject_job_request (Batsim.current_time b) id)
             (Batsim.requests b)) b) /\
     In (reject_job_request (Batsim.current_time b) id)
        (Batsim.requests (snd (Batsim.reject_job id b))) /\
     length (Batsim.requests (snd (Batsim.reject_job id b))) =
       S (length (Batsim.requests b)) /\
     Batsim.notified (snd (Batsim.reject_job id b)) = Batsim.notified b).
Proof.
  split.
  - intros g id job Hjob. unfold Grid.reject_job. rewrite Hjob.
    split; [reflexivity |]. split; [| split; reflexivity].
    cbn [Grid.jobs Grid.set_jobs]. apply lookup_delete_eq.
  - intros b id. split; [reflexivity |]. split; [| split; [| reflexivity]].
    + cbn. apply SortedList_add_In. now left.
    + cbn. apply SortedList_add_length.
Qed.

Lemma reject_job_effect_witness :
  Grid.reject_job "j1" (example_grid 1000) =
    (Returned,
     Grid.set_jobs (delete "j1"%string (Grid.jobs (example_grid 1000)))
       (example_grid 1000)).
Proof.
  refine (proj1 (proj1 reject_job_effect (example_grid 1000) "j1"%string
                   (example_job 1000) _)).
  reflexivity.
Defined.

(** ** Deferred callbacks *)

Lemma is_requested_call_at_event (at_ : Z) :
  Grid.is_requested_call_at at_ (RequestedCallEvent at_) = true.
Proof.
  unfold Grid.is_requested_call_at. simpl. apply Qeq_bool_refl.
Qed.

Lemma is_requested_call_at_timestamp (at_ : Z) (e : Event) :
  Grid.is_requested_call_at at_ e = true -> timestamp e == inject_Z at_.
Proof.
  unfold Grid.is_requested_call_at. intros H.
  apply andb_true_iff in H as [_ H]. now apply Qeq_bool_iff.
Qed.

(** In a sorted queue the scan of [call_me_later] misses no requested call
    of the time it looks for. *)
Lemma call_me_later_scan (at_ : Z) (l : list Event) :
  StronglySorted by_timestamp l ->
  existsb (Grid.is_requested_call_at at_)
    (takewhile (fun e => Qle_bool (timestamp e) (inject_Z at_)) l) = false ->
  requested_calls_at at_ l = 0%nat.
Proof.
  intros Hs Hscan. unfold requested_calls_at.
  destruct (List.filter _ l) as [| e l'] eqn:E; [reflexivity |].
  assert (In e (List.filter (Grid.is_requested_call_at at_) l)) as He
    by (rewrite E; now left).
  apply filter_In in He as [Hin He].
  assert (existsb (Grid.is_requested_call_at at_)
            (takewhile (fun e => Qle_bool (timestamp e) (inject_Z at_)) l) = true)
    as Hx.
  { apply existsb_exists. exists e. split; [| exact He].
    apply (takewhile_sorted_In timestamp); [exact Hs | exact Hin |].
    apply is_requested_call_at_timestamp in He. rewrite He. apply Qle_refl. }
  congruence.
Qed.

Lemma call_me_later_found (at_ : Z) (l : list Event) :
  existsb (Grid.is_requested_call_at at_)
    (takewhile (fun e => Qle_bool (timestamp e) (inject_Z at_)) l) = true ->
  (1 <= requested_calls_at at_ l)%nat.
Proof.
  intros H. apply existsb_exists in H as (e & Hin & He).
  apply takewhile_incl in Hin.
  assert (In e (List.filter (Grid.is_requested_call_at at_) l)) as Hf
    by (apply filter_In; split; assumption).
  unfold requested_calls_at.
  destruct (List.filter _ l); [destruct Hf | simpl; lia].
Qed.

(** C5, against the source: the remote handler neither checks the time nor
    removes duplicates.  At time 5, a callback for the past time 3 is
    accepted, and two calls for time 9 queue two requests. *)
Lemma batsim_call_me_later_unchecked :
  fst (Batsim.call_me_later 3 example_batsim) = Returned /\
  Batsim.requests
    (snd (Batsim.call_me_later 9 (snd (Batsim.call_me_later 9 example_batsim)))) =
  [ call_me_later_request 5 9; call_me_later_request 5 9 ].
Proof. split; reflexivity. Qed.

(** C5, as the source has it.  On the self-contained handler
    [call_me_later] fails its assertion when [floor(at)] is before the
    current time; otherwise it returns, a second call for the same time
    changes nothing, and on a sorted queue that held at most one requested
    call for [floor(at)] there is exactly one afterwards.  On the remote
    handler every call queues a request for [floor(at) + 0.0009], stamped
    with the current time, whatever [at] is and whatever is queued. *)
Theorem call_me_later_effect :
  (forall (g : Grid.t) (at_ : Q),
     (Qfloor at_ < Grid.current_time g)%Z ->
     Grid.call_me_later at_ g = (Raised AssertionError, g)) /\
  (forall (g : Grid.t) (at_ : Q),
     (Grid.current_time g <= Qfloor at_)%Z ->
     exists g',
       Grid.call_me_later at_ g = (Returned, g') /\
       Grid.call_me_later at_ g' = (Returned, g') /\
       (StronglySorted by_timestamp (Grid.events g) ->
        (requested_calls_at (Qfloor at_) (Grid.events g) <= 1)%nat ->
        requested_calls_at (Qfloor at_) (Grid.events g') = 1%nat)) /\
  (forall (b : Batsim.t) (at_ : Q),
     Batsim.call_me_later at_ b =
       (Returned,
        Batsim.set_requests
          (SortedList_add Batsim.rq_timestamp
             (call_me_later_request (Batsim.current_time b) at_)
             (Batsim.requests b)) b) /\
     length (Batsim.requests (snd (Batsim.call_me_later at_ b))) =
       S (length (Batsim.requests b))).
Proof.
  split; [| split].
  - intros g at_ H. unfold Grid.call_me_later.
    apply Z.leb_gt in H. now rewrite H.
  - intros g at_ H. unfold Grid.call_me_later.
    apply Z.leb_le in H.
    assert ((Grid.current_time g <=? Qfloor at_)%Z = true) as Hle by exact H.
    rewrite Hle.
    destruct (existsb _ _) eqn:Hscan; cbn [negb].
    + exists g. rewrite Hle, Hscan. cbn [negb].
      split; [reflexivity |]. split; [reflexivity |].
      intros _ Hone. apply call_me_later_found in Hscan. lia.
    + exists (Grid.add_event (RequestedCallEvent (Qfloor at_)) g).
      split; [reflexivity |].
      assert (Grid.current_time
                (Grid.add_event (RequestedCallEvent (Qfloor at_)) g)
              = Grid.current_time g) as -> by reflexivity.
      rewrite Hle. cbn [Grid.events Grid.add_event Grid.set_events].
      split.
      * rewrite (takewhile_add_existsb timestamp
                   (Grid.is_requested_call_at (Qfloor at_))
                   (RequestedCallEvent (Qfloor at_)));
          [reflexivity | apply is_requested_call_at_event].
      * intros Hs _. unfold requested_calls_at.
        rewrite SortedList_add_filter_length, is_requested_call_at_event.
        apply (call_me_later_scan _ _ Hs) in Hscan.
        unfold requested_calls_at in Hscan. now rewrite Hscan.
  - intros b at_. split; [reflexivity |].
    cbn. apply SortedList_add_length.
Qed.

Lemma call_me_later_effect_witness :
  Grid.call_me_later 3 (example_grid 1000) =
    (Raised AssertionError, example_grid 1000) /\
  exists g',
    Grid.call_me_later 9 (example_grid 1000) = (Returned, g') /\
    Grid.call_me_later 9 g' = (Returned, g') /\
    requested_calls_at 9 (Grid.events g') = 1%nat.
Proof.
  split.
  - refine (proj1 call_me_later_effect (example_grid 1000) 3 _).
    reflexivity.
  - destruct (proj1 (proj2 call_me_later_effect) (example_grid 1000) 9)
      as (g' & H1 & H2 & H3).
    + discriminate.
    + exists g'. split; [exact H1 |]. split; [exact H2 |].
      apply H3.
      * constructor.
      * apply le_0_n.
Defined.

(** ** What commands leave alone *)

Lemma same_frame_refl (g : Grid.t) : same_frame g g.
Proof. repeat split. Qed.

Lemma same_frame_trans (g1 g2 g3 : Grid.t) :
  same_frame g1 g2 -> same_frame g2 g3 -> same_frame g1 g3.
Proof.
  intros (A1 & A2 & A3 & A4) (B1 & B2 & B3 & B4).
  repeat split; congruence.
Qed.

Lemma same_frame_fold {X : Type} (f : Grid.t -> X -> Grid.t) (xs : list X)
    (g : Grid.t) :
  (forall g0 x, same_frame g0 (f g0 x)) -> same_frame g (fold_left f xs g).
Proof.
  intros Hf. revert g. induction xs as [| x xs IH]; intros g; simpl.
  - apply same_frame_refl.
  - eapply same_frame_trans; [apply Hf | apply IH].
Qed.

Ltac frame_returns :=
  intros [= <- <-]; repeat split.

Lemma execute_job_frame (id : string) (alloc : list Z) (g g' : Grid.t)
    (o : Outcome) :
  Grid.execute_job id alloc g = (o, g') -> same_frame g g'.
Proof.
  unfold Grid.execute_job.
  destruct (ProcSet_new alloc); [| frame_returns].
  destruct (Grid.jobs g !! id); [| frame_returns].
  cbn [Grid.platform Grid.profiles Grid.set_jobs].
  destruct (Grid.platform g); [| frame_returns].
  destruct (get_resources _ _); [| frame_returns].
  destruct (py_min_list _); [| frame_returns].
  destruct (Grid.profiles g !! _) as [prof |]; [| frame_returns].
  match goal with
  | |- context [match ?x with inl _ => _ | inr _ => _ end] => destruct x
  end; frame_returns.
Qed.

Lemma kill_job_frame (ids : list string) (g g' : Grid.t) (o : Outcome) :
  Grid.kill_job ids g = (o, g') -> same_frame g g'.
Proof.
  unfold Grid.kill_job. destruct (Grid.kill_loop ids g) as [o' g1] eqn:E.
  apply kill_loop_shrinks in E as (Hg & _ & _).
  destruct o'; intros [= <- <-]; rewrite Hg; repeat split.
Qed.

Lemma set_resources_pstate_frame (rs : list Z) (ps : Z) (g g' : Grid.t)
    (o : Outcome) :
  Grid.set_resources_pstate rs ps g = (o, g') -> same_frame g g'.
Proof.
  unfold Grid.set_resources_pstate.
  destruct (Grid.platform g); [| frame_returns].
  destruct (get_resources _ _); [| frame_returns].
  destruct (Grid.pstate_loop _ _ _ _) as [ex | loc]; [frame_returns |].
  intros [= <- <-].
  match goal with
  | |- same_frame _ (fold_left _ _ (fold_left ?f ?xs ?g0)) =>
      apply (same_frame_trans _ (fold_left f xs g0))
  end; apply same_frame_fold; intros g0 [k v]; repeat split.
Qed.

(** Every command leaves the clock, the running flag, the platform and the
    trace as they are, whatever its outcome. *)
Lemma run_cmd_frame (c : Grid.Cmd) (g g' : Grid.t) (o : Outcome) :
  Grid.run_cmd c g = (o, g') -> same_frame g g'.
Proof.
  destruct c; simpl.
  - apply execute_job_frame.
  - unfold Grid.reject_job. destruct (_ !! _); frame_returns.
  - unfold Grid.call_me_later.
    destruct (Z.leb _ _); [| frame_returns].
    destruct (negb _); frame_returns.
  - apply kill_job_frame.
  - unfold Grid.register_job. frame_returns.
  - unfold Grid.register_profile. frame_returns.
  - apply set_resources_pstate_frame.
  - unfold Grid.notify. destruct notify_type; frame_returns.
Qed.

Lemma run_cmds_frame (cs : list Grid.Cmd) (g g' : Grid.t) (o : Outcome) :
  Grid.run_cmds cs g = (o, g') -> same_frame g g'.
Proof.
  revert g. induction cs as [| c cs IH]; intros g; simpl.
  - frame_returns.
  - destruct (Grid.run_cmd c g) as [o1 g1] eqn:E.
    apply run_cmd_frame in E.
    destruct o1; [| intros [= <- <-]; exact E ..].
    intros H. eapply same_frame_trans; [exact E | now apply IH].
Qed.

(** Dispatching leaves the clock, the running flag and the platform as
    they are. *)
Lemma dispatch_events_frame (callbacks : Grid.t -> Event -> list Grid.Cmd)
    (fuel : nat) (g g' : Grid.t) (o : Outcome) :
  Grid._dispatch_events callbacks fuel g = (o, g') ->
  Grid.current_time_ g' = Grid.current_time_ g /\
  Grid.is_running g' = Grid.is_running g /\
  Grid.platform g' = Grid.platform g.
Proof.
  revert g. induction fuel as [| fuel IH]; intros g; simpl.
  - intros [= <- <-]. repeat split.
  - destruct (Grid.events g) as [| e rest]; [intros [= <- <-]; repeat split |].
    destruct (Qeq_bool _ _); [| intros [= <- <-]; repeat split].
    destruct (Grid.run_cmds _ _) as [o1 g1] eqn:E.
    apply run_cmds_frame in E as (E1 & E2 & E3 & _).
    cbn in E1, E2, E3.
    destruct o1; [| intros [= <- <-]; repeat split; assumption ..].
    intros H. apply IH in H as (H1 & H2 & H3).
    repeat split; congruence.
Qed.

(** ** Finishing *)

(** [finish] leaves a handler that is not running. *)
Lemma grid_finish_not_running (callbacks : Grid.t -> Event -> list Grid.Cmd)
    (fuel : nat) (g : Grid.t) :
  Grid.is_running (snd (Grid.finish callbacks fuel g)) = false.
Proof.
  unfold Grid.finish. destruct (Grid.is_running g) eqn:R; simpl.
  - destruct (Grid._dispatch_events _ _ _) as [o g'] eqn:E.
    apply dispatch_events_frame in E as (_ & E & _). exact E.
  - exact R.
Qed.

(** On the self-contained handler a second [finish] returns at once and
    changes nothing. *)
Lemma grid_finish_twice (callbacks : Grid.t -> Event -> list Grid.Cmd)
    (fuel fuel' : nat) (g : Grid.t) :
  Grid.finish callbacks fuel' (snd (Grid.finish callbacks fuel g)) =
  (Returned, snd (Grid.finish callbacks fuel g)).
Proof.
  unfold Grid.finish at 1. now rewrite grid_finish_not_running.
Qed.

(** ** The dispatcher of the remote backend *)

(** One step of the dispatch loop. *)
Lemma batsim_dispatch_cons (callbacks : Batsim.t -> Event -> list Batsim.Cmd)
    (fuel : nat) (e : Event) (rest : list Event) (b : Batsim.t) :
  Batsim._dispatch_events callbacks (S fuel) (e :: rest) b =
  match Batsim.run_cmds (Batsim._dispatch_events callbacks fuel)
          (callbacks (hand_over_one e b) e) (hand_over_one e b) with
  | (Returned, b') => Batsim._dispatch_events callbacks (S fuel) rest b'
  | r => r
  end.
Proof. reflexivity. Qed.

Lemma batsim_dispatch_nil (callbacks : Batsim.t -> Event -> list Batsim.Cmd)
    (fuel : nat) (b : Batsim.t) :
  Batsim._dispatch_events callbacks (S fuel) [] b = (Returned, b).
Proof. reflexivity. Qed.

(** With callbacks that issue no command a dispatch returns and only hands
    the events over. *)
Lemma batsim_dispatch_quiet (n : nat) (evs : list Event) (b : Batsim.t) :
  Batsim._dispatch_events batsim_quiet (S n) evs b = (Returned, hand_over evs b).
Proof.
  revert b. induction evs as [| e evs IH]; intros b.
  - reflexivity.
  - rewrite batsim_dispatch_cons. cbn [batsim_quiet Batsim.run_cmds hand_over].
    apply IH.
Qed.

Lemma quiet_dispatch_eq (n : nat) (evs : list Event) (b : Batsim.t) :
  quiet_dispatch n evs b = (Returned, hand_over evs b).
Proof. apply batsim_dispatch_quiet. Qed.

(** A relation between the states of the handler that every step of the
    handler keeps is kept by commands and dispatches, whatever the
    callbacks do; [ok] tells the events whose hand-over keeps it. *)
Section BatsimSteps.
Variable R : Batsim.t -> Batsim.t -> Prop.
Variable ok : Event -> bool.
Hypothesis R_refl : forall b, R b b.
Hypothesis R_trans : forall b1 b2 b3, R b1 b2 -> R b2 b3 -> R b1 b3.
Hypothesis R_requests : forall rs b, R b (Batsim.set_requests rs b).
Hypothesis R_hand_over : forall e b, ok e = true -> R b (hand_over_one e b).
Hypothesis ok_not_ends : forall e, is_simulation_ends e = false -> ok e = true.

Lemma batsim_run_cmd_steps
    (dispatch : list Event -> Batsim.t -> Outcome * Batsim.t) :
  (forall evs b, forallb ok evs = true -> R b (snd (dispatch evs b))) ->
  forall c b, R b (snd (Batsim.run_cmd dispatch c b)).
Proof.
  intros HD c b. destruct c; cbn [Batsim.run_cmd].
  - unfold Batsim.execute_job.
    match goal with
    | |- context [dispatch ?evs ?b0] =>
        pose proof (HD evs b0) as H; destruct (dispatch evs b0) as [o b1]
    end.
    cbn [snd] in H. specialize (H ltac:(cbn; rewrite ok_not_ends; reflexivity)).
    destruct o; cbn [snd]; [| exact H ..].
    eapply R_trans; [exact H | apply R_requests].
  - apply R_requests.
  - apply R_requests.
  - apply R_requests.
  - unfold Batsim.register_job.
    eapply R_trans; [apply R_requests |]. apply HD.
    cbn. rewrite ok_not_ends; reflexivity.
  - apply R_requests.
  - unfold Batsim.set_resources_pstate.
    match goal with
    | |- context [Batsim.platform ?x] => set (b0 := x)
    end.
    assert (R b b0) as H0
      by (subst b0; destruct (Batsim.merge_request _ _ _); apply R_requests).
    clearbody b0.
    destruct (Batsim.platform b0); [| exact H0].
    destruct (get_resources _ _); [| exact H0].
    destruct (Batsim.transitions_loop _ _ _ _ _ _) as [ex | tr]; [exact H0 |].
    eapply R_trans; [exact H0 |]. apply HD.
    apply forallb_forall. intros e He. apply in_map_iff in He as ([k v] & <- & _).
    apply ok_not_ends. reflexivity.
  - apply R_requests.
  - unfold Batsim.notify.
    eapply R_trans; [apply R_requests |]. apply HD.
    cbn. rewrite ok_not_ends; reflexivity.
Qed.

Lemma batsim_run_cmds_steps
    (dispatch : list Event -> Batsim.t -> Outcome * Batsim.t) :
  (forall evs b, forallb ok evs = true -> R b (snd (dispatch evs b))) ->
  forall cs b, R b (snd (Batsim.run_cmds dispatch cs b)).
Proof.
  intros HD cs. induction cs as [| c cs IH]; intros b; cbn [Batsim.run_cmds].
  - apply R_refl.
  - pose proof (batsim_run_cmd_steps dispatch HD c b) as H.
    destruct (Batsim.run_cmd dispatch c b) as [o b1]. cbn [snd] in H.
    destruct o; cbn [snd]; [| exact H ..].
    eapply R_trans; [exact H | apply IH].
Qed.

Lemma batsim_dispatch_steps (callbacks : Batsim.t -> Event -> list Batsim.Cmd)
    (fuel : nat) (evs : list Event) (b : Batsim.t) :
  forallb ok evs = true ->
  R b (snd (Batsim._dispatch_events callbacks fuel evs b)).
Proof.
  revert evs b. induction fuel as [| fuel IH]; intros evs b Hok.
  - apply R_refl.
  - revert b. induction evs as [| e evs IHe]; intros b.
    + apply R_refl.
    + cbn [forallb] in Hok. apply andb_prop in Hok as [He Hevs].
      rewrite batsim_dispatch_cons.
      pose proof (batsim_run_cmds_steps _ IH
                    (callbacks (hand_over_one e b) e) (hand_over_one e b)) as H.
      destruct (Batsim.run_cmds _ _ _) as [o b1]. cbn [snd] in H.
      assert (R b b1) as Hb by (eapply R_trans; [apply R_hand_over, He | exact H]).
      destruct o; [| exact Hb ..].
      eapply R_trans; [exact Hb | apply IHe, Hevs].
Qed.
End BatsimSteps.

(** Whatever the callbacks do, a dispatch keeps the clock and the platform
    and only extends the trace. *)
Lemma batsim_dispatch_grows (callbacks : Batsim.t -> Event -> list Batsim.Cmd)
    (fuel : nat) (evs : list Event) (b : Batsim.t) :
  let b' := snd (Batsim._dispatch_events callbacks fuel evs b) in
  Batsim.current_time_ b' = Batsim.current_time_ b /\
  Batsim.platform b' = Batsim.platform b /\
  exists rest, Batsim.notified b' = Batsim.notified b ++ rest.
Proof.
  apply (batsim_dispatch_steps
           (fun b b' =>
              Batsim.current_time_ b' = Batsim.current_time_ b /\
              Batsim.platform b' = Batsim.platform b /\
              exists rest, Batsim.notified b' = Batsim.notified b ++ rest)
           (fun _ => true)).
  - intros b0. repeat split. exists []. now rewrite app_nil_r.
  - intros b1 b2 b3 (A1 & A2 & r1 & A3) (B1 & B2 & r2 & B3).
    repeat split; [congruence | congruence |].
    exists (r1 ++ r2). now rewrite B3, A3, app_assoc.
  - intros rs b0. repeat split. exists []. now rewrite app_nil_r.
  - intros e [rq ct sim pf snt bnd ntf] _. unfold hand_over_one.
    destruct (EventType_eqb _ _); [destruct sim |];
      (split; [reflexivity | split; [reflexivity | exists [e]; reflexivity]]).
  - reflexivity.
  - clear. induction evs; [reflexivity | exact IHevs].
Qed.

(** The first event of a dispatch reaches the callbacks, whatever they
    do. *)
Lemma batsim_dispatch_first (callbacks : Batsim.t -> Event -> list Batsim.Cmd)
    (fuel : nat) (e : Event) (evs : list Event) (b : Batsim.t) :
  let b' := snd (Batsim._dispatch_events callbacks (S fuel) (e :: evs) b) in
  Batsim.current_time_ b' = Batsim.current_time_ b /\
  exists rest, Batsim.notified b' = Batsim.notified b ++ e :: rest.
Proof.
  cbv zeta. rewrite batsim_dispatch_cons.
  assert (Batsim.current_time_ (hand_over_one e b) = Batsim.current_time_ b /\
          Batsim.notified (hand_over_one e b) = Batsim.notified b ++ [e])
    as [Ht Hn].
  { unfold hand_over_one. destruct b as [rq ct sim pf snt bnd ntf].
    destruct (EventType_eqb _ _); [destruct sim |]; split; reflexivity. }
  pose proof (batsim_run_cmds_steps
                (fun b b' =>
                   Batsim.current_time_ b' = Batsim.current_time_ b /\
                   exists rest, Batsim.notified b' = Batsim.notified b ++ rest)
                (fun _ => true)) as Hcs.
  specialize (Hcs ltac:(intros b0; split; [reflexivity | exists []; now rewrite app_nil_r])).
  specialize (Hcs ltac:(intros b1 b2 b3 (A1 & r1 & A3) (B1 & r2 & B3);
                        split; [congruence |];
                        exists (r1 ++ r2); now rewrite B3, A3, app_assoc)).
  specialize (Hcs ltac:(intros rs b0; split; [reflexivity | exists []; now rewrite app_nil_r])).
  specialize (Hcs ltac:(reflexivity)).
  specialize (Hcs (Batsim._dispatch_events callbacks fuel)).
  specialize (Hcs ltac:(intros evs0 b0 _;
                        destruct (batsim_dispatch_grows callbacks fuel evs0 b0)
                          as (G1 & _ & G3); split; assumption)).
  specialize (Hcs (callbacks (hand_over_one e b) e) (hand_over_one e b)).
  destruct (Batsim.run_cmds _ _ _) as [o b1]. cbn [snd] in Hcs.
  destruct Hcs as (C1 & r1 & C2).
  assert (Batsim.current_time_ b1 = Batsim.current_time_ b /\
          Batsim.notified b1 = Batsim.notified b ++ e :: r1) as [D1 D2].
  { split; [congruence |]. now rewrite C2, Hn, <- app_assoc. }
  destruct o; [| split; [exact D1 | eauto] ..].
  destruct (batsim_dispatch_grows callbacks (S fuel) evs b1) as (G1 & _ & r2 & G3).
  cbv zeta in G1, G3. split; [congruence |].
  exists (r1 ++ r2). rewrite G3, D2, <- app_assoc. reflexivity.
Qed.

(** C6, on the source: the remote [finish] has no guard.  Two calls in
    succession hand [SimulationEnds] to the callbacks twice: with callbacks
    that issue no command the second call returns and the trace has grown
    by exactly the two events; whatever the callbacks do, both events are
    handed over. *)
Theorem batsim_finish_twice (b : Batsim.t) (n : nat) :
  (let dispatch := Batsim._dispatch_events batsim_quiet (S n) in
   let b1 := snd (Batsim.finish dispatch b) in
   let b2 := snd (Batsim.finish dispatch b1) in
   fst (Batsim.finish dispatch b1) = Returned /\
   Batsim.notified b2 =
     Batsim.notified b ++
     [ SimulationEndsEvent (Batsim.current_time b);
       SimulationEndsEvent (Batsim.current_time b) ]) /\
  (forall callbacks : Batsim.t -> Event -> list Batsim.Cmd,
     let dispatch := Batsim._dispatch_events callbacks (S n) in
     let b1 := snd (Batsim.finish dispatch b) in
     let b2 := snd (Batsim.finish dispatch b1) in
     exists rest1 rest2,
       Batsim.notified b2 =
         Batsim.notified b ++
         SimulationEndsEvent (Batsim.current_time b) :: rest1 ++
         SimulationEndsEvent (Batsim.current_time b) :: rest2).
Proof.
  split.
  - cbv zeta. unfold Batsim.finish. rewrite !batsim_dispatch_quiet.
    destruct b as [rq ct sim pf snt bnd ntf].
    cbn. split; [reflexivity |].
    destruct sim; cbn; now rewrite <- app_assoc.
  - intros callbacks. cbv zeta. unfold Batsim.finish.
    assert (forall b0, Batsim.current_time (Batsim._close_simulator b0)
                       = Batsim.current_time b0 /\
                       Batsim.notified (Batsim._close_simulator b0)
                       = Batsim.notified b0) as Hclose.
    { intros b0. unfold Batsim._close_simulator.
      destruct (Batsim.simulator b0); split; reflexivity. }
    destruct (batsim_dispatch_first callbacks n
                (SimulationEndsEvent (Batsim.current_time (Batsim._close_simulator b)))
                [] (Batsim._close_simulator b)) as (T1 & r1 & N1).
    cbv zeta in T1, N1.
    set (b1 := snd (Batsim._dispatch_events callbacks (S n) _ (Batsim._close_simulator b))) in *.
    destruct (batsim_dispatch_first callbacks n
                (SimulationEndsEvent (Batsim.current_time (Batsim._close_simulator b1)))
                [] (Batsim._close_simulator b1)) as (T2 & r2 & N2).
    cbv zeta in T2, N2.
    exists r1, r2. rewrite N2.
    destruct (Hclose b) as [Hc1 Hc2]. destruct (Hclose b1) as [Hc3 Hc4].
    rewrite Hc4, N1, Hc2, Hc3, Hc1.
    assert (Batsim.current_time b1 = Batsim.current_time b) as ->.
    { unfold Batsim.current_time. rewrite T1.
      unfold Batsim._close_simulator. destruct (Batsim.simulator b); reflexivity. }
    now rewrite <- app_assoc.
Qed.

(** The same on a started handler: one [SimulationBegins], then two
    [SimulationEnds]. *)
Example batsim_finish_twice_example :
  let dispatch := Batsim._dispatch_events batsim_quiet 1 in
  map type
    (Batsim.notified
       (snd (Batsim.finish dispatch
               (snd (Batsim.finish dispatch
                       (snd (Batsim.start dispatch (Some example_platform)
                               Batsim.init)))))))
  = [ SIMULATION_BEGINS; SIMULATION_ENDS; SIMULATION_ENDS ].
Proof. reflexivity. Qed.

(** ** Power-state transitions *)

Lemma last_cons_default {A : Type} (x : A) (l : list A) (d : A) :
  List.last (x :: l) d = List.last l x.
Proof.
  revert x d. induction l as [| y l IH]; intros x d; [reflexivity |].
  change (List.last (x :: y :: l) d) with (List.last (y :: l) d).
  now rewrite !IH.
Qed.

Lemma pstate_node_loop_acc (tts : Z) (trans : option PowerState)
    (rs : list Resource) (acc : list Z) (nv : list Z) (rv : option Resource) :
  Grid.pstate_node_loop tts trans rs
    {| Grid.timestamps := [(tts, acc)];
       Grid.transitions :=
         match trans with Some ps => [(ps_id ps, acc)] | None => [] end;
       Grid.nodes_visited := nv; Grid.r_var := rv |} =
  {| Grid.timestamps := [(tts, acc ++ map r_id rs)];
     Grid.transitions :=
       match trans with
       | Some ps => [(ps_id ps, acc ++ map r_id rs)]
       | None => []
       end;
     Grid.nodes_visited := nv;
     Grid.r_var := List.last (map Some rs) rv |}.
Proof.
  revert acc rv. induction rs as [| r rs IH]; intros acc rv.
  - simpl. rewrite app_nil_r. reflexivity.
  - assert (List.last (map Some (r :: rs)) rv = List.last (map Some rs) (Some r))
      as -> by apply last_cons_default.
    replace (acc ++ map r_id (r :: rs)) with ((acc ++ [r_id r]) ++ map r_id rs)
      by (rewrite <- app_assoc; reflexivity).
    rewrite <- IH.
    destruct trans as [ps |];
      cbn [Grid.pstate_node_loop Grid.timestamps Grid.transitions
           Grid.nodes_visited dd_append];
      rewrite ?Z.eqb_refl; reflexivity.
Qed.

(** The loop over the resources of a node, from empty dicts. *)
Lemma pstate_node_loop_fresh (tts : Z) (trans : option PowerState)
    (rs : list Resource) :
  rs <> [] ->
  Grid.pstate_node_loop tts trans rs no_locals =
  {| Grid.timestamps := [(tts, map r_id rs)];
     Grid.transitions :=
       match trans with
       | Some ps => [(ps_id ps, map r_id rs)]
       | None => []
       end;
     Grid.nodes_visited := [];
     Grid.r_var := List.last (map Some rs) None |}.
Proof.
  destruct rs as [| r rs]; [congruence | intros _].
  cbn [Grid.pstate_node_loop no_locals Grid.timestamps Grid.transitions
       Grid.nodes_visited dd_append].
  replace (match trans with
           | Some ps => dd_append (ps_id ps) (r_id r) []
           | None => []
           end)
    with (match trans with
          | Some ps => [(ps_id ps, [r_id r])]
          | None => []
          end) by (now destruct trans).
  rewrite pstate_node_loop_acc.
  change (map Some (r :: rs)) with (Some r :: map Some rs).
  now rewrite last_cons_default.
Qed.

(** Resources of a node that has been visited are skipped. *)
Lemma pstate_loop_visited (p : Platform) (pstate : Z) (rs : list Resource)
    (l : Grid.PstateLocals) (node : Z) :
  Forall (fun r => r_parent_id r = node) rs ->
  existsb (Z.eqb node) (Grid.nodes_visited l) = true ->
  Grid.pstate_loop p pstate rs l = inr l.
Proof.
  intros Hall Hv. induction Hall as [| r rs Hr Hall IH]; simpl.
  - reflexivity.
  - rewrite Hr, Hv. exact IH.
Qed.

Lemma last_map_Some_In {A : Type} (l : list A) (d : option A) :
  l <> [] -> exists x, List.last (map Some l) d = Some x /\ In x l.
Proof.
  induction l as [| x l IH]; [congruence | intros _].
  destruct l as [| y l].
  - exists x. split; [reflexivity | now left].
  - destruct IH as (z & Hz & Hin); [discriminate |].
    exists z. split; [exact Hz | now right].
Qed.

(** The loop of [set_resources_pstate] over resources of one node. *)
Lemma pstate_loop_single_node (p : Platform) (pstate : Z) (n : Node)
    (rs : list Resource) (trans : option PowerState) (tts : Z) :
  rs <> [] ->
  Forall (fun r => r_parent_id r = n_id n) rs ->
  get_node p (n_id n) = Some n ->
  n_resources n <> [] ->
  node_owns_resources n ->
  transition_of n pstate = inr trans ->
  time_to_switch trans = inr tts ->
  exists l,
    Grid.pstate_loop p pstate rs no_locals = inr l /\
    Grid.timestamps l = [(tts, map r_id (n_resources n))] /\
    Grid.transitions l =
      match trans with
      | Some ps => [(ps_id ps, map r_id (n_resources n))]
      | None => []
      end.
Proof.
  intros Hne Hrs Hnode Hres Howns Htrans Htts.
  destruct rs as [| r rs]; [congruence |].
  apply Forall_cons_iff in Hrs as [Hr Hrs].
  cbn [Grid.pstate_loop no_locals Grid.nodes_visited existsb].
  rewrite Hr, Hnode, Htrans.
  unfold time_to_switch in Htts. rewrite Htts.
  change {| Grid.timestamps := []; Grid.transitions := [];
            Grid.nodes_visited := []; Grid.r_var := None |} with no_locals.
  rewrite (pstate_node_loop_fresh _ _ _ Hres).
  cbn [Grid.r_var Grid.timestamps Grid.transitions Grid.nodes_visited existsb
       app].
  destruct (last_map_Some_In (n_resources n) None Hres) as (x & -> & Hx).
  unfold node_owns_resources in Howns.
  rewrite List.Forall_forall in Howns. rewrite (Howns x Hx).
  eexists. split.
  - apply (pstate_loop_visited _ _ _ _ (n_id n) Hrs).
    simpl. now rewrite Z.eqb_refl.
  - split; reflexivity.
Qed.

Lemma set_resources_pstate_single_node (g : Grid.t) (resources : list Z)
    (pstate : Z) (p : Platform) (n : Node) (rs : list Resource)
    (trans : option PowerState) (tts : Z) :
  Grid.platform g = Some p ->
  get_resources p resources = Some rs ->
  rs <> [] ->
  Forall (fun r => r_parent_id r = n_id n) rs ->
  get_node p (n_id n) = Some n ->
  n_resources n <> [] ->
  node_owns_resources n ->
  transition_of n pstate = inr trans ->
  time_to_switch trans = inr tts ->
  let ids := ProcSet (map r_id (n_resources n)) in
  let now := Grid.current_time g in
  let final := ResourcePowerStateChangedEvent (now + tts) ids pstate in
  Grid.set_resources_pstate resources pstate g =
    (Returned,
     match trans with
     | Some ps =>
         Grid.add_event final
           (Grid.add_event
              (ResourcePowerStateChangedEvent now ids (ps_id ps)) g)
     | None => Grid.add_event final g
     end).
Proof.
  intros Hp Hrs Hne Hall Hnode Hres Howns Htrans Htts.
  destruct (pstate_loop_single_node p pstate n rs trans tts)
    as (l & Hl & Ht & Htr); try assumption.
  unfold Grid.set_resources_pstate. rewrite Hp, Hrs.
  change {| Grid.timestamps := []; Grid.transitions := [];
            Grid.nodes_visited := []; Grid.r_var := None |} with no_locals.
  rewrite Hl, Ht, Htr.
  destruct trans; reflexivity.
Qed.

(** The duration of a transition at a speed that is not negative is the
    floor of the float quotient [1 / speed]. *)
Lemma time_to_switch_floor (ps : PowerState) (q : Q) :
  0 <= ps_speed ps ->
  float_div (Finite 1) (float_of (ps_speed ps)) = inr (Finite q) ->
  time_to_switch (Some ps) = inr (Qfloor q) /\ (0 <= Qfloor q)%Z.
Proof.
  intros Hs Hq. unfold time_to_switch. rewrite Hq. cbn [bind py_int].
  assert (float_nonneg (Finite q)) as Hnn.
  { eapply float_div_nonneg; [| apply round_float_nonneg, Hs | exact Hq].
    discriminate. }
  cbn in Hnn. rewrite (Qtrunc_nonneg _ Hnn). split; [reflexivity |].
  change 0%Z with (Qfloor 0). now apply Qfloor_resp_le.
Qed.

Lemma time_to_switch_nonneg_speed (trans : option PowerState) (d : Z) :
  (forall ps, trans = Some ps -> 0 <= ps_speed ps) ->
  time_to_switch trans = inr d -> (0 <= d)%Z.
Proof.
  destruct trans as [ps |]; cbn [time_to_switch].
  - intros Hs. specialize (Hs ps eq_refl).
    destruct (float_div _ _) as [ex | x] eqn:E; [discriminate |].
    cbn [bind]. intros Hd.
    assert (float_nonneg x) as Hnn.
    { eapply float_div_nonneg; [| apply round_float_nonneg, Hs | exact E].
      discriminate. }
    destruct (py_int_nonneg x d Hnn Hd) as (_ & _ & _ & _ & H). exact H.
  - intros _ [= <-]. lia.
Qed.

(** C4. A request for a sleep state on resources of one node returns and
    changes the queue only.  The queue receives, each put in by timestamp,
    one event moving all the resources of the node to the switching-off
    state at the current time, and then one event moving them to the sleep
    state at [current_time + floor(1 / speed)] of the switching-off state,
    the quotient being that of the floats, finite here.  When the target
    needs no transition, the queue receives the one final event, at the
    current time. *)
Theorem set_resources_pstate_transition (g : Grid.t) (resources : list Z)
    (pstate : Z) (p : Platform) (n : Node) (rs : list Resource)
    (next_ps : PowerState) :
  Grid.platform g = Some p ->
  get_resources p resources = Some rs ->
  rs <> [] ->
  Forall (fun r => r_parent_id r = n_id n) rs ->
  get_node p (n_id n) = Some n ->
  n_resources n <> [] ->
  node_owns_resources n ->
  find (fun ps => Z.eqb (ps_id ps) pstate) (n_power_states n) = Some next_ps ->
  let ids := ProcSet (map r_id (n_resources n)) in
  let now := Grid.current_time g in
  let g' := snd (Grid.set_resources_pstate resources pstate g) in
  (forall (off : PowerState) (quotient : Q),
     ps_type next_ps = sleep ->
     find (fun ps => PowerStateType_eqb (ps_type ps) switching_off)
       (n_power_states n) = Some off ->
     0 <= ps_speed off ->
     float_div (Finite 1) (float_of (ps_speed off)) = inr (Finite quotient) ->
     fst (Grid.set_resources_pstate resources pstate g) = Returned /\
     g' = Grid.set_events (Grid.events g') g /\
     (0 <= Qfloor quotient)%Z /\
     exists queue,
       inserted timestamp
         (ResourcePowerStateChangedEvent now ids (ps_id off))
         (Grid.events g) queue /\
       inserted timestamp
         (ResourcePowerStateChangedEvent (now + Qfloor quotient) ids pstate)
         queue (Grid.events g')) /\
  (ps_type next_ps <> sleep ->
   (ps_type next_ps = computation -> n_is_on n = true) ->
   fst (Grid.set_resources_pstate resources pstate g) = Returned /\
   g' = Grid.set_events (Grid.events g') g /\
   inserted timestamp (ResourcePowerStateChangedEvent (now + 0) ids pstate)
     (Grid.events g) (Grid.events g')).
Proof.
  intros Hp Hrs Hne Hall Hnode Hres Howns Hnext ids now g'. split.
  - intros off quotient Hsleep Hoff Hpos Hq.
    destruct (time_to_switch_floor off quotient Hpos Hq) as [Htts Hd].
    subst g'.
    rewrite (set_resources_pstate_single_node g resources pstate p n rs
               (Some off) (Qfloor quotient)); try assumption.
    + cbn [fst snd]. split; [reflexivity |].
      split; [now destruct g |]. split; [exact Hd |].
      eexists. split; [apply SortedList_add_inserted |].
      unfold Grid.add_event at 1. cbn [Grid.events Grid.set_events].
      apply SortedList_add_inserted.
    + unfold transition_of. now rewrite Hnext, Hsleep, Hoff.
  - intros Hns Hon. subst g'.
    rewrite (set_resources_pstate_single_node g resources pstate p n rs
               None 0%Z); try assumption; [| | reflexivity].
    + cbn [fst snd]. split; [reflexivity |].
      split; [now destruct g |].
      apply SortedList_add_inserted.
    + unfold transition_of. rewrite Hnext.
      destruct (ps_type next_ps) eqn:T; simpl; try reflexivity.
      * now rewrite Hon.
      * congruence.
Qed.

Lemma set_resources_pstate_transition_witness :
  (let g' := snd (Grid.set_resources_pstate [1%Z] 1 example_pstate_grid) in
   fst (Grid.set_resources_pstate [1%Z] 1 example_pstate_grid) = Returned /\
   g' = Grid.set_events (Grid.events g') example_pstate_grid /\
   (0 <= Qfloor 5)%Z /\
   exists queue,
     inserted timestamp (ResourcePowerStateChangedEvent 7 [0; 1]%Z 2)
       (Grid.events example_pstate_grid) queue /\
     inserted timestamp
       (ResourcePowerStateChangedEvent (7 + Qfloor 5) [0; 1]%Z 1)
       queue (Grid.events g')) /\
  (let g' := snd (Grid.set_resources_pstate [1%Z] 0 example_pstate_grid) in
   fst (Grid.set_resources_pstate [1%Z] 0 example_pstate_grid) = Returned /\
   g' = Grid.set_events (Grid.events g') example_pstate_grid /\
   inserted timestamp (ResourcePowerStateChangedEvent (7 + 0) [0; 1]%Z 0)
     (Grid.events example_pstate_grid) (Grid.events g')).
Proof.
  split.
  - refine (proj1 (set_resources_pstate_transition example_pstate_grid [1%Z] 1
                     example_platform example_node
                     [ {| r_id := 1; r_parent_id := 0; r_speed := 2 |} ]
                     {| ps_id := 1; ps_type := sleep; ps_speed := 0 |}
                     eq_refl eq_refl _ _ eq_refl _ _ eq_refl)
              {| ps_id := 2; ps_type := switching_off; ps_speed := 1 # 5 |}
              5 eq_refl eq_refl _ _).
    + discriminate.
    + repeat constructor.
    + discriminate.
    + repeat constructor.
    + discriminate.
    + vm_compute. reflexivity.
  - refine (proj2 (set_resources_pstate_transition example_pstate_grid [1%Z] 0
                     example_platform example_node
                     [ {| r_id := 1; r_parent_id := 0; r_speed := 2 |} ]
                     {| ps_id := 0; ps_type := computation; ps_speed := 2 |}
                     eq_refl eq_refl _ _ eq_refl _ _ eq_refl) _ _).
    + discriminate.
    + repeat constructor.
    + discriminate.
    + repeat constructor.
    + discriminate.
    + reflexivity.
Defined.

(** The transition of the example: switching off at speed 1/5 takes 5. *)
Example set_resources_pstate_example :
  Grid.events (snd (Grid.set_resources_pstate [1%Z] 1 example_pstate_grid)) =
  [ ResourcePowerStateChangedEvent 7 [0; 1]%Z 2;
    ResourcePowerStateChangedEvent 12 [0; 1]%Z 1 ].
Proof. vm_compute. reflexivity. Qed.

(** ** Request merging in the remote backend *)

Lemma procset_insert_In (i x : Z) (s : list Z) :
  In x (procset_insert i s) <-> x = i \/ In x s.
Proof.
  induction s as [| y s IH]; simpl; [intuition |].
  destruct (Z.ltb i y); simpl; [intuition |].
  destruct (Z.eqb i y) eqn:E; simpl.
  - apply Z.eqb_eq in E. subst. intuition.
  - rewrite IH. intuition.
Qed.

Lemma ProcSet_fold_In (x : Z) (ids acc : list Z) :
  In x (fold_left (fun s i => procset_insert i s) ids acc) <->
  In x ids \/ In x acc.
Proof.
  revert acc. induction ids as [| i ids IH]; intros acc; simpl.
  - intuition.
  - rewrite IH, procset_insert_In. intuition.
Qed.

(** [ProcSet] keeps exactly the ids it is given. *)
Lemma ProcSet_In (x : Z) (ids : list Z) : In x (ProcSet ids) <-> In x ids.
Proof.
  unfold ProcSet. rewrite ProcSet_fold_In. simpl. intuition.
Qed.

(** Events other than [SimulationEnds] only reach the trace. *)
Lemma batsim_dispatch_plain (evs : list Event) (b : Batsim.t) :
  Forall (fun e => EventType_eqb (type e) SIMULATION_ENDS = false) evs ->
  hand_over evs b = Batsim.set_notified (Batsim.notified b ++ evs) b.
Proof.
  intros H. revert b. induction H as [| e evs He H IH]; intros b; simpl.
  - rewrite app_nil_r. now destruct b.
  - unfold hand_over_one. rewrite He, IH. cbn. now rewrite <- app_assoc.
Qed.

(** Dispatching sends nothing but acknowledgements, which are empty
    batches. *)
Lemma batsim_dispatch_sent (evs : list Event) (b : Batsim.t) :
  exists acks,
    Batsim.sent (hand_over evs b) = Batsim.sent b ++ acks /\
    Forall (fun m => Batsim.msg_requests m = []) acks.
Proof.
  revert b. induction evs as [| e evs IH]; intros b; simpl.
  - exists []. now rewrite app_nil_r.
  - match goal with
    | |- context [hand_over evs ?b1] => set (b' := b1)
    end.
    assert (exists a, Batsim.sent b' = Batsim.sent b ++ a /\
                      Forall (fun m => Batsim.msg_requests m = []) a)
      as (a & Ha & HFa).
    { subst b'. unfold hand_over_one. destruct b as [rq ct sim pf snt bnd ntf].
      destruct (EventType_eqb _ _); [| exists []; cbn; now rewrite app_nil_r].
      destruct sim; cbn.
      - eexists. split; [reflexivity |]. repeat constructor.
      - exists []. now rewrite app_nil_r. }
    destruct (IH b') as (acks & Hs & Hacks).
    exists (a ++ acks). rewrite Hs, Ha, app_assoc. split; [reflexivity |].
    apply Forall_app. now split.
Qed.

Lemma merge_request_none (now : Z) (rs : list Z) (l : list Batsim.Request) :
  Forall (fun r => merge_candidate now r = false) l ->
  Batsim.merge_request now rs l = None.
Proof.
  induction 1 as [| r l Hr H IH]; simpl; [reflexivity |].
  unfold merge_candidate in Hr. now rewrite Hr, IH.
Qed.

(** The merge loop finds the request that was added for the current time
    when nothing else of the kind is queued for it, and updates it in
    place. *)
Lemma merge_request_added (now : Z) (r1 r2 : list Z) (p1 : Z)
    (l : list Batsim.Request) :
  Forall (fun r => merge_candidate now r = false) l ->
  Batsim.merge_request now r2
    (SortedList_add Batsim.rq_timestamp
       (Batsim.SetResourceStateRequest now r1 p1) l) =
  Some (SortedList_add Batsim.rq_timestamp (merged_request now r1 r2 p1) l).
Proof.
  induction 1 as [| r l Hr H IH]; simpl.
  - now rewrite Qeq_bool_refl.
  - destruct (Qle_bool (Batsim.rq_timestamp r) (inject_Z now)); simpl.
    + unfold merge_candidate in Hr. now rewrite Hr, IH.
    + now rewrite Qeq_bool_refl.
Qed.

(** What a call of [set_resources_pstate] does to the buffer, whatever its
    outcome: the merge or the new request; the clock and the messages sent
    stay as they are. *)
Lemma batsim_set_resources_pstate_requests (n : nat) (rs : list Z) (ps : Z)
    (b : Batsim.t) :
  let b' := snd (Batsim.set_resources_pstate (quiet_dispatch n) rs ps b) in
  Batsim.requests b' =
    match Batsim.merge_request (Batsim.current_time b) rs (Batsim.requests b) with
    | Some l => l
    | None =>
        SortedList_add Batsim.rq_timestamp
          (Batsim.SetResourceStateRequest (Batsim.current_time b) rs ps)
          (Batsim.requests b)
    end /\
  Batsim.current_time_ b' = Batsim.current_time_ b /\
  Batsim.sent b' = Batsim.sent b /\
  Batsim.simulator b' = Batsim.simulator b.
Proof.
  unfold Batsim.set_resources_pstate.
  set (b0 := match Batsim.merge_request _ _ _ with
             | Some l => Batsim.set_requests l b
             | None => Batsim._append_request _ b
             end).
  assert (Batsim.requests b0 =
            match Batsim.merge_request (Batsim.current_time b) rs
                    (Batsim.requests b) with
            | Some l => l
            | None =>
                SortedList_add Batsim.rq_timestamp
                  (Batsim.SetResourceStateRequest (Batsim.current_time b) rs ps)
                  (Batsim.requests b)
            end /\
          Batsim.current_time_ b0 = Batsim.current_time_ b /\
          Batsim.sent b0 = Batsim.sent b /\
          Batsim.simulator b0 = Batsim.simulator b) as H0.
  { subst b0. destruct (Batsim.merge_request _ _ _); repeat split. }
  destruct (Batsim.platform b0); [| exact H0].
  destruct (get_resources _ _); [| exact H0].
  destruct (Batsim.transitions_loop _ _ _ _ _ _) as [ex | tr]; [exact H0 |].
  rewrite quiet_dispatch_eq. cbn [snd].
  rewrite batsim_dispatch_plain; [exact H0 |].
  apply Forall_map. apply List.Forall_forall. intros [k v] _. reflexivity.
Qed.

(** Two calls for a time for which no such request was queued leave one
    request, which carries the target state of the first call. *)
Lemma batsim_set_resources_pstate_twice (n : nat) (b : Batsim.t)
    (r1 r2 : list Z) (p1 p2 : Z) :
  Forall (fun r => merge_candidate (Batsim.current_time b) r = false)
    (Batsim.requests b) ->
  let b1 := snd (Batsim.set_resources_pstate (quiet_dispatch n) r1 p1 b) in
  let b2 := snd (Batsim.set_resources_pstate (quiet_dispatch n) r2 p2 b1) in
  Batsim.requests b1 =
    SortedList_add Batsim.rq_timestamp
      (Batsim.SetResourceStateRequest (Batsim.current_time b) r1 p1)
      (Batsim.requests b) /\
  Batsim.requests b2 =
    SortedList_add Batsim.rq_timestamp
      (merged_request (Batsim.current_time b) r1 r2 p1) (Batsim.requests b) /\
  Batsim.current_time b2 = Batsim.current_time b /\
  Batsim.sent b2 = Batsim.sent b /\
  Batsim.is_running b2 = Batsim.is_running b.
Proof.
  intros Hfresh b1 b2.
  destruct (batsim_set_resources_pstate_requests n r1 p1 b)
    as (Hr1 & Ht1 & Hs1 & Hp1).
  destruct (batsim_set_resources_pstate_requests n r2 p2 b1)
    as (Hr2 & Ht2 & Hs2 & Hp2).
  fold b1 in Hr1, Ht1, Hs1, Hp1. fold b2 in Hr2, Ht2, Hs2, Hp2.
  rewrite (merge_request_none _ _ _ Hfresh) in Hr1.
  assert (Batsim.current_time b1 = Batsim.current_time b) as Hc1
    by (unfold Batsim.current_time; now rewrite Ht1).
  rewrite Hc1, Hr1, (merge_request_added _ _ _ _ _ Hfresh) in Hr2.
  repeat split; try assumption; try congruence.
  - unfold Batsim.current_time. now rewrite Ht2, Ht1.
  - unfold Batsim.is_running. congruence.
Qed.

(** [proceed_simulation] on a running handler hands the batch of the
    queued requests to the network, followed by nothing but
    acknowledgements, and leaves the buffer empty of them. *)
Lemma batsim_proceed_sends_batch (n : nat) (msg : Batsim.Reply) (b : Batsim.t) :
  Batsim.is_running b = true ->
  exists acks,
    Batsim.sent (snd (Batsim.proceed_simulation (quiet_dispatch n) msg b)) =
      Batsim.sent b ++ batch b :: acks /\
    Forall (fun m => Batsim.msg_requests m = []) acks /\
    Batsim.requests (snd (Batsim.proceed_simulation (quiet_dispatch n) msg b)) = [].
Proof.
  intros Hrun. unfold Batsim.proceed_simulation. rewrite Hrun.
  cbn [negb Batsim._read_events]. rewrite quiet_dispatch_eq. cbn [snd].
  match goal with
  | |- context [hand_over ?evs ?b1] =>
      destruct (batsim_dispatch_sent evs b1) as (acks & Hs & Hacks);
      exists acks; rewrite Hs
  end.
  cbn. rewrite <- app_assoc. repeat split; [exact Hacks |].
  generalize (Batsim.reply_events msg). intros evs.
  match goal with
  | |- Batsim.requests (hand_over evs ?b1) = [] =>
      assert (Batsim.requests b1 = []) as H1 by reflexivity;
      revert H1; generalize b1
  end.
  induction evs as [| e evs IH]; intros b1 H1; simpl; [exact H1 |].
  apply IH. unfold hand_over_one.
  destruct (EventType_eqb _ _); [reflexivity | exact H1].
Qed.

(** C9. Two [set_resources_pstate] calls for a time that has not been sent
    yet leave one request in the buffer, not two: its resource ids are the
    union of the ids of both calls.  The next [proceed_simulation] hands
    one batch with every queued request to the network, anything after it
    being an empty acknowledgement, and empties the buffer.  The callbacks
    of the policy issue no command of their own in between. *)
Theorem set_resources_pstate_merges (n : nat) (b : Batsim.t) (r1 r2 : list Z)
    (p1 p2 : Z) (msg : Batsim.Reply) :
  Forall (fun r => merge_candidate (Batsim.current_time b) r = false)
    (Batsim.requests b) ->
  Batsim.is_running b = true ->
  let b1 := snd (Batsim.set_resources_pstate (quiet_dispatch n) r1 p1 b) in
  let b2 := snd (Batsim.set_resources_pstate (quiet_dispatch n) r2 p2 b1) in
  let b3 := snd (Batsim.proceed_simulation (quiet_dispatch n) msg b2) in
  (exists ids st,
     Batsim.requests b2 =
       SortedList_add Batsim.rq_timestamp
         {| Batsim.rq_timestamp := inject_Z (Batsim.current_time b);
            Batsim.rq_data := Batsim.SetResourceStateData ids st |}
         (Batsim.requests b) /\
     forall x, In x ids <-> In x r1 \/ In x r2) /\
  length (Batsim.requests b2) = S (length (Batsim.requests b)) /\
  exists acks,
    Batsim.sent b3 = Batsim.sent b ++ batch b2 :: acks /\
    Forall (fun m => Batsim.msg_requests m = []) acks /\
    Batsim.requests b3 = [].
Proof.
  intros Hfresh Hrun b1 b2 b3.
  destruct (batsim_set_resources_pstate_twice n b r1 r2 p1 p2 Hfresh)
    as (_ & Hr2 & _ & Hs2 & Hrun2).
  fold b1 b2 in Hr2, Hs2, Hrun2.
  split; [| split].
  - exists (ProcSet (ProcSet r1 ++ r2)), p1. split; [exact Hr2 |].
    intros x. rewrite ProcSet_In, in_app_iff, ProcSet_In. reflexivity.
  - rewrite Hr2. apply SortedList_add_length.
  - destruct (batsim_proceed_sends_batch n msg b2) as (acks & Hs & Hacks & Hq).
    + congruence.
    + exists acks. fold b3 in Hs, Hq. rewrite Hs, Hs2. auto.
Qed.

Lemma set_resources_pstate_merges_witness :
  length
    (Batsim.requests
       (snd (Batsim.set_resources_pstate (quiet_dispatch 0) [1%Z] 1
               (snd (Batsim.set_resources_pstate (quiet_dispatch 0) [0%Z] 1 example_batsim))))) =
  S (length (Batsim.requests example_batsim)).
Proof.
  refine (proj1 (proj2 (set_resources_pstate_merges 0 example_batsim
                          [0%Z] [1%Z] 1 1 (empty_reply 6) _ _))).
  - constructor.
  - reflexivity.
Defined.

(** The batch of the example: one request for the resources 0 and 1. *)
Example set_resources_pstate_merges_example :
  Batsim.sent
    (snd (Batsim.proceed_simulation (quiet_dispatch 0) (empty_reply 6)
            (snd (Batsim.set_resources_pstate (quiet_dispatch 0) [1%Z] 1
                    (snd (Batsim.set_resources_pstate (quiet_dispatch 0) [0%Z] 1 example_batsim))))))
  = [ {| Batsim.msg_now := 5;
         Batsim.msg_requests :=
           [ {| Batsim.rq_timestamp := 5;
                Batsim.rq_data := Batsim.SetResourceStateData [0; 1]%Z 1 |} ] |} ].
Proof. reflexivity. Qed.

(** C10. When the second call asks for another power state, the merged
    request still carries the state of the first call.  Every request for
    a power state that the next batch carries for that time has the first
    state, so the state of the second call is not transmitted; the batch
    is all that the step sends besides empty acknowledgements.  The
    callbacks of the policy issue no command of their own in between. *)
Theorem set_resources_pstate_keeps_first_state (n : nat) (b : Batsim.t)
    (r1 r2 : list Z) (p1 p2 : Z) (msg : Batsim.Reply) :
  Forall (fun r => merge_candidate (Batsim.current_time b) r = false)
    (Batsim.requests b) ->
  Batsim.is_running b = true ->
  p1 <> p2 ->
  let b1 := snd (Batsim.set_resources_pstate (quiet_dispatch n) r1 p1 b) in
  let b2 := snd (Batsim.set_resources_pstate (quiet_dispatch n) r2 p2 b1) in
  let b3 := snd (Batsim.proceed_simulation (quiet_dispatch n) msg b2) in
  In (merged_request (Batsim.current_time b) r1 r2 p1) (Batsim.requests b2) /\
  (forall r, In r (Batsim.requests b2) ->
             merge_candidate (Batsim.current_time b) r = true ->
             r = merged_request (Batsim.current_time b) r1 r2 p1) /\
  (forall m r ids,
     In m (Batsim.sent b3) -> ~ In m (Batsim.sent b) ->
     In r (Batsim.msg_requests m) ->
     merge_candidate (Batsim.current_time b) r = true ->
     Batsim.rq_data r <> Batsim.SetResourceStateData ids p2).
Proof.
  intros Hfresh Hrun Hne b1 b2 b3.
  destruct (batsim_set_resources_pstate_twice n b r1 r2 p1 p2 Hfresh)
    as (_ & Hr2 & _ & Hs2 & Hrun2).
  fold b1 b2 in Hr2, Hs2, Hrun2.
  assert (forall r, In r (Batsim.requests b2) ->
                    merge_candidate (Batsim.current_time b) r = true ->
                    r = merged_request (Batsim.current_time b) r1 r2 p1)
    as Honly.
  { intros r Hin Hc. rewrite Hr2 in Hin.
    apply SortedList_add_In in Hin as [-> | Hin]; [reflexivity |].
    rewrite List.Forall_forall in Hfresh. rewrite (Hfresh r Hin) in Hc.
    discriminate. }
  split; [| split].
  - rewrite Hr2. apply SortedList_add_In. now left.
  - exact Honly.
  - intros m r ids Hm Hold Hr Hc Hdata.
    destruct (batsim_proceed_sends_batch n msg b2) as (acks & Hs & Hacks & _);
      [congruence |].
    fold b3 in Hs. rewrite Hs, Hs2 in Hm.
    apply in_app_or in Hm as [Hm | [<- | Hm]].
    + contradiction.
    + apply Honly in Hr; [| exact Hc]. subst r.
      cbn in Hdata. congruence.
    + rewrite List.Forall_forall in Hacks. rewrite (Hacks m Hm) in Hr.
      destruct Hr.
Qed.

Lemma set_resources_pstate_keeps_first_state_witness :
  In (merged_request 5 [0%Z] [1%Z] 1)
     (Batsim.requests
        (snd (Batsim.set_resources_pstate (quiet_dispatch 0) [1%Z] 0
                (snd (Batsim.set_resources_pstate (quiet_dispatch 0) [0%Z] 1 example_batsim))))).
Proof.
  refine (proj1 (set_resources_pstate_keeps_first_state 0 example_batsim
                   [0%Z] [1%Z] 1 0 (empty_reply 6) _ _ _)).
  - constructor.
  - reflexivity.
  - discriminate.
Defined.

(** The buffer after a request for sleep (state 1) and a request for the
    computation state 0 at the same time: one request, for state 1. *)
Example set_resources_pstate_keeps_first_state_example :
  Batsim.requests
    (snd (Batsim.set_resources_pstate (quiet_dispatch 0) [1%Z] 0
            (snd (Batsim.set_resources_pstate (quiet_dispatch 0) [0%Z] 1 example_batsim)))) =
  [ {| Batsim.rq_timestamp := 5;
       Batsim.rq_data := Batsim.SetResourceStateData [0; 1]%Z 1 |} ].
Proof. reflexivity. Qed.

(** The loop of the remote [set_resources_pstate] reads the variable [r]
    of its inner loop also when that loop has not run: on a node that
    needs no transition the call raises after it has queued the request. *)
Example batsim_set_resources_pstate_unbound :
  fst (Batsim.set_resources_pstate (quiet_dispatch 0) [1%Z] 0 example_batsim) =
  Raised UnboundLocalError.
Proof. reflexivity. Qed.

(** ** Well-formed inputs keep events in the future *)

Lemma integral_inject_Z (z : Z) : integral (inject_Z z).
Proof. unfold integral. now rewrite Qfloor_Z. Qed.

Lemma integral_eq (q : Q) (z : Z) : q == inject_Z z -> integral q.
Proof.
  intros H. unfold integral. rewrite (Qfloor_comp _ _ H), Qfloor_Z. exact H.
Qed.

Lemma integral_plus (a b : Q) : integral a -> integral b -> integral (a + b).
Proof.
  unfold integral. intros Ha Hb.
  apply (integral_eq _ (Qfloor a + Qfloor b)).
  rewrite inject_Z_plus, <- Ha, <- Hb. reflexivity.
Qed.

Lemma integral_py_min (a b : Q) : integral a -> integral b -> integral (py_min a b).
Proof. intros Ha Hb. destruct (py_min_cases a b) as [-> | ->]; assumption. Qed.

Lemma py_min_nonneg (a b : Q) : 0 <= a -> 0 <= b -> 0 <= py_min a b.
Proof. intros Ha Hb. destruct (py_min_cases a b) as [-> | ->]; assumption. Qed.

Lemma Qtrunc_nonneg_le (x : Q) : 0 <= x -> (0 <= Qtrunc x)%Z.
Proof.
  intros H. rewrite (Qtrunc_nonneg _ H).
  change 0%Z with (Qfloor 0). now apply Qfloor_resp_le.
Qed.

Lemma Qeq_bool_nonneg_pos (x : Q) : 0 <= x -> Qeq_bool x 0 = false -> 0 < x.
Proof.
  intros Hle Hne. apply Qle_lteq in Hle as [Hlt | Heq]; [exact Hlt |].
  apply Qeq_bool_neq in Hne. exfalso. apply Hne. now symmetry.
Qed.

Lemma inject_Z_nonneg (z : Z) : (0 <= z)%Z -> 0 <= inject_Z z.
Proof. intros H. change 0 with (inject_Z 0). now rewrite <- Zle_Qle. Qed.

Lemma event_ok_now (now : Z) (d : EventData) :
  event_ok now {| timestamp := inject_Z now; data := d |}.
Proof. split; [apply Qle_refl | apply integral_inject_Z]. Qed.

Lemma event_ok_later (now delta : Z) (d : EventData) :
  (0 <= delta)%Z ->
  event_ok now {| timestamp := inject_Z (now + delta); data := d |}.
Proof.
  intros H. split; [| apply integral_inject_Z].
  cbn. rewrite <- Zle_Qle. lia.
Qed.

Lemma get_resources_In (p : Platform) (ids : list Z) (rs : list Resource) :
  get_resources p ids = Some rs -> forall r, In r rs -> In r (all_resources p).
Proof.
  revert rs. induction ids as [| i ids IH]; intros rs; simpl.
  - intros [= <-] r [].
  - destruct (find _ _) as [r0 |] eqn:F; [| discriminate].
    destruct (get_resources p ids) as [rs0 |]; [| discriminate].
    intros [= <-] r [<- | Hr].
    + apply find_some in F. tauto.
    + now apply (IH rs0).
Qed.

Lemma wf_platform_speed (p : Platform) (r : Resource) :
  wf_platform p -> In r (all_resources p) -> 0 <= r_speed r.
Proof.
  unfold wf_platform, all_resources. intros Hwf Hr.
  apply in_flat_map in Hr as (n & Hn & Hr).
  rewrite List.Forall_forall in Hwf. destruct (Hwf n Hn) as [Hres _].
  rewrite List.Forall_forall in Hres. now apply Hres.
Qed.

Lemma wf_platform_node (p : Platform) (id : Z) (n : Node) :
  wf_platform p -> get_node p id = Some n -> wf_node n.
Proof.
  unfold wf_platform, get_node. intros Hwf Hn.
  apply find_some in Hn as [Hn _].
  rewrite List.Forall_forall in Hwf. now apply Hwf.
Qed.

(** A transition state of a well-formed node gives a non-negative delay. *)
Lemma time_to_switch_nonneg (n : Node) (pstate : Z)
    (trans : option PowerState) (tts : Z) :
  wf_node n ->
  transition_of n pstate = inr trans ->
  time_to_switch trans = inr tts ->
  (0 <= tts)%Z.
Proof.
  intros [_ Hps] Htrans Htts.
  apply (time_to_switch_nonneg_speed trans tts); [| exact Htts].
  intros ps ->.
  assert (In ps (n_power_states n)) as Hin.
  { unfold transition_of in Htrans.
    destruct (find _ _) as [next_ps |]; [| discriminate].
    destruct (PowerStateType_eqb (ps_type next_ps) sleep).
    - destruct (find _ _) as [x |] eqn:F; [| discriminate].
      injection Htrans as ->. apply find_some in F. tauto.
    - destruct (_ && _); [| discriminate].
      destruct (find _ _) as [x |] eqn:F; [| discriminate].
      injection Htrans as ->. apply find_some in F. tauto. }
  rewrite List.Forall_forall in Hps. exact (Hps ps Hin).
Qed.

Lemma dd_append_keys (P : Z -> Prop) (k v : Z) (d : list (Z * list Z)) :
  P k -> Forall (fun kv => P (fst kv)) d ->
  Forall (fun kv => P (fst kv)) (dd_append k v d).
Proof.
  intros Hk. induction 1 as [| [k' vs] d Hkv H IH]; simpl.
  - repeat constructor. exact Hk.
  - destruct (Z.eqb k' k); constructor; assumption.
Qed.

Lemma pstate_node_loop_keys (tts : Z) (trans : option PowerState)
    (rs : list Resource) (l : Grid.PstateLocals) :
  (0 <= tts)%Z ->
  Forall (fun kv => (0 <= fst kv)%Z) (Grid.timestamps l) ->
  Forall (fun kv => (0 <= fst kv)%Z)
    (Grid.timestamps (Grid.pstate_node_loop tts trans rs l)).
Proof.
  intros Htts. revert l. induction rs as [| r rs IH]; intros l Hl; simpl.
  - exact Hl.
  - apply IH. cbn. now apply (dd_append_keys (fun k => (0 <= k)%Z)).
Qed.

(** On a well-formed platform the loop of [set_resources_pstate] collects
    non-negative delays only. *)
Lemma pstate_loop_keys (p : Platform) (pstate : Z) (rs : list Resource)
    (l l' : Grid.PstateLocals) :
  wf_platform p ->
  Forall (fun kv => (0 <= fst kv)%Z) (Grid.timestamps l) ->
  Grid.pstate_loop p pstate rs l = inr l' ->
  Forall (fun kv => (0 <= fst kv)%Z) (Grid.timestamps l').
Proof.
  intros Hwf. revert l. induction rs as [| r rs IH]; intros l Hl; simpl.
  - now intros [= <-].
  - destruct (existsb _ _); [now apply IH |].
    destruct (get_node p _) as [n |] eqn:Hn; [| discriminate].
    destruct (transition_of n pstate) as [ex | trans] eqn:Ht; [discriminate |].
    change (match trans with
            | Some ps =>
                bind (float_div (Finite 1) (float_of (ps_speed ps))) py_int
            | None => inr 0%Z
            end) with (time_to_switch trans).
    destruct (time_to_switch trans) as [ex | tts] eqn:Htts; [discriminate |].
    destruct (Grid.r_var _); [| discriminate].
    apply IH. cbn [Grid.timestamps].
    apply pstate_node_loop_keys; [| exact Hl].
    eapply time_to_switch_nonneg; [| exact Ht | exact Htts].
    eapply wf_platform_node; eassumption.
Qed.

(** ** Commands keep the invariant *)

(** The invariant looks at the clock, the platform, the trace, the queue
    and the two tables. *)
Lemma grid_inv_fields (g g' : Grid.t) :
  grid_inv g ->
  Grid.current_time_ g' = Grid.current_time_ g ->
  Grid.platform g' = Grid.platform g ->
  Grid.notified g' = Grid.notified g ->
  StronglySorted by_timestamp (Grid.events g') ->
  Forall (event_ok (Grid.current_time g)) (Grid.events g') ->
  map_Forall (fun _ j => wf_job j) (Grid.jobs g') ->
  map_Forall (fun _ p => wf_profile p) (Grid.profiles g') ->
  grid_inv g'.
Proof.
  intros [] F1 F3 F4 Hs Hq Hj Hp.
  assert (Grid.current_time g' = Grid.current_time g) as Hc
    by (unfold Grid.current_time; now rewrite F1).
  constructor; rewrite ?Hc, ?F3, ?F4; assumption.
Qed.

(** A state that differs in the queue and the tables only satisfies the
    invariant as soon as these do. *)
Lemma grid_inv_change (g g' : Grid.t) :
  grid_inv g ->
  same_frame g g' ->
  StronglySorted by_timestamp (Grid.events g') ->
  Forall (event_ok (Grid.current_time g)) (Grid.events g') ->
  map_Forall (fun _ j => wf_job j) (Grid.jobs g') ->
  map_Forall (fun _ p => wf_profile p) (Grid.profiles g') ->
  grid_inv g'.
Proof.
  intros Hinv (F1 & F2 & F3 & F4). now apply grid_inv_fields.
Qed.

Lemma add_event_inv (e : Event) (g : Grid.t) :
  grid_inv g -> event_ok (Grid.current_time g) e ->
  grid_inv (Grid.add_event e g).
Proof.
  intros Hinv He. apply (grid_inv_change g); try apply Hinv.
  - repeat split.
  - apply (SortedList_add_sorted timestamp), Hinv.
  - apply List.Forall_forall. intros x Hx.
    apply (SortedList_add_In timestamp) in Hx as [-> | Hx]; [exact He |].
    pose proof (inv_queue g Hinv) as Hq.
    rewrite List.Forall_forall in Hq. now apply Hq.
Qed.

Lemma set_jobs_inv (m : gmap string Job) (g : Grid.t) :
  grid_inv g -> map_Forall (fun _ j => wf_job j) m ->
  grid_inv (Grid.set_jobs m g).
Proof.
  intros Hinv Hm. apply (grid_inv_change g); try apply Hinv.
  - repeat split.
  - exact Hm.
Qed.

Lemma delete_job_inv (id : string) (g : Grid.t) :
  grid_inv g -> grid_inv (Grid.set_jobs (delete id (Grid.jobs g)) g).
Proof.
  intros Hinv. apply set_jobs_inv; [exact Hinv |].
  apply map_Forall_delete, Hinv.
Qed.

Lemma set_events_inv (l : list Event) (g : Grid.t) :
  grid_inv g -> StronglySorted by_timestamp l -> incl l (Grid.events g) ->
  grid_inv (Grid.set_events l g).
Proof.
  intros Hinv Hs Hincl. apply (grid_inv_change g); try apply Hinv.
  - repeat split.
  - exact Hs.
  - pose proof (inv_queue g Hinv) as Hq.
    rewrite List.Forall_forall in *. intros x Hx. apply Hq, Hincl, Hx.
Qed.

Lemma fold_left_pointwise {X Y : Type} (f f' : Y -> X -> Y) (xs : list X)
    (y : Y) :
  (forall y0 x, f y0 x = f' y0 x) -> fold_left f xs y = fold_left f' xs y.
Proof.
  intros H. revert y. induction xs as [| x xs IH]; intros y; simpl;
    [reflexivity |]. now rewrite H, IH.
Qed.

Lemma add_events_inv {X : Type} (f : Grid.t -> X -> Event) (xs : list X)
    (g : Grid.t) :
  grid_inv g ->
  (forall g0 x, In x xs -> Grid.current_time g0 = Grid.current_time g ->
                event_ok (Grid.current_time g) (f g0 x)) ->
  grid_inv (fold_left (fun g0 x => Grid.add_event (f g0 x) g0) xs g) /\
  Grid.current_time (fold_left (fun g0 x => Grid.add_event (f g0 x) g0) xs g)
  = Grid.current_time g.
Proof.
  revert g. induction xs as [| x xs IH]; intros g Hinv Hf; simpl.
  - now split.
  - destruct (IH (Grid.add_event (f g x) g)) as [H1 H2].
    + apply add_event_inv; [exact Hinv |]. apply Hf; [now left | reflexivity].
    + intros g0 y Hy Hc. apply (Hf g0 y); [now right | exact Hc].
    + split; [exact H1 | exact H2].
Qed.

Lemma execute_job_inv (id : string) (alloc : list Z) (g g' : Grid.t)
    (o : Outcome) :
  grid_inv g -> Grid.execute_job id alloc g = (o, g') -> grid_inv g'.
Proof.
  intros Hinv. unfold Grid.execute_job.
  destruct (ProcSet_new alloc) as [allocation |];
    [| intros [= <- <-]; exact Hinv].
  destruct (Grid.jobs g !! id) as [job |] eqn:Hjob;
    [| intros [= <- <-]; exact Hinv].
  pose proof (delete_job_inv id g Hinv) as Hinv1.
  cbn [Grid.platform Grid.profiles Grid.set_jobs].
  destruct (Grid.platform g) as [p |] eqn:Hp;
    [| intros [= <- <-]; exact Hinv1].
  destruct (get_resources p alloc) as [rs |] eqn:Hrs;
    [| intros [= <- <-]; exact Hinv1].
  destruct (py_min_list _) as [min_speed |] eqn:Hmin;
    [| intros [= <- <-]; exact Hinv1].
  destruct (Grid.profiles g !! _) as [prof |] eqn:Hprof;
    [| intros [= <- <-]; exact Hinv1].
  assert (wf_job job) as (Hw & Hwi & Hres)
    by (exact (map_Forall_lookup_1 _ _ _ _ (inv_jobs g Hinv) Hjob)).
  assert (0 <= wp_cpu prof) as Hcpu
    by (exact (map_Forall_lookup_1 _ _ _ _ (inv_profiles g Hinv) Hprof)).
  assert (0 <= min_speed) as Hspeed.
  { apply py_min_list_spec in Hmin as [Hin _].
    apply in_map_iff in Hin as (r & <- & Hr).
    apply (wf_platform_speed p); [now apply (inv_platform g Hinv) |].
    eapply get_resources_In; eassumption. }
  assert (forall runtime : Z,
            (0 <= runtime)%Z ->
            grid_inv
              (Grid.add_event
                 (JobCompletedEvent
                    (inject_Z (Grid.current_time g)
                     + py_min (inject_Z runtime) (job_walltime job)) id
                    (if Qltb (inject_Z runtime) (job_walltime job)
                     then COMPLETED_SUCCESSFULLY
                     else COMPLETED_WALLTIME_REACHED) "0" allocation)
                 (Grid.add_event
                    (JobStartedEvent (Grid.current_time g) id allocation)
                    (Grid.set_jobs (delete id (Grid.jobs g)) g)))) as Hok.
  { intros runtime Hrt. apply add_event_inv.
    - apply add_event_inv; [exact Hinv1 | apply event_ok_now].
    - change (Grid.current_time (Grid.add_event _ _))
        with (Grid.current_time g).
      split; cbn [timestamp JobCompletedEvent].
      + apply Qle_trans with (inject_Z (Grid.current_time g) + 0);
          [rewrite Qplus_0_r; apply Qle_refl |].
        apply Qplus_le_compat; [apply Qle_refl |].
        apply py_min_nonneg; [now apply inject_Z_nonneg | exact Hw].
      + apply integral_plus; [apply integral_inject_Z |].
        apply integral_py_min; [apply integral_inject_Z | exact Hwi]. }
  rewrite runtime_work_quotient.
  destruct (work_quotient prof job min_speed) as [ex | x] eqn:Hq;
    [intros [= <- <-]; exact Hinv1 |].
  cbn [bind]. destruct (py_int x) as [ex | runtime] eqn:Hint;
    intros [= <- <-]; [exact Hinv1 |].
  apply Hok.
  pose proof (work_quotient_nonneg _ _ _ _ Hcpu Hspeed Hres Hq) as Hnn.
  destruct (py_int_nonneg x runtime Hnn Hint) as (_ & _ & _ & _ & H). exact H.
Qed.

Lemma kill_loop_sorted (ids : list string) (g g' : Grid.t) (o : Outcome) :
  StronglySorted by_timestamp (Grid.events g) ->
  Grid.kill_loop ids g = (o, g') ->
  StronglySorted by_timestamp (Grid.events g').
Proof.
  revert g. induction ids as [| i ids IH]; intros g Hs; simpl.
  - now intros [= <- <-].
  - destruct (next_index _ _) as [p |]; [| now intros [= <- <-]].
    apply IH. cbn. now apply (SortedList_pop_sorted timestamp).
Qed.

Lemma kill_job_inv (ids : list string) (g g' : Grid.t) (o : Outcome) :
  grid_inv g -> Grid.kill_job ids g = (o, g') -> grid_inv g'.
Proof.
  intros Hinv. unfold Grid.kill_job.
  destruct (Grid.kill_loop ids g) as [o1 g1] eqn:E.
  pose proof (kill_loop_sorted _ _ _ _ (inv_sorted g Hinv) E) as Hs.
  apply kill_loop_shrinks in E as (Hg & Hincl & _).
  assert (grid_inv g1) as Hinv1
    by (rewrite Hg; now apply set_events_inv).
  destruct o1; intros [= <- <-]; try exact Hinv1.
  apply add_event_inv; [exact Hinv1 | apply event_ok_now].
Qed.

Lemma set_resources_pstate_inv (rs : list Z) (ps : Z) (g g' : Grid.t)
    (o : Outcome) :
  grid_inv g -> Grid.set_resources_pstate rs ps g = (o, g') -> grid_inv g'.
Proof.
  intros Hinv. unfold Grid.set_resources_pstate.
  destruct (Grid.platform g) as [p |] eqn:Hp; [| intros [= <- <-]; exact Hinv].
  destruct (get_resources p rs) as [res |]; [| intros [= <- <-]; exact Hinv].
  destruct (Grid.pstate_loop _ _ _ _) as [ex | l] eqn:Hl;
    [intros [= <- <-]; exact Hinv |].
  apply pstate_loop_keys in Hl;
    [| now apply (inv_platform g Hinv) | constructor].
  intros [= <- <-].
  set (f1 := fun (g0 : Grid.t) (x : Z * list Z) =>
               ResourcePowerStateChangedEvent (Grid.current_time g0)
                 (ProcSet (snd x)) (fst x)).
  set (f2 := fun (g0 : Grid.t) (x : Z * list Z) =>
               ResourcePowerStateChangedEvent (Grid.current_time g0 + fst x)
                 (ProcSet (snd x)) ps).
  rewrite (fold_left_pointwise _ (fun g0 x => Grid.add_event (f2 g0 x) g0)
             (Grid.timestamps l)) by (intros g0 [k v]; reflexivity).
  rewrite (fold_left_pointwise _ (fun g0 x => Grid.add_event (f1 g0 x) g0)
             (Grid.transitions l)) by (intros g0 [k v]; reflexivity).
  destruct (add_events_inv f1 (Grid.transitions l) g Hinv) as [H1 C1].
  { intros g0 [k v] _ Hc. unfold f1. rewrite Hc. apply event_ok_now. }
  apply add_events_inv; [exact H1 |].
  intros g0 [k v] Hin Hc. unfold f2. rewrite Hc, C1. apply event_ok_later.
  rewrite List.Forall_forall in Hl. exact (Hl _ Hin).
Qed.

(** Every well-formed command keeps the invariant, whatever its outcome. *)
Lemma run_cmd_inv (c : Grid.Cmd) (g g' : Grid.t) (o : Outcome) :
  grid_inv g -> wf_cmd c -> Grid.run_cmd c g = (o, g') -> grid_inv g'.
Proof.
  intros Hinv Hwf. destruct c; simpl.
  - now apply execute_job_inv.
  - unfold Grid.reject_job. destruct (_ !! _); intros [= <- <-];
      [now apply delete_job_inv | exact Hinv].
  - unfold Grid.call_me_later.
    destruct (Z.leb _ _) eqn:Hle; [| intros [= <- <-]; exact Hinv].
    destruct (negb _); intros [= <- <-]; [| exact Hinv].
    apply add_event_inv; [exact Hinv |].
    split; [| apply integral_inject_Z].
    cbn. rewrite <- Zle_Qle. now apply Z.leb_le.
  - now apply kill_job_inv.
  - unfold Grid.register_job. intros [= <- <-].
    apply add_event_inv; [| apply event_ok_now].
    apply set_jobs_inv; [exact Hinv |].
    apply map_Forall_insert_2; [exact Hwf | apply Hinv].
  - unfold Grid.register_profile. intros [= <- <-].
    apply (grid_inv_change g); try apply Hinv; [repeat split |].
    cbn. apply map_Forall_insert_2; [exact Hwf | apply Hinv].
  - now apply set_resources_pstate_inv.
  - unfold Grid.notify. intros [= <- <-].
    assert (forall b, grid_inv (Grid.set_submitter_ended b g)) as Hse
      by (intros b; apply (grid_inv_change g); try apply Hinv; repeat split).
    destruct notify_type;
      (apply add_event_inv; [first [apply Hse | exact Hinv] | apply event_ok_now]).
Qed.

Lemma run_cmds_inv (cs : list Grid.Cmd) (g g' : Grid.t) (o : Outcome) :
  grid_inv g -> Forall wf_cmd cs -> Grid.run_cmds cs g = (o, g') -> grid_inv g'.
Proof.
  intros Hinv Hwf. revert g Hinv.
  induction Hwf as [| c cs Hc Hwf IH]; intros g Hinv; simpl.
  - now intros [= <- <-].
  - destruct (Grid.run_cmd c g) as [o1 g1] eqn:E.
    apply (run_cmd_inv _ _ _ _ Hinv Hc) in E.
    destruct o1; [now apply IH | now intros [= <- <-] ..].
Qed.

(** ** Dispatching keeps the invariant *)

Lemma at_time_floor (now : Z) (e : Event) :
  at_time now e = true -> Qfloor (timestamp e) = now.
Proof.
  unfold at_time. intros H. apply Qeq_bool_iff in H.
  rewrite (Qfloor_comp _ _ H). apply Qfloor_Z.
Qed.

Lemma StronglySorted_snoc {A : Type} (R : A -> A -> Prop) (l : list A) (x : A) :
  StronglySorted R l -> Forall (fun y => R y x) l -> StronglySorted R (l ++ [x]).
Proof.
  induction 1 as [| y l Hs IH Hall]; intros Hx; simpl.
  - repeat constructor.
  - apply Forall_cons_iff in Hx as [Hy Hx].
    constructor; [now apply IH |].
    apply Forall_app. split; [exact Hall | now constructor].
Qed.

Lemma at_last_frame (g g' : Grid.t) :
  same_frame g g' -> at_last g -> at_last g'.
Proof.
  intros (F1 & _ & _ & F4) H e. unfold Grid.current_time.
  rewrite F1, F4. apply H.
Qed.

(** Handing the head of the queue to the callbacks, when it carries the
    current time. *)
Lemma pop_event_inv (g : Grid.t) (e : Event) (rest : list Event) :
  grid_inv g ->
  Grid.events g = e :: rest ->
  at_time (Grid.current_time g) e = true ->
  grid_inv (Grid.set_notified (Grid.notified g ++ [e]) (Grid.set_events rest g)) /\
  at_last (Grid.set_notified (Grid.notified g ++ [e]) (Grid.set_events rest g)).
Proof.
  intros Hinv He Hat. pose proof (at_time_floor _ _ Hat) as Hfl.
  destruct Hinv as [Hs Hq Hpast Htr Hj Hp Hpl]. rewrite He in Hs, Hq.
  split.
  - constructor; cbn.
    + now inversion Hs.
    + now inversion Hq.
    + apply Forall_app. split; [exact Hpast |].
      constructor; [| constructor].
      unfold Grid.current_time in *. cbn. lia.
    + apply StronglySorted_snoc; [exact Htr |].
      eapply List.Forall_impl; [| exact Hpast].
      intros x Hx. unfold by_floor. cbn beta in Hx.
      unfold Grid.current_time in *. lia.
    + exact Hj.
    + exact Hp.
    + exact Hpl.
  - intros x. cbn [Grid.notified Grid.set_notified].
    rewrite last_snoc. intros [= <-]. symmetry. exact Hfl.
Qed.

Section Dispatch.
Variable callbacks : Grid.t -> Event -> list Grid.Cmd.
Hypothesis callbacks_wf : forall g e, Forall wf_cmd (callbacks g e).

(** The loop of [_dispatch_events] keeps the invariant; if it starts
    with the current time equal to the time of the last dispatched event,
    or with an event to dispatch, it ends so. *)
Lemma dispatch_events_inv (fuel : nat) (g g' : Grid.t) (o : Outcome) :
  grid_inv g ->
  Grid._dispatch_events callbacks fuel g = (o, g') ->
  grid_inv g' /\
  (o <> OutOfFuel ->
   at_last g \/
   (exists e rest, Grid.events g = e :: rest /\
                   at_time (Grid.current_time g) e = true) ->
   at_last g').
Proof.
  revert g. induction fuel as [| fuel IH]; intros g Hinv; simpl.
  - intros [= <- <-]. split; [exact Hinv | congruence].
  - destruct (Grid.events g) as [| e rest] eqn:He.
    + intros [= <- <-]. split; [exact Hinv |].
      intros _ [H | (e & rest & [=] & _)]. exact H.
    + fold (at_time (Grid.current_time g) e).
      destruct (at_time (Grid.current_time g) e) eqn:Hat.
      * destruct (pop_event_inv g e rest Hinv He Hat) as [Hinv1 Hlast1].
        destruct (Grid.run_cmds _ _) as [o1 g2] eqn:E.
        pose proof (run_cmds_inv _ _ _ _ Hinv1 (callbacks_wf _ _) E) as Hinv2.
        pose proof (at_last_frame _ _ (run_cmds_frame _ _ _ _ E) Hlast1)
          as Hlast2.
        destruct o1.
        -- intros H. apply IH in H as [H1 H2]; [| exact Hinv2].
           split; [exact H1 |]. intros Ho _. apply H2; [exact Ho | now left].
        -- intros [= <- <-]. split; [exact Hinv2 | intros _ _; exact Hlast2].
        -- intros [= <- <-]. split; [exact Hinv2 | intros _ _; exact Hlast2].
      * intros [= <- <-]. split; [exact Hinv |].
        intros _ [H | (e' & rest' & [= <- <-] & Hat')]; [exact H |].
        congruence.
Qed.

Lemma finish_inv (fuel : nat) (g g' : Grid.t) (o : Outcome) :
  grid_inv g ->
  Grid.finish callbacks fuel g = (o, g') ->
  grid_inv g' /\ (o <> OutOfFuel -> at_last g -> at_last g').
Proof.
  intros Hinv. unfold Grid.finish.
  destruct (Grid.is_running g); cbn [negb];
    [| intros [= <- <-]; split; [exact Hinv | auto]].
  intros H. apply dispatch_events_inv in H as [H1 H2].
  - split; [exact H1 |]. intros Ho _. apply H2; [exact Ho |].
    right. eexists _, _. split; [reflexivity |].
    apply Qeq_bool_refl.
  - apply (grid_inv_fields g); try reflexivity; try exact Hinv; cbn.
    + repeat constructor.
    + constructor; [apply event_ok_now | constructor].
    + apply map_Forall_empty.
    + apply map_Forall_empty.
Qed.

Lemma set_time_inv (g : Grid.t) (e : Event) (rest : list Event) :
  grid_inv g ->
  Grid.events g = e :: rest ->
  grid_inv (Grid.set_current_time_ (timestamp e) g) /\
  at_time (Qfloor (timestamp e)) e = true /\
  (Grid.current_time g <= Qfloor (timestamp e))%Z.
Proof.
  intros Hinv He.
  destruct Hinv as [Hs Hq Hpast Htr Hj Hp Hpl].
  assert (event_ok (Grid.current_time g) e) as [Hfut Hint]
    by (rewrite He in Hq; now inversion Hq).
  assert (Grid.current_time g <= Qfloor (timestamp e))%Z as Hmono.
  { rewrite <- (Qfloor_Z (Grid.current_time g)). now apply Qfloor_resp_le. }
  split; [| split; [| exact Hmono]].
  - constructor; cbn;
      change (Grid.current_time (Grid.set_current_time_ _ _))
        with (Qfloor (timestamp e)); try assumption.
    + apply List.Forall_forall. intros x Hx.
      rewrite List.Forall_forall in Hq. destruct (Hq x Hx) as [_ Hxi].
      split; [| exact Hxi].
      apply Qle_trans with (timestamp e); [apply Qfloor_le |].
      rewrite He in Hs, Hx. destruct Hx as [<- | Hx]; [apply Qle_refl |].
      inversion Hs as [| ? ? _ Hall]; subst.
      rewrite List.Forall_forall in Hall. now apply Hall.
    + eapply List.Forall_impl; [| exact Hpast]. intros x Hx. cbn in Hx. lia.
  - unfold at_time. apply Qeq_bool_iff. exact Hint.
Qed.

Lemma proceed_simulation_inv (fuel : nat) (g g' : Grid.t) (o : Outcome) :
  grid_inv g ->
  Grid.proceed_simulation callbacks fuel g = (o, g') ->
  grid_inv g' /\ (o <> OutOfFuel -> at_last g -> at_last g').
Proof.
  intros Hinv. unfold Grid.proceed_simulation.
  destruct (Grid.is_running g); cbn [negb];
    [| intros [= <- <-]; split; [exact Hinv | auto]].
  destruct (Grid.events g) as [| e rest] eqn:He.
  - destruct (_ && _); [now apply finish_inv |].
    intros [= <- <-]. split; [exact Hinv | auto].
  - destruct (set_time_inv g e rest Hinv He) as (Hinv0 & Hat & _).
    intros H. apply dispatch_events_inv in H as [H1 H2]; [| exact Hinv0].
    split; [exact H1 |]. intros Ho _. apply H2; [exact Ho |].
    right. exists e, rest. split; [exact He | exact Hat].
Qed.

Lemma start_inv (p : Platform) (w : option (list Grid.Cmd)) (fuel : nat)
    (g' : Grid.t) (o : Outcome) :
  wf_platform p ->
  (forall cs, w = Some cs -> Forall wf_cmd cs) ->
  Grid.start callbacks (Some p) w fuel Grid.init = (o, g') ->
  grid_inv g' /\ (o <> OutOfFuel -> at_last g').
Proof.
  intros Hp Hw. unfold Grid.start. cbn [Grid.is_running Grid.init].
  match goal with
  | |- context [Grid.set_platform (Some p) ?g] =>
      set (g0 := Grid.set_platform (Some p) g)
  end.
  assert (grid_inv g0) as Hinv0.
  { constructor; cbn.
    - constructor.
    - constructor.
    - constructor.
    - constructor.
    - apply map_Forall_empty.
    - apply map_Forall_empty.
    - intros p' [= <-]. exact Hp. }
  assert (at_last g0) as Hlast0 by (intros e; discriminate).
  assert (exists o1 g1,
            match w with
            | Some cs => Grid.run_cmds cs g0
            | None => (Returned, g0)
            end = (o1, g1) /\ grid_inv g1 /\ same_frame g0 g1)
    as (o1 & g1 & -> & Hinv1 & Hfr).
  { destruct w as [cs |].
    - destruct (Grid.run_cmds cs g0) as [o1 g1] eqn:E.
      exists o1, g1. split; [reflexivity |]. split.
      + eapply run_cmds_inv; [exact Hinv0 | now apply Hw | exact E].
      + eapply run_cmds_frame, E.
    - exists Returned, g0. split; [reflexivity |].
      split; [exact Hinv0 | apply same_frame_refl]. }
  pose proof (at_last_frame _ _ Hfr Hlast0) as Hlast1.
  destruct o1; [| intros [= <- <-]; split; [exact Hinv1 | auto] ..].
  intros H. apply dispatch_events_inv in H as [H1 H2].
  - split; [exact H1 |]. intros Ho. apply H2; [exact Ho |]. left.
    intros e. cbn. apply Hlast1.
  - assert (grid_inv (Grid.add_event (SimulationBeginsEvent (Qfloor 0) p) g1))
      as Hadd.
    { apply add_event_inv; [exact Hinv1 |].
      destruct Hfr as (F1 & _). unfold Grid.current_time. rewrite F1.
      apply event_ok_now. }
    apply (grid_inv_fields _ _ Hadd); try reflexivity; apply Hadd.
Qed.

(** Every state of a run satisfies the invariant, and its current time is
    the time of the event dispatched last. *)
Lemma reachable_inv (g : Grid.t) :
  reachable callbacks g -> grid_inv g /\ at_last g.
Proof.
  induction 1 as [p w fuel o g Hp Hw Hstart Ho
                 | c fuel o g g' Hreach [Hinv Hlast] Hc Hrun Ho].
  - destruct (start_inv p w fuel g o Hp Hw Hstart) as [H1 H2]. auto.
  - destruct c; simpl in Hrun.
    + apply proceed_simulation_inv in Hrun as [H1 H2]; auto.
    + apply finish_inv in Hrun as [H1 H2]; auto.
    + split.
      * eapply run_cmd_inv; eassumption.
      * eapply at_last_frame; [eapply run_cmd_frame, Hrun | exact Hlast].
Qed.

(** No call of a run moves the current time backwards. *)
Lemma run_call_monotone (c : Call) (fuel : nat) (g g' : Grid.t) (o : Outcome) :
  grid_inv g ->
  run_call callbacks fuel c g = (o, g') ->
  (Grid.current_time g <= Grid.current_time g')%Z.
Proof.
  intros Hinv. unfold Grid.current_time at 2.
  destruct c; simpl.
  - unfold Grid.proceed_simulation.
    destruct (Grid.is_running g); cbn [negb];
      [| intros [= <- <-]; apply Z.le_refl].
    destruct (Grid.events g) as [| e rest] eqn:He.
    + destruct (_ && _); [| intros [= <- <-]; apply Z.le_refl].
      unfold Grid.finish.
      destruct (Grid.is_running g); cbn [negb];
        [| intros [= <- <-]; apply Z.le_refl].
      intros H. apply dispatch_events_frame in H as (-> & _). apply Z.le_refl.
    + intros H. apply dispatch_events_frame in H as (-> & _).
      now apply (set_time_inv g e rest).
  - unfold Grid.finish.
    destruct (Grid.is_running g); cbn [negb];
      [| intros [= <- <-]; apply Z.le_refl].
    intros H. apply dispatch_events_frame in H as (-> & _). apply Z.le_refl.
  - intros H. apply run_cmd_frame in H as (-> & _). apply Z.le_refl.
Qed.
End Dispatch.

(** ** The step of the simulation *)

Section Step.
Variable callbacks : Grid.t -> Event -> list Grid.Cmd.

(** What the loop of [_dispatch_events] hands to the callbacks carries
    the current time, and when the loop returns no such event is at the
    head of the queue. *)
Lemma dispatch_events_spec (fuel : nat) (g g' : Grid.t) (o : Outcome) :
  Grid._dispatch_events callbacks fuel g = (o, g') ->
  (exists d,
     Grid.notified g' = Grid.notified g ++ d /\
     Forall (fun x => at_time (Grid.current_time g) x = true) d) /\
  (o = Returned ->
   match Grid.events g' with
   | [] => True
   | x :: _ => at_time (Grid.current_time g) x = false
   end).
Proof.
  revert g. induction fuel as [| fuel IH]; intros g; simpl.
  - intros [= <- <-]. split; [| discriminate].
    exists []. now rewrite app_nil_r.
  - destruct (Grid.events g) as [| e rest] eqn:He.
    + intros [= <- <-]. split; [| now rewrite He].
      exists []. now rewrite app_nil_r.
    + fold (at_time (Grid.current_time g) e).
      destruct (at_time (Grid.current_time g) e) eqn:Hat.
      * destruct (Grid.run_cmds _ _) as [o1 g2] eqn:E.
        apply run_cmds_frame in E as (F1 & _ & _ & F4).
        cbn in F1, F4.
        assert (Grid.current_time g2 = Grid.current_time g) as Hc
          by (unfold Grid.current_time; now rewrite F1).
        destruct o1.
        -- intros H. apply IH in H as [(d & Hd & Hall) Hhead].
           rewrite Hc in Hall, Hhead. split; [| exact Hhead].
           exists (e :: d). rewrite Hd, F4, <- app_assoc.
           split; [reflexivity | now constructor].
        -- intros [= <- <-]. split; [| discriminate].
           exists [e]. rewrite F4. split; [reflexivity | now constructor].
        -- intros [= <- <-]. split; [| discriminate].
           exists [e]. rewrite F4. split; [reflexivity | now constructor].
      * intros [= <- <-]. split; [| now rewrite He].
        exists []. now rewrite app_nil_r.
Qed.

(** With callbacks that issue no command the loop ends within the length
    of the queue: it dispatches the events at the head of the queue that
    carry the current time, in order. *)
Lemma dispatch_events_quiet (fuel : nat) (g : Grid.t) :
  (forall g0 e0, callbacks g0 e0 = []) ->
  (length (Grid.events g) < fuel)%nat ->
  Grid._dispatch_events callbacks fuel g =
  (Returned,
   Grid.set_notified
     (Grid.notified g ++ takewhile (at_time (Grid.current_time g)) (Grid.events g))
     (Grid.set_events
        (dropwhile (at_time (Grid.current_time g)) (Grid.events g)) g)).
Proof.
  intros Hq. revert g. induction fuel as [| fuel IH]; intros g Hlen; [lia |].
  simpl. destruct (Grid.events g) as [| e rest] eqn:He; simpl.
  - rewrite app_nil_r. f_equal. destruct g; cbn in *. now subst.
  - fold (at_time (Grid.current_time g) e).
    destruct (at_time (Grid.current_time g) e) eqn:Hat.
    + rewrite Hq. cbn [Grid.run_cmds].
      rewrite IH by (cbn; simpl in Hlen; lia).
      cbn. now rewrite <- app_assoc.
    + rewrite app_nil_r. f_equal. destruct g; cbn in *. now subst.
Qed.
End Step.

(** C3, against the source: a running handler whose queue is empty while
    the feeder has not signalled its end neither finishes nor advances;
    [proceed_simulation] raises [RuntimeError].  This is the state that
    [start] without a workload leaves. *)
Lemma proceed_simulation_nothing_pending :
  Grid.is_running example_started_grid = true /\
  Grid.events example_started_grid = [] /\
  Grid.proceed_simulation quiet 5 example_started_grid =
    (Raised RuntimeError, example_started_grid).
Proof. repeat split. Qed.

(** C3, as the source has it.  [proceed_simulation] on a handler that is
    not running fails its assertion.  On a running handler: with an empty
    queue, no pending job and the feeder done, it is [finish] and the
    handler stops running; with an empty queue otherwise, it raises
    [RuntimeError]; with a pending event it sets the clock to the timestamp
    of the first one, so that the current time is its floor, and hands to
    the callbacks, in queue order, the events at the head of the queue
    whose timestamp equals the current time, until none is left there.
    With callbacks that issue no command these are the events that the
    queue held for that time. *)
Theorem proceed_simulation_cases
    (callbacks : Grid.t -> Event -> list Grid.Cmd) (fuel : nat) (g : Grid.t) :
  (Grid.is_running g = false ->
   Grid.proceed_simulation callbacks fuel g = (Raised AssertionError, g)) /\
  (Grid.is_running g = true -> Grid.events g = [] ->
   Grid.submitter_ended g = true -> Grid.jobs g = ∅ ->
   Grid.proceed_simulation callbacks fuel g = Grid.finish callbacks fuel g /\
   Grid.is_running (snd (Grid.proceed_simulation callbacks fuel g)) = false) /\
  (Grid.is_running g = true -> Grid.events g = [] ->
   Grid.submitter_ended g = false \/ Grid.jobs g <> ∅ ->
   Grid.proceed_simulation callbacks fuel g = (Raised RuntimeError, g)) /\
  (forall e rest,
     Grid.is_running g = true -> Grid.events g = e :: rest ->
     let now := Qfloor (timestamp e) in
     (forall o g',
        Grid.proceed_simulation callbacks fuel g = (o, g') ->
        Grid.current_time g' = now /\
        (exists d,
           Grid.notified g' = Grid.notified g ++ d /\
           Forall (fun x => at_time now x = true) d) /\
        (o = Returned ->
         match Grid.events g' with
         | [] => True
         | x :: _ => at_time now x = false
         end)) /\
     ((forall g0 e0, callbacks g0 e0 = []) ->
      (length (Grid.events g) < fuel)%nat ->
      Grid.proceed_simulation callbacks fuel g =
      (Returned,
       Grid.set_notified
         (Grid.notified g ++ takewhile (at_time now) (Grid.events g))
         (Grid.set_events (dropwhile (at_time now) (Grid.events g))
            (Grid.set_current_time_ (timestamp e) g))))).
Proof.
  split; [| split; [| split]].
  - intros Hr. unfold Grid.proceed_simulation. now rewrite Hr.
  - intros Hr He Hs Hj.
    assert (Grid.proceed_simulation callbacks fuel g =
            Grid.finish callbacks fuel g) as Heq.
    { unfold Grid.proceed_simulation. rewrite Hr, He, Hs, Hj. cbn [negb andb].
      now rewrite bool_decide_eq_true_2. }
    split; [exact Heq |]. rewrite Heq. apply grid_finish_not_running.
  - intros Hr He Hor. unfold Grid.proceed_simulation.
    rewrite Hr, He. cbn [negb].
    destruct Hor as [-> | Hj]; [reflexivity |].
    rewrite bool_decide_eq_false_2 by exact Hj. now rewrite andb_false_r.
  - intros e rest Hr He now.
    assert (Grid.proceed_simulation callbacks fuel g =
            Grid._dispatch_events callbacks fuel
              (Grid.set_current_time_ (timestamp e) g)) as Heq.
    { unfold Grid.proceed_simulation. now rewrite Hr, He. }
    rewrite Heq. split.
    + intros o g' H.
      pose proof (dispatch_events_frame _ _ _ _ _ H) as (Ht & _).
      apply dispatch_events_spec in H as [Hd Hhead].
      split; [unfold Grid.current_time; now rewrite Ht |].
      split; [exact Hd | exact Hhead].
    + intros Hq Hlen. now rewrite dispatch_events_quiet.
Qed.

Lemma proceed_simulation_cases_witness :
  Grid.proceed_simulation quiet 5 example_started_grid =
    (Raised RuntimeError, example_started_grid) /\
  Grid.proceed_simulation quiet 5 Grid.init = (Raised AssertionError, Grid.init).
Proof.
  split.
  - refine (proj1 (proj2 (proj2 (proceed_simulation_cases quiet 5
                                   example_started_grid))) _ _ _).
    + reflexivity.
    + reflexivity.
    + now left.
  - refine (proj1 (proceed_simulation_cases quiet 5 Grid.init) _).
    reflexivity.
Defined.

(** A step on a queue with two events for time 7 and one for time 12: the
    clock goes to 7 and the first two are dispatched. *)
Example proceed_simulation_example :
  let g := snd (Grid.set_resources_pstate [1%Z] 1
                  (snd (Grid.call_me_later 7 example_pstate_grid))) in
  map timestamp (Grid.events g) = [7; 7; 12] /\
  let g' := snd (Grid.proceed_simulation quiet 5 g) in
  map type (Grid.notified g') = [REQUESTED_CALL; RESOURCE_POWER_STATE_CHANGED] /\
  map timestamp (Grid.events g') = [12] /\
  Grid.current_time g' = 7%Z.
Proof. repeat split. Qed.

(** ** Runs *)

Lemma example_platform_wf : wf_platform example_platform.
Proof.
  repeat constructor; cbn; discriminate.
Qed.

(** C8. In every run of the self-contained backend on well-formed inputs
    (walltimes that are non-negative integers, non-negative work, resource
    counts and speeds), whatever the callbacks do: the queue is sorted by
    timestamp; no call moves the current time backwards; the current time
    is the floor of the timestamp of the event dispatched last; and the
    floored timestamps of the dispatched events never decrease. *)
Theorem grid_run_invariant (callbacks : Grid.t -> Event -> list Grid.Cmd)
    (g : Grid.t) :
  (forall g0 e, Forall wf_cmd (callbacks g0 e)) ->
  reachable callbacks g ->
  Sorted by_timestamp (Grid.events g) /\
  (forall c fuel o g',
     run_call callbacks fuel c g = (o, g') ->
     (Grid.current_time g <= Grid.current_time g')%Z) /\
  (forall e, last (Grid.notified g) = Some e ->
             Grid.current_time g = Qfloor (timestamp e)) /\
  StronglySorted by_floor (Grid.notified g).
Proof.
  intros Hcb Hreach.
  destruct (reachable_inv callbacks Hcb g Hreach) as [Hinv Hlast].
  split; [| split; [| split]].
  - apply StronglySorted_Sorted, Hinv.
  - intros c fuel o g' Hrun. eapply run_call_monotone; eassumption.
  - exact Hlast.
  - apply Hinv.
Qed.

Lemma example_midrun_reachable : reachable quiet example_midrun_grid.
Proof.
  apply (reach_call quiet Proceed 5 Returned
           (snd (Grid.execute_job "j1" [0%Z] (example_fed_grid 1000)))).
  - apply (reach_call quiet (Command (Grid.ExecuteJob "j1" [0%Z])) 5 Returned
             (example_fed_grid 1000)).
    + apply (reach_start quiet example_platform
               (Some [ Grid.RegisterProfile "w" "p" example_profile;
                       Grid.RegisterJob "j1" "p" 1 1000 "user" ])
               5 Returned).
      * exact example_platform_wf.
      * intros cs [= <-]. repeat constructor; cbn; discriminate.
      * vm_compute. reflexivity.
      * discriminate.
    + exact I.
    + vm_compute. reflexivity.
    + discriminate.
  - exact I.
  - vm_compute. reflexivity.
  - discriminate.
Qed.

Lemma grid_run_invariant_witness :
  Sorted by_timestamp (Grid.events example_midrun_grid) /\
  (forall c fuel o g',
     run_call quiet fuel c example_midrun_grid = (o, g') ->
     (Grid.current_time example_midrun_grid <= Grid.current_time g')%Z) /\
  (forall e, last (Grid.notified example_midrun_grid) = Some e ->
             Grid.current_time example_midrun_grid = Qfloor (timestamp e)) /\
  StronglySorted by_floor (Grid.notified example_midrun_grid).
Proof.
  apply (grid_run_invariant quiet example_midrun_grid).
  - intros g0 e. constructor.
  - exact example_midrun_reachable.
Defined.

(** The run of the witness: the job has been submitted and started, and
    its completion waits in the queue. *)
Example example_midrun_state :
  map type (Grid.notified example_midrun_grid) =
    [JOB_SUBMITTED; SIMULATION_BEGINS; JOB_STARTED] /\
  map (fun e => (type e, timestamp e)) (Grid.events example_midrun_grid) =
    [(JOB_COMPLETED, 50)].
Proof. split; vm_compute; reflexivity. Qed.

(** C8, against the source: the invariant needs the walltimes to be whole
    numbers that are not negative, which [register_job] does not check.
    With the walltime [-1] the completion is queued for the time before
    the current one, ahead of the start of the job: the next step moves
    the clock back from 0 to -1 and dispatches the completion after events
    of time 0, before the start.  With the walltime [5/2] the completion
    is queued for the time [5/2]: the step that reaches it sets the clock
    to 2, dispatches nothing, and so does every step after it; the current
    time is then not the time of the event dispatched last. *)
Lemma grid_run_walltime_unchecked :
  (let g1 := snd (Grid.execute_job "j1" [0%Z] (example_fed_grid (-1))) in
   let g2 := snd (Grid.proceed_simulation quiet 5 g1) in
   fst (Grid.execute_job "j1" [0%Z] (example_fed_grid (-1))) = Returned /\
   fst (Grid.proceed_simulation quiet 5 g1) = Returned /\
   Grid.current_time g1 = 0%Z /\
   Grid.current_time g2 = (-1)%Z /\
   map (fun e => (type e, Qfloor (timestamp e))) (Grid.notified g2) =
     [ (JOB_SUBMITTED, 0%Z); (SIMULATION_BEGINS, 0%Z);
       (JOB_COMPLETED, (-1)%Z) ]) /\
  (let g1 := snd (Grid.execute_job "j1" [0%Z] (example_fed_grid (5 # 2))) in
   let g2 := snd (Grid.proceed_simulation quiet 5 g1) in
   let g3 := snd (Grid.proceed_simulation quiet 5 g2) in
   fst (Grid.proceed_simulation quiet 5 g2) = Returned /\
   Grid.proceed_simulation quiet 5 g3 = (Returned, g3) /\
   Grid.current_time g3 = 2%Z /\
   map (fun e => (type e, timestamp e)) (Grid.events g3) =
     [(JOB_COMPLETED, 5 # 2)] /\
   option_map (fun e => (type e, Qfloor (timestamp e)))
     (last (Grid.notified g3)) = Some (JOB_STARTED, 0%Z)).
Proof.
  cbv zeta.
  repeat match goal with |- _ /\ _ => split end; vm_compute; reflexivity.
Qed.

(** The trace of the example run. *)
Example grid_run_example :
  map (fun e => (type e, Qfloor (timestamp e))) (Grid.notified example_run) =
  [ (JOB_SUBMITTED, 0%Z); (SIMULATION_BEGINS, 0%Z); (JOB_STARTED, 0%Z);
    (JOB_COMPLETED, 50%Z); (NOTIFY, 50%Z); (SIMULATION_ENDS, 50%Z) ] /\
  Grid.is_running example_run = false /\
  Grid.current_time example_run = 50%Z.
Proof.
  repeat match goal with |- _ /\ _ => split end; vm_compute; reflexivity.
Qed.

(** * Further properties of the self-contained backend *)

(** ** [execute_job]: failures *)

Lemma float_div_exception (x y : Float) (ex : Exception) :
  float_div x y = inl ex -> ex = ZeroDivisionError.
Proof.
  unfold float_div. destruct (float_is_zero y); [| discriminate].
  now intros [= <-].
Qed.

Lemma float_of_int_exception (z : Z) (ex : Exception) :
  float_of_int z = inl ex -> ex = OverflowError.
Proof.
  unfold float_of_int. destruct (round_float _); try discriminate.
  now intros [= <-].
Qed.

(** The exceptions of the division of the work by the speed. *)
Lemma work_quotient_exception (prof : WorkloadProfile) (job : Job)
    (min_speed : Q) (ex : Exception) :
  work_quotient prof job min_speed = inl ex -> execute_job_exception ex = true.
Proof.
  unfold work_quotient. destruct (wp_type prof).
  - intros H. now rewrite (float_div_exception _ _ _ H).
  - destruct (float_of_int _) as [e1 | res] eqn:E1; cbn [bind].
    + intros [= <-]. now rewrite (float_of_int_exception _ _ E1).
    + destruct (float_div _ res) as [e2 | cpu] eqn:E2; cbn [bind].
      * intros [= <-]. now rewrite (float_div_exception _ _ _ E2).
      * intros H. now rewrite (float_div_exception _ _ _ H).
  - now intros [= <-].
Qed.

(** The outcome of [execute_job] and what every branch does to the pending
    set and the queue. *)
Lemma execute_job_branches (id : string) (alloc : list Z) (g g' : Grid.t)
    (o : Outcome) :
  Grid.execute_job id alloc g = (o, g') ->
  match ProcSet_new alloc with
  | None => o = Raised ValueError /\ g' = g
  | Some _ =>
      Grid.jobs g' = delete id (Grid.jobs g) /\
      Grid.profiles g' = Grid.profiles g /\
      match o with
      | Returned => True
      | Raised e =>
          execute_job_exception e = true /\ Grid.events g' = Grid.events g
      | OutOfFuel => False
      end
  end.
Proof.
  unfold Grid.execute_job.
  destruct (ProcSet_new alloc) as [allocation |];
    [| intros [= <- <-]; auto].
  destruct (Grid.jobs g !! id) as [job |] eqn:Hjob.
  2:{ intros [= <- <-]. rewrite delete_id by exact Hjob. auto. }
  cbn [Grid.platform Grid.profiles Grid.set_jobs].
  destruct (Grid.platform g); [| intros [= <- <-]; cbn; auto].
  destruct (get_resources _ _); [| intros [= <- <-]; cbn; auto].
  destruct (py_min_list _) as [min_speed |]; [| intros [= <- <-]; cbn; auto].
  destruct (Grid.profiles g !! _) as [prof |]; [| intros [= <- <-]; cbn; auto].
  rewrite runtime_work_quotient.
  destruct (work_quotient prof job min_speed) as [ex | x] eqn:Hq.
  - intros [= <- <-]. cbn. repeat split.
    exact (work_quotient_exception _ _ _ _ Hq).
  - cbn [bind]. destruct x as [q | sg |]; cbn [py_int];
      intros [= <- <-]; cbn; auto.
Qed.

(** X1. [execute_job] checks the allocation before it looks the job up: a
    negative resource id is refused with [ValueError] and nothing changes,
    the job stays pending.  Past that check, the call takes the job out of
    the pending set whether it returns or raises: a call that fails after
    the lookup of the job (no platform, unknown resource, empty
    allocation, unknown or unsupported profile, zero speed, a quotient
    beyond the floats) queues no event and still loses the job. *)
Theorem execute_job_consumes_job (id : string) (alloc : list Z)
    (g g' : Grid.t) (o : Outcome) :
  Grid.execute_job id alloc g = (o, g') ->
  (Exists (fun i => (i < 0)%Z) alloc -> o = Raised ValueError /\ g' = g) /\
  (Forall (fun i => (0 <= i)%Z) alloc ->
   Grid.jobs g' !! id = None /\
   (forall j, j <> id -> Grid.jobs g' !! j = Grid.jobs g !! j) /\
   (o <> Returned ->
    Grid.events g' = Grid.events g /\ Grid.notified g' = Grid.notified g /\
    exists e, o = Raised e /\ execute_job_exception e = true)).
Proof.
  intros H. pose proof (execute_job_frame _ _ _ _ _ H) as (_ & _ & _ & Hn).
  apply execute_job_branches in H. split.
  - intros Hneg. now rewrite (ProcSet_new_invalid _ Hneg) in H.
  - intros Hok. rewrite (ProcSet_new_valid _ Hok) in H.
    destruct H as (Hj & _ & Ho).
    rewrite Hj. split; [apply lookup_delete_eq |].
    split; [intros j Hne; now apply lookup_delete_ne |].
    intros Hne. destruct o as [| e |]; [congruence | | destruct Ho].
    destruct Ho as [He Hev]. split; [exact Hev |]. split; [exact Hn |].
    now exists e.
Qed.

Lemma execute_job_consumes_job_witness :
  (Grid.execute_job "j1" [(-1)%Z] example_delay_grid
     = (Raised ValueError, example_delay_grid)) /\
  Grid.jobs (snd (Grid.execute_job "j1" [0%Z] example_delay_grid))
    !! "j1"%string = None /\
  Grid.events (snd (Grid.execute_job "j1" [0%Z] example_delay_grid)) =
    Grid.events example_delay_grid.
Proof.
  split.
  - destruct (Grid.execute_job "j1" [(-1)%Z] example_delay_grid)
      as [o g'] eqn:E.
    destruct (proj1 (execute_job_consumes_job _ _ _ _ _ E)) as [-> ->];
      [| reflexivity].
    constructor. reflexivity.
  - destruct (execute_job_consumes_job "j1" [0%Z] example_delay_grid
                (snd (Grid.execute_job "j1" [0%Z] example_delay_grid))
                (Raised NotImplementedError) eq_refl) as (_ & H).
    destruct H as (H1 & _ & H3); [repeat constructor; discriminate |].
    split; [exact H1 |]. apply H3. discriminate.
Defined.

(** X2. A profile of another kind than the two parallel ones is refused
    with [NotImplementedError], after the job has left the pending set;
    nothing is queued.  The allocation names resources of the platform,
    none by a negative id. *)
Theorem execute_job_unsupported_profile (g : Grid.t) (id : string)
    (alloc : list Z) (job : Job) (prof : WorkloadProfile) (p : Platform)
    (rs : list Resource) :
  Forall (fun i => (0 <= i)%Z) alloc ->
  Grid.jobs g !! id = Some job ->
  Grid.profiles g !! job_profile job = Some prof ->
  wp_type prof = delay ->
  Grid.platform g = Some p ->
  get_resources p alloc = Some rs ->
  rs <> [] ->
  Grid.execute_job id alloc g =
    (Raised NotImplementedError, Grid.set_jobs (delete id (Grid.jobs g)) g).
Proof.
  intros Hids Hjob Hprof Hkind Hp Hrs Hne. unfold Grid.execute_job.
  rewrite (ProcSet_new_valid _ Hids), Hjob.
  cbn [Grid.platform Grid.profiles Grid.set_jobs].
  rewrite Hp, Hrs, Hprof, Hkind.
  destruct rs as [| r rs]; [congruence | reflexivity].
Qed.

Lemma execute_job_unsupported_profile_witness :
  Grid.execute_job "j1" [0%Z] example_delay_grid =
    (Raised NotImplementedError,
     Grid.set_jobs (delete "j1"%string (Grid.jobs example_delay_grid))
       example_delay_grid).
Proof.
  refine (execute_job_unsupported_profile example_delay_grid "j1" [0%Z]
            (example_job 1000) {| wp_type := delay; wp_cpu := 100 |}
            example_platform
            [ {| r_id := 0; r_parent_id := 0; r_speed := 2 |} ]
            _ eq_refl eq_refl eq_refl eq_refl eq_refl _).
  - repeat constructor. discriminate.
  - discriminate.
Defined.

(** X3. An empty allocation has no slowest resource: [execute_job] of a
    pending job on no resource raises [ValueError], whatever the profile,
    and the job has left the pending set. *)
Theorem execute_job_empty_allocation (g : Grid.t) (id : string) (job : Job)
    (p : Platform) :
  Grid.jobs g !! id = Some job ->
  Grid.platform g = Some p ->
  Grid.execute_job id [] g =
    (Raised ValueError, Grid.set_jobs (delete id (Grid.jobs g)) g).
Proof.
  intros Hjob Hp. unfold Grid.execute_job.
  rewrite Hjob. cbn [Grid.platform Grid.profiles Grid.set_jobs].
  now rewrite Hp.
Qed.

Lemma execute_job_empty_allocation_witness :
  Grid.execute_job "j1" [] (example_grid 1000) =
    (Raised ValueError,
     Grid.set_jobs (delete "j1"%string (Grid.jobs (example_grid 1000)))
       (example_grid 1000)).
Proof.
  exact (execute_job_empty_allocation (example_grid 1000) "j1"
           (example_job 1000) example_platform eq_refl eq_refl).
Defined.

(** X4. Once [execute_job], with an allocation that names no negative
    id, or [reject_job] has been called for an id, neither can be called
    for it again until the id is registered anew: the second call changes
    nothing and raises [KeyError], but for an [execute_job] whose
    allocation names a negative id, which raises [ValueError] before the
    job is looked up. *)
Theorem pending_job_used_once (g : Grid.t) (id : string)
    (alloc alloc' : list Z) :
  Forall (fun i => (0 <= i)%Z) alloc ->
  let g1 := snd (Grid.execute_job id alloc g) in
  let g2 := snd (Grid.reject_job id g) in
  let refused :=
    Raised (if existsb (fun i => Z.ltb i 0) alloc'
            then ValueError else KeyError) in
  Grid.execute_job id alloc' g1 = (refused, g1) /\
  Grid.reject_job id g1 = (Raised KeyError, g1) /\
  Grid.execute_job id alloc' g2 = (refused, g2) /\
  Grid.reject_job id g2 = (Raised KeyError, g2).
Proof.
  intros Hok g1 g2 refused.
  assert (Grid.jobs g1 !! id = None) as H1.
  { subst g1. destruct (Grid.execute_job id alloc g) as [o g'] eqn:E.
    apply execute_job_branches in E.
    rewrite (ProcSet_new_valid _ Hok) in E. destruct E as (E & _).
    cbn [snd]. rewrite E. apply lookup_delete_eq. }
  assert (Grid.jobs g2 !! id = None) as H2.
  { subst g2. unfold Grid.reject_job.
    destruct (Grid.jobs g !! id) eqn:E; cbn; [apply lookup_delete_eq | exact E]. }
  subst refused. unfold Grid.execute_job, Grid.reject_job, ProcSet_new.
  rewrite H1, H2. destruct (existsb _ alloc'); auto.
Qed.

Lemma pending_job_used_once_witness :
  let g1 := snd (Grid.execute_job "j1" [0%Z] (example_grid 1000)) in
  let g2 := snd (Grid.reject_job "j1" (example_grid 1000)) in
  let refused :=
    Raised (if existsb (fun i => Z.ltb i 0) [1%Z]
            then ValueError else KeyError) in
  Grid.execute_job "j1" [1%Z] g1 = (refused, g1) /\
  Grid.reject_job "j1" g1 = (Raised KeyError, g1) /\
  Grid.execute_job "j1" [1%Z] g2 = (refused, g2) /\
  Grid.reject_job "j1" g2 = (Raised KeyError, g2).
Proof.
  apply (pending_job_used_once (example_grid 1000) "j1" [0%Z] [1%Z]).
  repeat constructor. discriminate.
Defined.

(** ** [execute_job]: the order of the two events *)

(** Two successive insertions in key order keep their order, whatever the
    list holds. *)
Lemma SortedList_add_twice {A : Type} (key : A -> Q) (x y : A) (l : list A) :
  key x <= key y ->
  exists l1 l2 l3,
    l = l1 ++ l2 ++ l3 /\
    SortedList_add key y (SortedList_add key x l) = l1 ++ x :: l2 ++ y :: l3.
Proof.
  intros Hxy. induction l as [| z l IH].
  - exists [], [], []. split; [reflexivity |]. simpl.
    apply Qle_bool_iff in Hxy. now rewrite Hxy.
  - destruct (SortedList_add_split key y (z :: l)) as (m2 & m3 & H1 & H2 & _).
    cbn [SortedList_add]. destruct (Qle_bool (key z) (key x)) eqn:E.
    + cbn [SortedList_add].
      assert (Qle_bool (key z) (key y) = true) as ->.
      { apply Qle_bool_iff. apply Qle_bool_iff in E.
        eapply Qle_trans; eassumption. }
      destruct IH as (l1 & l2 & l3 & -> & ->).
      now exists (z :: l1), l2, l3.
    + change (SortedList_add key y (x :: z :: l))
        with (if Qle_bool (key x) (key y)
              then x :: SortedList_add key y (z :: l) else y :: x :: z :: l).
      apply Qle_bool_iff in Hxy. rewrite Hxy, H2.
      exists [], m2, m3. split; [exact H1 | reflexivity].
Qed.

(** What a call of [execute_job] that returns has done, in a state that
    satisfies the invariant of a run. *)
Lemma execute_job_returned (id : string) (alloc : list Z) (g g' : Grid.t) :
  grid_inv g ->
  Grid.execute_job id alloc g = (Returned, g') ->
  exists (job : Job) (runtime : Z),
    Grid.jobs g !! id = Some job /\
    (0 <= runtime)%Z /\
    g' =
      Grid.add_event
        (JobCompletedEvent
           (inject_Z (Grid.current_time g)
            + py_min (inject_Z runtime) (job_walltime job)) id
           (if Qltb (inject_Z runtime) (job_walltime job)
            then COMPLETED_SUCCESSFULLY else COMPLETED_WALLTIME_REACHED)
           "0" (ProcSet alloc))
        (Grid.add_event
           (JobStartedEvent (Grid.current_time g) id (ProcSet alloc))
           (Grid.set_jobs (delete id (Grid.jobs g)) g)).
Proof.
  intros Hinv. unfold Grid.execute_job.
  destruct (ProcSet_new_cases alloc) as [-> | ->]; [| discriminate].
  destruct (Grid.jobs g !! id) as [job |] eqn:Hjob; [| discriminate].
  cbn [Grid.platform Grid.profiles Grid.set_jobs].
  destruct (Grid.platform g) as [p |] eqn:Hp; [| discriminate].
  destruct (get_resources p alloc) as [rs |] eqn:Hrs; [| discriminate].
  destruct (py_min_list _) as [min_speed |] eqn:Hmin; [| discriminate].
  destruct (Grid.profiles g !! _) as [prof |] eqn:Hprof; [| discriminate].
  assert (wf_job job) as (Hw & Hwi & Hres)
    by (exact (map_Forall_lookup_1 _ _ _ _ (inv_jobs g Hinv) Hjob)).
  assert (0 <= wp_cpu prof) as Hcpu
    by (exact (map_Forall_lookup_1 _ _ _ _ (inv_profiles g Hinv) Hprof)).
  assert (0 <= min_speed) as Hspeed.
  { apply py_min_list_spec in Hmin as [Hin _].
    apply in_map_iff in Hin as (r & <- & Hr).
    apply (wf_platform_speed p); [now apply (inv_platform g Hinv) |].
    eapply get_resources_In; eassumption. }
  rewrite runtime_work_quotient.
  destruct (work_quotient prof job min_speed) as [ex | x] eqn:Hq;
    [discriminate |].
  cbn [bind]. destruct (py_int x) as [ex | runtime] eqn:Hint; [discriminate |].
  intros [= <-]. exists job, runtime. split; [reflexivity |].
  split; [| reflexivity].
  pose proof (work_quotient_nonneg _ _ _ _ Hcpu Hspeed Hres Hq) as Hnn.
  destruct (py_int_nonneg x runtime Hnn Hint) as (_ & _ & _ & _ & H). exact H.
Qed.

Lemma example_loaded_reachable : reachable quiet example_loaded_grid.
Proof.
  apply (reach_start quiet example_platform
           (Some [ Grid.RegisterProfile "w" "p" example_profile;
                   Grid.RegisterJob "j1" "p" 1 1000 "user" ])
           5 Returned).
  - exact example_platform_wf.
  - intros cs [= <-]. repeat constructor; cbn; discriminate.
  - vm_compute. reflexivity.
  - discriminate.
Qed.

Lemma quiet_wf (g : Grid.t) (e : Event) : Forall wf_cmd (quiet g e).
Proof. constructor. Qed.

(** X5. In a run on well-formed inputs, an [execute_job] that returns
    adds two events to the queue and leaves the others in their order: the
    [JobStarted] event at the current time and, somewhere after it, the
    [JobCompleted] event of the job, which is not timed before it.  A job
    is never completed before it is started, also when it needs no time. *)
Theorem execute_job_start_before_completion
    (callbacks : Grid.t -> Event -> list Grid.Cmd) (g g' : Grid.t)
    (id : string) (alloc : list Z) :
  (forall g0 e, Forall wf_cmd (callbacks g0 e)) ->
  reachable callbacks g ->
  Grid.execute_job id alloc g = (Returned, g') ->
  exists l1 l2 l3 t st,
    Grid.events g = l1 ++ l2 ++ l3 /\
    Grid.events g' =
      l1 ++ JobStartedEvent (Grid.current_time g) id (ProcSet alloc)
         :: l2 ++ JobCompletedEvent t id st "0" (ProcSet alloc) :: l3 /\
    inject_Z (Grid.current_time g) <= t.
Proof.
  intros Hcb Hreach Hexec.
  destruct (reachable_inv callbacks Hcb g Hreach) as [Hinv _].
  destruct (execute_job_returned id alloc g g' Hinv Hexec)
    as (job & runtime & Hjob & Hrt & ->).
  assert (wf_job job) as (Hw & _ & _)
    by (exact (map_Forall_lookup_1 _ _ _ _ (inv_jobs g Hinv) Hjob)).
  assert (inject_Z (Grid.current_time g) <=
          inject_Z (Grid.current_time g)
          + py_min (inject_Z runtime) (job_walltime job)) as Hle.
  { apply Qle_trans with (inject_Z (Grid.current_time g) + 0);
      [rewrite Qplus_0_r; apply Qle_refl |].
    apply Qplus_le_compat; [apply Qle_refl |].
    apply py_min_nonneg; [now apply inject_Z_nonneg | exact Hw]. }
  cbn [Grid.events Grid.add_event Grid.set_events Grid.set_jobs].
  match goal with
  | |- context [SortedList_add timestamp ?y (SortedList_add timestamp ?x ?l)] =>
      destruct (SortedList_add_twice timestamp x y l Hle)
        as (l1 & l2 & l3 & H1 & H2)
  end.
  exists l1, l2, l3. eexists _, _.
  split; [exact H1 |]. split; [exact H2 | exact Hle].
Qed.

Lemma execute_job_start_before_completion_witness :
  exists l1 l2 l3 t st,
    Grid.events example_loaded_grid = l1 ++ l2 ++ l3 /\
    Grid.events (snd (Grid.execute_job "j1" [0%Z] example_loaded_grid)) =
      l1 ++ JobStartedEvent (Grid.current_time example_loaded_grid) "j1"
              (ProcSet [0%Z])
         :: l2 ++ JobCompletedEvent t "j1" st "0" (ProcSet [0%Z]) :: l3 /\
    inject_Z (Grid.current_time example_loaded_grid) <= t.
Proof.
  apply (execute_job_start_before_completion quiet example_loaded_grid).
  - exact quiet_wf.
  - exact example_loaded_reachable.
  - vm_compute. reflexivity.
Defined.

(** ** [register_job] *)

(** X6. [register_job] makes the job pending under its id, replacing a
    pending job of that id, leaves the other pending jobs alone and queues
    one [JobSubmitted] event at the current time.  A [reject_job] that
    follows returns and keeps that event in the queue; when the id was not
    pending before, the pending set is as it was before the
    registration. *)
Theorem register_job_effect (g : Grid.t) (id profile : string) (res : Z)
    (walltime : Q) (user : string) :
  let g1 := snd (Grid.register_job id profile res walltime user g) in
  let g2 := snd (Grid.reject_job id g1) in
  fst (Grid.register_job id profile res walltime user g) = Returned /\
  Grid.jobs g1 !! id = Some (make_job id profile res walltime user) /\
  (forall j, j <> id -> Grid.jobs g1 !! j = Grid.jobs g !! j) /\
  Grid.events g1 =
    SortedList_add timestamp
      (JobSubmittedEvent (Grid.current_time g) id profile res walltime user)
      (Grid.events g) /\
  fst (Grid.reject_job id g1) = Returned /\
  Grid.events g2 = Grid.events g1 /\
  (Grid.jobs g !! id = None -> Grid.jobs g2 = Grid.jobs g).
Proof.
  intros g1 g2. subst g1 g2. unfold Grid.register_job, Grid.reject_job.
  cbn [fst snd Grid.jobs Grid.events Grid.add_event Grid.set_jobs
       Grid.set_events].
  rewrite lookup_insert_eq. cbn [fst snd Grid.jobs Grid.events Grid.set_jobs].
  repeat split.
  - intros j Hne. now apply lookup_insert_ne.
  - intros Hnone. rewrite delete_insert_eq. now apply delete_id.
Qed.

Lemma register_job_effect_witness :
  Grid.jobs
    (snd (Grid.reject_job "j2"
            (snd (Grid.register_job "j2" "p" 1 10 "user" (example_grid 1000)))))
  = Grid.jobs (example_grid 1000).
Proof.
  refine (proj2 (proj2 (proj2 (proj2 (proj2 (proj2
            (register_job_effect (example_grid 1000) "j2" "p" 1 10 "user"))))))
            _).
  vm_compute. reflexivity.
Defined.

(** ** [kill_job] *)

Lemma existsb_filter_negb {A : Type} (f : A -> bool) (l : list A) :
  existsb f (List.filter (fun x => negb (f x)) l) = false.
Proof.
  induction l as [| x l IH]; simpl; [reflexivity |].
  destruct (f x) eqn:E; simpl; [exact IH | now rewrite E].
Qed.

(** X7. [kill_job] changes nothing but the queue, whatever its outcome:
    it does not look at the pending set.  A job that is registered and not
    yet executed has no completion event: killing it raises
    [StopIteration], changes nothing, and the job stays pending. *)
Theorem kill_job_only_queue (g : Grid.t) (ids : list string) :
  (forall o g', Grid.kill_job ids g = (o, g') ->
                g' = Grid.set_events (Grid.events g') g) /\
  (forall i job,
     Grid.jobs g !! i = Some job ->
     existsb (Grid.is_completion_of i) (Grid.events g) = false ->
     Grid.kill_job [i] g = (Raised StopIteration, g)).
Proof.
  split.
  - intros o g'. unfold Grid.kill_job.
    destruct (Grid.kill_loop ids g) as [o1 g1] eqn:E.
    apply kill_loop_shrinks in E as (Hg & _ & _).
    destruct o1; intros [= <- <-]; try exact Hg.
    rewrite Hg at 2. reflexivity.
  - intros i job _ Hnone. unfold Grid.kill_job. simpl.
    apply next_index_none in Hnone. now rewrite Hnone.
Qed.

Lemma kill_job_only_queue_witness :
  Grid.kill_job ["j1"%string] (example_grid 1000) =
  (Raised StopIteration, example_grid 1000).
Proof.
  refine (proj2 (kill_job_only_queue (example_grid 1000) ["j1"%string])
            "j1"%string (example_job 1000) _ _).
  - vm_compute. reflexivity.
  - reflexivity.
Defined.

(** X8. An id that is listed twice is looked up twice: when it has one
    pending completion event, [kill_job] removes that event, then raises
    [StopIteration], and no [JobKilled] event is queued. *)
Theorem kill_job_duplicate_id (g : Grid.t) (i : string) :
  length (List.filter (Grid.is_completion_of i) (Grid.events g)) = 1%nat ->
  Grid.kill_job [i; i] g =
    (Raised StopIteration,
     Grid.set_events (without_completions [i] (Grid.events g)) g).
Proof.
  intros Hone. unfold Grid.kill_job. cbn [Grid.kill_loop].
  destruct (pop_next_index_unique _ _ Hone) as (p & -> & ->).
  cbn [Grid.events Grid.set_events].
  assert (next_index (Grid.is_completion_of i)
            (List.filter (fun e => negb (Grid.is_completion_of i e))
               (Grid.events g)) = None) as ->
    by (apply next_index_none, existsb_filter_negb).
  rewrite <- without_completions_cons, without_completions_nil.
  reflexivity.
Qed.

Lemma kill_job_duplicate_id_witness :
  Grid.kill_job ["a"; "a"]%string example_kill_grid =
    (Raised StopIteration,
     Grid.set_events
       (without_completions ["a"%string] (Grid.events example_kill_grid))
       example_kill_grid).
Proof.
  apply (kill_job_duplicate_id example_kill_grid "a"%string).
  reflexivity.
Defined.

(** ** [set_resources_pstate] *)

(** X9. A request for a computation state on resources of one node that is
    off returns and changes the queue only.  The queue receives, each put
    in by timestamp, one event moving all the resources of the node to the
    switching-on state at the current time, and then one event moving them
    to the computation state at [current_time + int(1 / speed)] of the
    switching-on state, the quotient being that of the floats, finite
    here. *)
Theorem set_resources_pstate_wakes_node (g : Grid.t) (resources : list Z)
    (pstate : Z) (p : Platform) (n : Node) (rs : list Resource)
    (next_ps on : PowerState) (quotient : Q) :
  Grid.platform g = Some p ->
  get_resources p resources = Some rs ->
  rs <> [] ->
  Forall (fun r => r_parent_id r = n_id n) rs ->
  get_node p (n_id n) = Some n ->
  n_resources n <> [] ->
  node_owns_resources n ->
  find (fun ps => Z.eqb (ps_id ps) pstate) (n_power_states n) = Some next_ps ->
  ps_type next_ps = computation ->
  n_is_on n = false ->
  find (fun ps => PowerStateType_eqb (ps_type ps) switching_on)
    (n_power_states n) = Some on ->
  0 <= ps_speed on ->
  float_div (Finite 1) (float_of (ps_speed on)) = inr (Finite quotient) ->
  let ids := ProcSet (map r_id (n_resources n)) in
  let now := Grid.current_time g in
  let g' := snd (Grid.set_resources_pstate resources pstate g) in
  fst (Grid.set_resources_pstate resources pstate g) = Returned /\
  g' = Grid.set_events (Grid.events g') g /\
  (0 <= Qfloor quotient)%Z /\
  length (Grid.events g') = S (S (length (Grid.events g))) /\
  exists queue,
    inserted timestamp (ResourcePowerStateChangedEvent now ids (ps_id on))
      (Grid.events g) queue /\
    inserted timestamp
      (ResourcePowerStateChangedEvent (now + Qfloor quotient) ids pstate)
      queue (Grid.events g').
Proof.
  intros Hp Hrs Hne Hall Hnode Hres Howns Hnext Hcomp Hoff Hon Hpos Hq
    ids now g'.
  destruct (time_to_switch_floor on quotient Hpos Hq) as [Htts Hd].
  subst g'.
  rewrite (set_resources_pstate_single_node g resources pstate p n rs
             (Some on) (Qfloor quotient)); try assumption.
  - cbn [fst snd]. split; [reflexivity |].
    split; [now destruct g |]. split; [exact Hd |].
    split.
    { cbn [Grid.add_event Grid.events Grid.set_events].
      now rewrite !SortedList_add_length. }
    eexists. split; [apply SortedList_add_inserted |].
    unfold Grid.add_event at 1. cbn [Grid.events Grid.set_events].
    apply SortedList_add_inserted.
  - unfold transition_of. now rewrite Hnext, Hcomp, Hoff, Hon.
Qed.

Lemma set_resources_pstate_wakes_node_witness :
  let g' := snd (Grid.set_resources_pstate [1%Z] 0 example_off_grid) in
  fst (Grid.set_resources_pstate [1%Z] 0 example_off_grid) = Returned /\
  g' = Grid.set_events (Grid.events g') example_off_grid /\
  (0 <= Qfloor 3)%Z /\
  length (Grid.events g') = S (S (length (Grid.events example_off_grid))) /\
  exists queue,
    inserted timestamp (ResourcePowerStateChangedEvent 7 [0; 1]%Z 3)
      (Grid.events example_off_grid) queue /\
    inserted timestamp
      (ResourcePowerStateChangedEvent (7 + Qfloor 3) [0; 1]%Z 0)
      queue (Grid.events g').
Proof.
  refine (set_resources_pstate_wakes_node example_off_grid [1%Z] 0
            example_off_platform example_off_node
            [ {| r_id := 1; r_parent_id := 0; r_speed := 2 |} ]
            {| ps_id := 0; ps_type := computation; ps_speed := 2 |}
            {| ps_id := 3; ps_type := switching_on; ps_speed := 1 # 3 |}
            3
            eq_refl eq_refl _ _ eq_refl _ _ eq_refl eq_refl eq_refl eq_refl _ _).
  - discriminate.
  - repeat constructor.
  - discriminate.
  - repeat constructor.
  - discriminate.
  - vm_compute. reflexivity.
Defined.

(** X10. [set_resources_pstate] queues its events only after its loop:
    when it raises, the handler is unchanged.  A target state that the node
    of the first requested resource does not have makes it raise
    [StopIteration]. *)
Theorem set_resources_pstate_failure (g : Grid.t) (resources : list Z)
    (pstate : Z) :
  (forall o g',
     Grid.set_resources_pstate resources pstate g = (o, g') ->
     o <> Returned -> g' = g) /\
  (forall p r rest n,
     Grid.platform g = Some p ->
     get_resources p resources = Some (r :: rest) ->
     get_node p (r_parent_id r) = Some n ->
     find (fun ps => Z.eqb (ps_id ps) pstate) (n_power_states n) = None ->
     Grid.set_resources_pstate resources pstate g = (Raised StopIteration, g)).
Proof.
  split.
  - intros o g'. unfold Grid.set_resources_pstate.
    destruct (Grid.platform g); [| now intros [= <- <-]].
    destruct (get_resources _ _); [| now intros [= <- <-]].
    destruct (Grid.pstate_loop _ _ _ _); [now intros [= <- <-] |].
    intros [= <- <-]. congruence.
  - intros p r rest n Hp Hrs Hn Hfind. unfold Grid.set_resources_pstate.
    rewrite Hp, Hrs. cbn [Grid.pstate_loop Grid.nodes_visited existsb].
    rewrite Hn. unfold transition_of. now rewrite Hfind.
Qed.

Lemma set_resources_pstate_failure_witness :
  Grid.set_resources_pstate [1%Z] 9 example_pstate_grid =
  (Raised StopIteration, example_pstate_grid).
Proof.
  refine (proj2 (set_resources_pstate_failure example_pstate_grid [1%Z] 9)
            example_platform
            {| r_id := 1; r_parent_id := 0; r_speed := 2 |} [] example_node
            eq_refl eq_refl eq_refl eq_refl).
Defined.

(** X11. The loop visits a node once and then takes all its resources:
    which resources of a node a request names, how many and how often, makes
    no difference to the events that are queued. *)
Theorem set_resources_pstate_whole_node (g : Grid.t)
    (resources1 resources2 : list Z) (pstate : Z) (p : Platform) (n : Node)
    (rs1 rs2 : list Resource) (trans : option PowerState) (tts : Z) :
  Grid.platform g = Some p ->
  get_resources p resources1 = Some rs1 -> rs1 <> [] ->
  Forall (fun r => r_parent_id r = n_id n) rs1 ->
  get_resources p resources2 = Some rs2 -> rs2 <> [] ->
  Forall (fun r => r_parent_id r = n_id n) rs2 ->
  get_node p (n_id n) = Some n ->
  n_resources n <> [] ->
  node_owns_resources n ->
  transition_of n pstate = inr trans ->
  time_to_switch trans = inr tts ->
  Grid.set_resources_pstate resources1 pstate g =
  Grid.set_resources_pstate resources2 pstate g /\
  fst (Grid.set_resources_pstate resources1 pstate g) = Returned.
Proof.
  intros Hp Hrs1 Hne1 Hall1 Hrs2 Hne2 Hall2 Hnode Hres Howns Htrans Htts.
  rewrite (set_resources_pstate_single_node g resources1 pstate p n rs1
             trans tts) by assumption.
  rewrite (set_resources_pstate_single_node g resources2 pstate p n rs2
             trans tts) by assumption.
  split; reflexivity.
Qed.

Lemma set_resources_pstate_whole_node_witness :
  Grid.set_resources_pstate [1%Z] 1 example_pstate_grid =
  Grid.set_resources_pstate [0; 1; 0]%Z 1 example_pstate_grid.
Proof.
  refine (proj1 (set_resources_pstate_whole_node example_pstate_grid
                   [1%Z] [0; 1; 0]%Z 1 example_platform example_node
                   [ {| r_id := 1; r_parent_id := 0; r_speed := 2 |} ]
                   [ {| r_id := 0; r_parent_id := 0; r_speed := 2 |};
                     {| r_id := 1; r_parent_id := 0; r_speed := 2 |};
                     {| r_id := 0; r_parent_id := 0; r_speed := 2 |} ]
                   (Some {| ps_id := 2; ps_type := switching_off;
                            ps_speed := 1 # 5 |})
                   5%Z eq_refl eq_refl _ _ eq_refl _ _ eq_refl _ _
                   eq_refl eq_refl)).
  - discriminate.
  - repeat constructor.
  - discriminate.
  - repeat constructor.
  - discriminate.
  - repeat constructor.
Defined.

(** ** [get_next_event_time] *)

Lemma example_waiting_reachable : reachable quiet example_waiting_grid.
Proof.
  apply (reach_call quiet (Command (Grid.CallMeLater 9)) 0 Returned
           example_loaded_grid).
  - exact example_loaded_reachable.
  - exact I.
  - vm_compute. reflexivity.
  - discriminate.
Qed.

(** X12. In a run on well-formed inputs, [get_next_event_time] of a
    non-empty queue is the least timestamp of the queue and is not before
    the current time; a [proceed_simulation] on the running handler moves
    the current time to its floor.  On an empty queue it is 0. *)
Theorem get_next_event_time_bounds
    (callbacks : Grid.t -> Event -> list Grid.Cmd) (g : Grid.t) :
  (forall g0 e, Forall wf_cmd (callbacks g0 e)) ->
  reachable callbacks g ->
  (Grid.events g = [] -> Grid.get_next_event_time g = 0) /\
  (Grid.events g <> [] ->
   inject_Z (Grid.current_time g) <= Grid.get_next_event_time g /\
   (forall e, In e (Grid.events g) ->
              Grid.get_next_event_time g <= timestamp e) /\
   (forall fuel o g',
      Grid.is_running g = true ->
      Grid.proceed_simulation callbacks fuel g = (o, g') ->
      Grid.current_time g' = Qfloor (Grid.get_next_event_time g))).
Proof.
  intros Hcb Hreach.
  destruct (reachable_inv callbacks Hcb g Hreach) as [Hinv _].
  unfold Grid.get_next_event_time. split.
  - now intros ->.
  - intros Hne. destruct (Grid.events g) as [| e rest] eqn:He; [congruence |].
    pose proof (inv_sorted g Hinv) as Hs. pose proof (inv_queue g Hinv) as Hq.
    rewrite He in Hs, Hq. split; [| split].
    + inversion Hq as [| ? ? [H _] _]; subst. exact H.
    + intros x [<- | Hx]; [apply Qle_refl |].
      inversion Hs as [| ? ? _ Hall]; subst.
      rewrite List.Forall_forall in Hall. now apply Hall.
    + intros fuel o g' Hrun. unfold Grid.proceed_simulation.
      rewrite Hrun, He. cbn [negb]. intros H.
      apply dispatch_events_frame in H as (Ht & _).
      unfold Grid.current_time. now rewrite Ht.
Qed.

Lemma get_next_event_time_bounds_witness :
  inject_Z (Grid.current_time example_waiting_grid)
    <= Grid.get_next_event_time example_waiting_grid.
Proof.
  refine (proj1 (proj2 (get_next_event_time_bounds quiet example_waiting_grid
                          quiet_wf example_waiting_reachable) _)).
  vm_compute. discriminate.
Defined.

(** ** Steps with callbacks that issue no command *)

Lemma takewhile_dropwhile {A : Type} (f : A -> bool) (l : list A) :
  takewhile f l ++ dropwhile f l = l.
Proof.
  induction l as [| x l IH]; simpl; [reflexivity |].
  destruct (f x); simpl; [now rewrite IH | reflexivity].
Qed.

(** X13. A requested call wakes the driver: on a running handler with an
    empty queue, after [call_me_later(at)] the next [proceed_simulation]
    moves the clock to [floor(at)] and hands one [RequestedCall] event
    stamped with that time to the callbacks; the queue is empty again. *)
Theorem call_me_later_wakes (callbacks : Grid.t -> Event -> list Grid.Cmd)
    (fuel : nat) (g : Grid.t) (at_ : Q) :
  (forall g0 e0, callbacks g0 e0 = []) ->
  Grid.is_running g = true ->
  Grid.events g = [] ->
  (Grid.current_time g <= Qfloor at_)%Z ->
  (2 <= fuel)%nat ->
  Grid.proceed_simulation callbacks fuel (snd (Grid.call_me_later at_ g)) =
    (Returned,
     Grid.set_notified
       (Grid.notified g ++ [RequestedCallEvent (Qfloor at_)])
       (Grid.set_current_time_ (inject_Z (Qfloor at_)) g)).
Proof.
  intros Hq Hrun He Hle Hfuel.
  assert (snd (Grid.call_me_later at_ g) =
          Grid.add_event (RequestedCallEvent (Qfloor at_)) g) as ->.
  { unfold Grid.call_me_later. apply Z.leb_le in Hle. now rewrite Hle, He. }
  unfold Grid.proceed_simulation, Grid.add_event.
  rewrite He. cbn [Grid.is_running Grid.set_events Grid.events SortedList_add].
  rewrite Hrun. cbn [negb].
  rewrite dispatch_events_quiet; [| exact Hq | simpl; lia].
  unfold Grid.current_time.
  cbn [Grid.events Grid.set_current_time_ Grid.set_events Grid.notified
       Grid.current_time_ RequestedCallEvent timestamp].
  rewrite Qfloor_Z. cbn [takewhile dropwhile].
  unfold at_time. cbn [timestamp]. rewrite Qeq_bool_refl.
  cbn [takewhile dropwhile]. destruct g; cbn in *. now subst.
Qed.

Lemma call_me_later_wakes_witness :
  Grid.proceed_simulation quiet 2
    (snd (Grid.call_me_later 9 example_pstate_grid)) =
    (Returned,
     Grid.set_notified
       (Grid.notified example_pstate_grid ++ [RequestedCallEvent (Qfloor 9)])
       (Grid.set_current_time_ (inject_Z (Qfloor 9)) example_pstate_grid)).
Proof.
  apply (call_me_later_wakes quiet 2 example_pstate_grid 9).
  - reflexivity.
  - reflexivity.
  - reflexivity.
  - discriminate.
  - apply le_n.
Defined.

(** X14. [finish] on a running handler throws away what is pending: with
    callbacks that issue no command it leaves an empty queue, no pending
    job and no profile, and the only event it hands to the callbacks is
    [SimulationEnds] at the current time.  Whatever the callbacks do,
    [SimulationEnds] is the first event handed over and the handler is not
    running afterwards. *)
Theorem grid_finish_effect (callbacks : Grid.t -> Event -> list Grid.Cmd)
    (fuel : nat) (g : Grid.t) :
  Grid.is_running g = true ->
  (1 <= fuel)%nat ->
  (exists d,
     Grid.notified (snd (Grid.finish callbacks fuel g)) =
       Grid.notified g ++ SimulationEndsEvent (Grid.current_time g) :: d) /\
  Grid.is_running (snd (Grid.finish callbacks fuel g)) = false /\
  ((forall g0 e0, callbacks g0 e0 = []) -> (2 <= fuel)%nat ->
   Grid.finish callbacks fuel g = (Returned, finished g)).
Proof.
  intros Hrun Hfuel. split; [| split].
  - unfold Grid.finish. rewrite Hrun. cbn [negb].
    destruct fuel as [| fuel]; [lia |].
    cbn [Grid._dispatch_events Grid.events Grid.add_event Grid.set_events
         Grid.set_jobs Grid.set_profiles Grid.set_submitter_ended
         Grid.set_is_running SortedList_add].
    match goal with
    | |- context [Qeq_bool ?a ?b] =>
        assert (Qeq_bool a b = true) as -> by apply Qeq_bool_refl
    end.
    match goal with
    | |- context [Grid.run_cmds ?cs ?g1] =>
        destruct (Grid.run_cmds cs g1) as [o1 g2] eqn:E
    end.
    apply run_cmds_frame in E as (_ & _ & _ & F4). cbn in F4.
    destruct o1; cbn [snd]; try (exists []; exact F4).
    destruct (Grid._dispatch_events callbacks fuel g2) as [o g'] eqn:D.
    apply dispatch_events_spec in D as [(d & Hd & _) _].
    exists d. cbn [snd]. rewrite Hd, F4, <- app_assoc. reflexivity.
  - apply grid_finish_not_running.
  - intros Hq Hfuel2. unfold Grid.finish. rewrite Hrun. cbn [negb].
    rewrite dispatch_events_quiet; [| exact Hq | cbn; lia].
    cbn [Grid.events Grid.add_event Grid.set_events Grid.set_jobs
         Grid.set_profiles Grid.set_submitter_ended Grid.set_is_running
         Grid.notified Grid.current_time Grid.current_time_ SortedList_add
         takewhile dropwhile].
    unfold at_time at 1 2. cbn [timestamp SimulationEndsEvent].
    rewrite Qeq_bool_refl. reflexivity.
Qed.

Lemma grid_finish_effect_witness :
  Grid.finish quiet 2 (example_grid 1000) =
  (Returned, finished (example_grid 1000)).
Proof.
  refine (proj2 (proj2 (grid_finish_effect quiet 2 (example_grid 1000) _ _))
            _ _).
  - reflexivity.
  - auto.
  - reflexivity.
  - apply le_n.
Defined.

(** X15. [start] fails its assertions on a running handler and without a
    platform, and then changes nothing.  On a stopped handler with an empty
    queue, without workload and with callbacks that issue no command, it
    sets the clock to 0, forgets the pending jobs, keeps the profiles,
    marks the feeder as active and hands [SimulationBegins] to the
    callbacks. *)
Theorem grid_start_cases (callbacks : Grid.t -> Event -> list Grid.Cmd)
    (fuel : nat) (g : Grid.t) :
  (forall p w, Grid.is_running g = true ->
     Grid.start callbacks p w fuel g = (Raised AssertionError, g)) /\
  (forall w, Grid.start callbacks None w fuel g = (Raised AssertionError, g)) /\
  (forall p,
     (forall g0 e0, callbacks g0 e0 = []) ->
     Grid.is_running g = false -> Grid.events g = [] -> (2 <= fuel)%nat ->
     Grid.start callbacks (Some p) None fuel g = (Returned, started p g)).
Proof.
  split; [| split].
  - intros p w Hrun. unfold Grid.start. now rewrite Hrun.
  - intros w. unfold Grid.start. now destruct (Grid.is_running g).
  - intros p Hq Hrun He Hfuel. unfold Grid.start. rewrite Hrun.
    rewrite dispatch_events_quiet;
      [| exact Hq | cbn; rewrite He; cbn; lia].
    cbn [Grid.events Grid.add_event Grid.set_events Grid.set_jobs
         Grid.set_platform Grid.set_submitter_ended Grid.set_is_running
         Grid.set_current_time_ Grid.notified Grid.current_time
         Grid.current_time_].
    rewrite He. cbn [SortedList_add takewhile dropwhile].
    unfold at_time at 1 2. cbn [timestamp SimulationBeginsEvent].
    rewrite Qeq_bool_refl. reflexivity.
Qed.

Lemma grid_start_cases_witness :
  Grid.start quiet (Some example_platform) None 2 Grid.init =
  (Returned, started example_platform Grid.init).
Proof.
  refine (proj2 (proj2 (grid_start_cases quiet 2 Grid.init))
            example_platform _ _ _ _).
  - reflexivity.
  - reflexivity.
  - reflexivity.
  - apply le_n.
Defined.

(** X16. The life of a simulation without jobs, on any platform: after
    [start] without a workload, [proceed_simulation] raises [RuntimeError]
    as long as the end of the feeder has not been notified; after
    [notify(no_more_static_job_to_submit)] one step hands over the
    notification and the next one finishes the simulation. *)
Theorem grid_life_without_jobs (p : Platform) (n : nat) :
  let fuel := S (S n) in
  let g1 := snd (Grid.start quiet (Some p) None fuel Grid.init) in
  let g2 := snd (Grid.notify no_more_static_job_to_submit g1) in
  let g3 := snd (Grid.proceed_simulation quiet fuel g2) in
  let g4 := snd (Grid.proceed_simulation quiet fuel g3) in
  Grid.proceed_simulation quiet fuel g1 = (Raised RuntimeError, g1) /\
  Grid.is_running g3 = true /\
  fst (Grid.proceed_simulation quiet fuel g3) = Returned /\
  Grid.is_running g4 = false /\
  Grid.notified g4 =
    [ SimulationBeginsEvent 0 p;
      NotifyEvent 0 no_more_static_job_to_submit;
      SimulationEndsEvent 0 ].
Proof.
  cbv zeta. repeat split; vm_compute; reflexivity.
Qed.

(** X17. A step with callbacks that issue no command loses and invents no
    event: [proceed_simulation] on a running handler with a pending event
    moves a prefix of the queue to the end of the trace and leaves the
    pending jobs and the profiles as they are. *)
Theorem proceed_simulation_conserves
    (callbacks : Grid.t -> Event -> list Grid.Cmd) (fuel : nat) (g : Grid.t) :
  (forall g0 e0, callbacks g0 e0 = []) ->
  Grid.is_running g = true ->
  Grid.events g <> [] ->
  (length (Grid.events g) < fuel)%nat ->
  let g' := snd (Grid.proceed_simulation callbacks fuel g) in
  fst (Grid.proceed_simulation callbacks fuel g) = Returned /\
  Grid.notified g' ++ Grid.events g' = Grid.notified g ++ Grid.events g /\
  Grid.jobs g' = Grid.jobs g /\
  Grid.profiles g' = Grid.profiles g /\
  Grid.is_running g' = true.
Proof.
  intros Hq Hrun Hne Hlen. unfold Grid.proceed_simulation. rewrite Hrun.
  cbn [negb]. destruct (Grid.events g) as [| e rest] eqn:He; [congruence |].
  rewrite dispatch_events_quiet; [| exact Hq | cbn; rewrite He; exact Hlen].
  cbn [fst snd Grid.notified Grid.events Grid.jobs Grid.profiles
       Grid.is_running Grid.set_notified Grid.set_events
       Grid.set_current_time_].
  rewrite <- app_assoc, takewhile_dropwhile, ?He. repeat split.
  exact Hrun.
Qed.

Lemma proceed_simulation_conserves_witness :
  Grid.notified (snd (Grid.proceed_simulation quiet 2 example_waiting_grid))
  ++ Grid.events (snd (Grid.proceed_simulation quiet 2 example_waiting_grid))
  = Grid.notified example_waiting_grid ++ Grid.events example_waiting_grid.
Proof.
  refine (proj1 (proj2 (proceed_simulation_conserves quiet 2
                          example_waiting_grid _ _ _ _))).
  - reflexivity.
  - vm_compute. reflexivity.
  - vm_compute. discriminate.
  - vm_compute. apply le_n.
Defined.

(** * Further properties of the remote backend *)

(** ** The order of the requests *)

Lemma SortedList_add_last {A : Type} (key : A -> Q) (x : A) (l : list A) :
  Forall (fun y => key y <= key x) l -> SortedList_add key x l = l ++ [x].
Proof.
  induction 1 as [| y l Hy H IH]; simpl; [reflexivity |].
  apply Qle_bool_iff in Hy. now rewrite Hy, IH.
Qed.

(** What a command other than [set_resources_pstate] does when the
    callbacks issue no command: it queues its request and hands its event,
    if it has one, to the callbacks. *)
Lemma batsim_run_cmd_plain (n : nat) (c : Batsim.Cmd) (b : Batsim.t) :
  is_pstate_cmd c = false ->
  Batsim.run_cmd (quiet_dispatch n) c b =
    (Returned,
     Batsim.set_notified
       (Batsim.notified b ++ mirrored_event (Batsim.current_time b) c)
       (Batsim.set_requests
          (SortedList_add Batsim.rq_timestamp
             (request_of (Batsim.current_time b) c) (Batsim.requests b)) b)).
Proof.
  destruct b as [rq ct sim pf snt bnd ntf].
  destruct c; intros Hc; try discriminate; cbn [Batsim.run_cmd];
    unfold Batsim.execute_job, Batsim.register_job, Batsim.notify;
    rewrite ?quiet_dispatch_eq; cbn; rewrite ?app_nil_r; reflexivity.
Qed.

(** X18. The batch keeps the order of the calls.  When no queued request
    is stamped after the current time and the callbacks of the policy
    issue no command of their own, commands other than
    [set_resources_pstate] return and append their requests to the buffer
    in the order in which they are issued, each stamped with the current
    time, and the clock does not move. *)
Theorem batsim_requests_fifo (n : nat) (cs : list Batsim.Cmd) (b : Batsim.t) :
  not_after_now b ->
  Forall (fun c => is_pstate_cmd c = false) cs ->
  let b' := batsim_run_cmds (quiet_dispatch n) cs b in
  fst (Batsim.run_cmds (quiet_dispatch n) cs b) = Returned /\
  snd (Batsim.run_cmds (quiet_dispatch n) cs b) = b' /\
  Batsim.requests b' =
    Batsim.requests b ++ map (request_of (Batsim.current_time b)) cs /\
  Batsim.current_time b' = Batsim.current_time b /\
  not_after_now b'.
Proof.
  intros Hb Hcs. revert b Hb.
  induction Hcs as [| c cs Hc Hcs IH]; intros b Hb;
    cbn [batsim_run_cmds Batsim.run_cmds map].
  - rewrite app_nil_r. auto.
  - rewrite (batsim_run_cmd_plain n c b Hc). cbn [snd].
    match goal with
    | |- context [batsim_run_cmds _ cs ?b1] =>
        assert (Batsim.current_time b1 = Batsim.current_time b) as Hct
          by reflexivity;
        assert (Batsim.requests b1 =
                Batsim.requests b ++ [request_of (Batsim.current_time b) c])
          as Hrq
          by (cbn; apply SortedList_add_last; exact Hb);
        assert (not_after_now b1) as Hb1;
        [| specialize (IH b1 Hb1); cbv zeta in IH;
           destruct IH as (IH0 & IH0' & IH1 & IH2 & IH3);
           rewrite IH1, IH2, Hrq, Hct, <- app_assoc; auto ]
    end.
    unfold not_after_now. rewrite Hrq, Hct. apply Forall_app. split.
    + exact Hb.
    + constructor; [apply Qle_refl | constructor].
Qed.

Lemma batsim_requests_fifo_witness :
  Batsim.requests
    (batsim_run_cmds (quiet_dispatch 0)
       [ Batsim.RegisterJob "j1" "p" 1 1000 "user";
         Batsim.ExecuteJob "j1" [0%Z]; Batsim.CallMeLater 9 ]
       example_batsim) =
  Batsim.requests example_batsim ++
  map (request_of (Batsim.current_time example_batsim))
    [ Batsim.RegisterJob "j1" "p" 1 1000 "user";
      Batsim.ExecuteJob "j1" [0%Z]; Batsim.CallMeLater 9 ].
Proof.
  refine (proj1 (proj2 (proj2 (batsim_requests_fifo 0 _ example_batsim _ _)))).
  - constructor.
  - repeat constructor.
Defined.

(** With a callback that reacts the order is another: a policy that
    answers [JobStarted] with a request gets it into the buffer ahead of
    the [execute_job] request that caused it. *)
Example batsim_requests_reacting_callback :
  let callbacks := fun (_ : Batsim.t) (e : Event) =>
    match type e with
    | JOB_STARTED => [Batsim.CallMeLater 9]
    | _ => []
    end in
  map Batsim.rq_data
    (Batsim.requests
       (snd (Batsim.execute_job (Batsim._dispatch_events callbacks 2)
               "j1" [0%Z] example_batsim))) =
  [ Batsim.CallMeLaterData (9 + (9 # 10000));
    Batsim.ExecuteJobData "j1" [0%Z] ].
Proof. vm_compute. reflexivity. Qed.

(** Events other than [SimulationEnds] leave the messages sent, the clock,
    the process, the channel and the platform alone, whatever the
    callbacks do with them. *)
Lemma batsim_frame_refl (b : Batsim.t) : batsim_frame b b.
Proof. repeat split. Qed.

Lemma batsim_frame_trans (b1 b2 b3 : Batsim.t) :
  batsim_frame b1 b2 -> batsim_frame b2 b3 -> batsim_frame b1 b3.
Proof.
  intros (A1 & A2 & A3 & A4 & A5) (B1 & B2 & B3 & B4 & B5).
  repeat split; congruence.
Qed.

Lemma batsim_frame_hand_over (e : Event) (b : Batsim.t) :
  negb (is_simulation_ends e) = true -> batsim_frame b (hand_over_one e b).
Proof.
  intros He. apply negb_true_iff in He. unfold hand_over_one.
  unfold is_simulation_ends in He. rewrite He. repeat split.
Qed.

Lemma batsim_dispatch_frame (callbacks : Batsim.t -> Event -> list Batsim.Cmd)
    (fuel : nat) (evs : list Event) (b : Batsim.t) :
  forallb (fun e => negb (is_simulation_ends e)) evs = true ->
  batsim_frame b (snd (Batsim._dispatch_events callbacks fuel evs b)).
Proof.
  apply (batsim_dispatch_steps batsim_frame
           (fun e => negb (is_simulation_ends e))).
  - exact batsim_frame_refl.
  - exact batsim_frame_trans.
  - intros rs b0. repeat split.
  - exact batsim_frame_hand_over.
  - intros e He. now rewrite He.
Qed.

Lemma batsim_run_cmd_frame (callbacks : Batsim.t -> Event -> list Batsim.Cmd)
    (fuel : nat) (c : Batsim.Cmd) (b : Batsim.t) :
  batsim_frame b
    (snd (Batsim.run_cmd (Batsim._dispatch_events callbacks fuel) c b)).
Proof.
  apply (batsim_run_cmd_steps batsim_frame
           (fun e => negb (is_simulation_ends e))).
  - exact batsim_frame_trans.
  - intros rs b0. repeat split.
  - intros e He. now rewrite He.
  - intros evs b0. apply batsim_dispatch_frame.
Qed.

Lemma batsim_run_cmds_frame (callbacks : Batsim.t -> Event -> list Batsim.Cmd)
    (fuel : nat) (cs : list Batsim.Cmd) (b : Batsim.t) :
  batsim_frame b
    (snd (Batsim.run_cmds (Batsim._dispatch_events callbacks fuel) cs b)).
Proof.
  apply (batsim_run_cmds_steps batsim_frame
           (fun e => negb (is_simulation_ends e))).
  - exact batsim_frame_refl.
  - exact batsim_frame_trans.
  - intros rs b0. repeat split.
  - intros e He. now rewrite He.
  - intros evs b0. apply batsim_dispatch_frame.
Qed.

(** X19. No command transmits anything: whatever its outcome and whatever
    the callbacks that it reaches do, a command leaves the messages sent,
    the clock, the process and the channel as they are.  Requests leave
    the handler in [proceed_simulation] only. *)
Theorem batsim_commands_send_nothing
    (callbacks : Batsim.t -> Event -> list Batsim.Cmd) (fuel : nat)
    (c : Batsim.Cmd) (b : Batsim.t) :
  let b' := snd (Batsim.run_cmd (Batsim._dispatch_events callbacks fuel) c b) in
  Batsim.sent b' = Batsim.sent b /\
  Batsim.current_time_ b' = Batsim.current_time_ b /\
  Batsim.simulator b' = Batsim.simulator b /\
  Batsim.bound b' = Batsim.bound b /\
  Batsim.platform b' = Batsim.platform b.
Proof. exact (batsim_run_cmd_frame callbacks fuel c b). Qed.

(** ** Steps, start and finish of the remote backend *)

(** Dispatching on a handler whose process is gone: a [SimulationEnds]
    event empties the buffer and closes the channel, nothing is sent. *)
Lemma batsim_dispatch_closed (evs : list Event) (b : Batsim.t) :
  Batsim.simulator b = false ->
  let b' := hand_over evs b in
  Batsim.sent b' = Batsim.sent b /\
  Batsim.simulator b' = false /\
  Batsim.current_time_ b' = Batsim.current_time_ b /\
  Batsim.platform b' = Batsim.platform b /\
  Batsim.notified b' = Batsim.notified b ++ evs /\
  Batsim.requests b' =
    (if existsb is_simulation_ends evs then [] else Batsim.requests b) /\
  Batsim.bound b' =
    (if existsb is_simulation_ends evs then false else Batsim.bound b).
Proof.
  revert b. induction evs as [| e evs IH]; intros b Hs; cbn [hand_over existsb]; unfold hand_over_one.
  - rewrite app_nil_r. repeat split. exact Hs.
  - fold (is_simulation_ends e).
    match goal with
    | |- context [hand_over evs ?b0] => set (b1 := b0)
    end.
    assert (Batsim.sent b1 = Batsim.sent b /\
            Batsim.simulator b1 = false /\
            Batsim.current_time_ b1 = Batsim.current_time_ b /\
            Batsim.platform b1 = Batsim.platform b /\
            Batsim.notified b1 = Batsim.notified b ++ [e] /\
            Batsim.requests b1 =
              (if is_simulation_ends e then [] else Batsim.requests b) /\
            Batsim.bound b1 =
              (if is_simulation_ends e then false else Batsim.bound b))
      as (H1 & H2 & H3 & H4 & H5 & H6 & H7).
    { subst b1. destruct b as [rq ct sim pf snt bnd ntf]. cbn in Hs. subst sim.
      destruct (is_simulation_ends e); cbn; repeat split. }
    destruct (IH b1 H2) as (I1 & I2 & I3 & I4 & I5 & I6 & I7).
    cbv zeta. rewrite I1, I3, I4, I5, I6, I7, H1, H3, H4, H5, H6, H7, <- app_assoc.
    repeat split; try exact I2; destruct (is_simulation_ends e);
      destruct (existsb is_simulation_ends evs); reflexivity.
Qed.

(** Dispatching a batch that holds a [SimulationEnds] event while the
    process runs: the process is acknowledged once and closed. *)
Lemma batsim_dispatch_ends (evs : list Event) (b : Batsim.t) :
  Batsim.simulator b = true ->
  existsb is_simulation_ends evs = true ->
  let b' := hand_over evs b in
  Batsim.sent b' = Batsim.sent b ++ [ack_message (Batsim.current_time b)] /\
  Batsim.simulator b' = false /\
  Batsim.current_time_ b' = Batsim.current_time_ b /\
  Batsim.platform b' = Batsim.platform b /\
  Batsim.notified b' = Batsim.notified b ++ evs /\
  Batsim.requests b' = [] /\
  Batsim.bound b' = false.
Proof.
  revert b. induction evs as [| e evs IH]; intros b Hs Hex;
    [discriminate |].
  cbn [hand_over]. unfold hand_over_one. fold (is_simulation_ends e).
  cbn [existsb] in Hex.
  destruct (is_simulation_ends e) eqn:He.
  - match goal with
    | |- context [hand_over evs ?b0] => set (b1 := b0)
    end.
    assert (Batsim.sent b1 = Batsim.sent b ++ [ack_message (Batsim.current_time b)] /\
            Batsim.simulator b1 = false /\
            Batsim.current_time_ b1 = Batsim.current_time_ b /\
            Batsim.platform b1 = Batsim.platform b /\
            Batsim.notified b1 = Batsim.notified b ++ [e] /\
            Batsim.requests b1 = [] /\ Batsim.bound b1 = false)
      as (H1 & H2 & H3 & H4 & H5 & H6 & H7).
    { subst b1. destruct b as [rq ct sim pf snt bnd ntf]. cbn in Hs. subst sim.
      cbn. repeat split. }
    destruct (batsim_dispatch_closed evs b1 H2) as (I1 & I2 & I3 & I4 & I5 & I6 & I7).
    cbv zeta. rewrite I1, I3, I4, I5, I6, I7, H1, H3, H4, H5, H6, H7, <- app_assoc.
    repeat split; try exact I2; destruct (existsb is_simulation_ends evs);
      reflexivity.
  - cbn [orb] in Hex.
    match goal with
    | |- context [hand_over evs ?b0] =>
        destruct (IH b0) as (I1 & I2 & I3 & I4 & I5 & I6 & I7);
        [exact Hs | exact Hex |]
    end.
    cbv zeta. rewrite I1, I3, I4, I5, I6, I7.
    cbn. rewrite <- app_assoc. repeat split. exact I2.
Qed.

(** A dispatch of one event is what the callbacks do after it has been
    handed over. *)
Lemma batsim_dispatch_single (callbacks : Batsim.t -> Event -> list Batsim.Cmd)
    (n : nat) (e : Event) (b : Batsim.t) :
  Batsim._dispatch_events callbacks (S n) [e] b =
  Batsim.run_cmds (Batsim._dispatch_events callbacks n)
    (callbacks (hand_over_one e b) e) (hand_over_one e b).
Proof.
  rewrite batsim_dispatch_cons.
  destruct (Batsim.run_cmds _ _ _) as [[| ex |] b']; reflexivity.
Qed.

(** Whatever the callbacks do, a dispatch sends nothing but
    acknowledgements, which are empty batches, keeps the clock and only
    extends the trace. *)
Lemma batsim_dispatch_acks (callbacks : Batsim.t -> Event -> list Batsim.Cmd)
    (fuel : nat) (evs : list Event) (b : Batsim.t) :
  let b' := snd (Batsim._dispatch_events callbacks fuel evs b) in
  Batsim.current_time_ b' = Batsim.current_time_ b /\
  (exists acks, Batsim.sent b' = Batsim.sent b ++ acks /\
                Forall (fun m => Batsim.msg_requests m = []) acks) /\
  exists rest, Batsim.notified b' = Batsim.notified b ++ rest.
Proof.
  apply (batsim_dispatch_steps
           (fun b b' =>
              Batsim.current_time_ b' = Batsim.current_time_ b /\
              (exists acks, Batsim.sent b' = Batsim.sent b ++ acks /\
                            Forall (fun m => Batsim.msg_requests m = []) acks) /\
              exists rest, Batsim.notified b' = Batsim.notified b ++ rest)
           (fun _ => true)).
  - intros b0. split; [reflexivity |].
    split; [exists []; rewrite app_nil_r; split; [reflexivity | constructor] |].
    exists []. now rewrite app_nil_r.
  - intros b1 b2 b3 (A1 & (a1 & A2 & A2') & r1 & A3)
      (B1 & (a2 & B2 & B2') & r2 & B3).
    split; [congruence |]. split.
    + exists (a1 ++ a2). rewrite B2, A2, app_assoc. split; [reflexivity |].
      apply Forall_app. now split.
    + exists (r1 ++ r2). now rewrite B3, A3, app_assoc.
  - intros rs b0. split; [reflexivity |].
    split; [exists []; rewrite app_nil_r; split; [reflexivity | constructor] |].
    exists []. now rewrite app_nil_r.
  - intros e [rq ct sim pf snt bnd ntf] _. unfold hand_over_one.
    destruct (EventType_eqb _ _); [destruct sim |]; cbn;
      (split; [reflexivity |]);
      (split; [| exists [e]; reflexivity]).
    + eexists. split; [reflexivity |]. repeat constructor.
    + exists []. rewrite app_nil_r. split; [reflexivity | constructor].
    + exists []. rewrite app_nil_r. split; [reflexivity | constructor].
  - reflexivity.
  - clear. induction evs; [reflexivity | exact IHevs].
Qed.

(** X20. [proceed_simulation] of the remote handler.  When no process
    runs, it fails its assertion and nothing is sent.  Otherwise,
    whatever the callbacks do, it sends the batch of the queued requests
    first and after it nothing but empty acknowledgements, takes the time
    of the reply as the clock and extends the trace.  When the callbacks
    of the policy issue no command, it returns with an empty buffer after
    handing the events of the reply to the callbacks in their order: if
    one of them is [SimulationEnds], the process is acknowledged with one
    empty batch and closed, and the channel is closed; if none is, nothing
    else is sent and the process keeps running. *)
Theorem batsim_proceed_simulation_cases
    (callbacks : Batsim.t -> Event -> list Batsim.Cmd) (n : nat)
    (msg : Batsim.Reply) (b : Batsim.t) :
  let dispatch := Batsim._dispatch_events callbacks (S n) in
  (Batsim.is_running b = false ->
   Batsim.proceed_simulation dispatch msg b = (Raised AssertionError, b)) /\
  (Batsim.is_running b = true ->
   let b' := snd (Batsim.proceed_simulation dispatch msg b) in
   Batsim.current_time_ b' = Batsim.reply_now msg /\
   (exists acks,
      Batsim.sent b' = Batsim.sent b ++ batch b :: acks /\
      Forall (fun m => Batsim.msg_requests m = []) acks) /\
   exists rest, Batsim.notified b' = Batsim.notified b ++ rest) /\
  (Batsim.is_running b = true ->
   let b' := snd (Batsim.proceed_simulation (quiet_dispatch n) msg b) in
   fst (Batsim.proceed_simulation (quiet_dispatch n) msg b) = Returned /\
   Batsim.current_time_ b' = Batsim.reply_now msg /\
   Batsim.notified b' = Batsim.notified b ++ Batsim.reply_events msg /\
   Batsim.requests b' = [] /\
   (existsb is_simulation_ends (Batsim.reply_events msg) = false ->
    Batsim.sent b' = Batsim.sent b ++ [batch b] /\
    Batsim.is_running b' = true /\ Batsim.bound b' = Batsim.bound b) /\
   (existsb is_simulation_ends (Batsim.reply_events msg) = true ->
    Batsim.sent b' =
      Batsim.sent b ++
      [batch b; ack_message (Qfloor (Batsim.reply_now msg))] /\
    Batsim.is_running b' = false /\ Batsim.bound b' = false)).
Proof.
  cbv zeta. split; [| split].
  - intros Hr. unfold Batsim.proceed_simulation. now rewrite Hr.
  - intros Hr. unfold Batsim.proceed_simulation. rewrite Hr.
    cbn [negb Batsim._read_events].
    set (b0 := Batsim.set_current_time_ (Batsim.reply_now msg)
                 (Batsim._send_requests b)).
    destruct (batsim_dispatch_acks callbacks (S n) (Batsim.reply_events msg) b0)
      as (H1 & (acks & H2 & H3) & rest & H4).
    cbv zeta in H1, H2, H4. rewrite H1, H2, H4.
    split; [reflexivity |]. split; [| exists rest; reflexivity].
    exists acks. split; [| exact H3].
    subst b0. cbn. now rewrite <- app_assoc.
  - intros Hr. unfold Batsim.proceed_simulation. rewrite Hr.
    cbn [negb Batsim._read_events]. rewrite quiet_dispatch_eq.
    cbn [fst snd].
    set (b0 := Batsim.set_current_time_ (Batsim.reply_now msg)
                 (Batsim._send_requests b)).
    assert (Batsim.simulator b0 = true) as Hs0 by exact Hr.
    destruct (existsb is_simulation_ends (Batsim.reply_events msg)) eqn:Hex.
    + destruct (batsim_dispatch_ends _ b0 Hs0 Hex)
        as (I1 & I2 & I3 & I4 & I5 & I6 & I7).
      cbv zeta in I1, I2, I3, I4, I5, I6, I7.
      rewrite I1, I3, I5, I6, I7. unfold Batsim.is_running.
      rewrite I2. cbn. rewrite <- app_assoc.
      repeat split; discriminate.
    + assert (Forall (fun e => EventType_eqb (type e) SIMULATION_ENDS = false)
                (Batsim.reply_events msg)) as Hall.
      { apply List.Forall_forall. intros e He.
        destruct (EventType_eqb (type e) SIMULATION_ENDS) eqn:E; [| reflexivity].
        assert (existsb is_simulation_ends (Batsim.reply_events msg) = true)
          by (apply existsb_exists; exists e; split; assumption).
        congruence. }
      rewrite (batsim_dispatch_plain _ b0 Hall). cbn.
      repeat split; try discriminate. exact Hr.
Qed.

Lemma batsim_proceed_simulation_cases_witness :
  Batsim.proceed_simulation (Batsim._dispatch_events batsim_quiet 1)
    (empty_reply 6) Batsim.init =
    (Raised AssertionError, Batsim.init) /\
  Batsim.sent (snd (Batsim.proceed_simulation (quiet_dispatch 0)
                      (empty_reply 6) example_batsim))
    = Batsim.sent example_batsim ++ [batch example_batsim].
Proof.
  split.
  - refine (proj1 (batsim_proceed_simulation_cases batsim_quiet 0
                     (empty_reply 6) Batsim.init) _).
    reflexivity.
  - refine (proj1 (proj1 (proj2 (proj2 (proj2 (proj2
              (proj2 (proj2 (batsim_proceed_simulation_cases batsim_quiet 0
                        (empty_reply 6) example_batsim)) _))))) _)).
    + reflexivity.
    + reflexivity.
Defined.

(** What [finish] does whatever the callbacks do. *)
Lemma batsim_finish_any (callbacks : Batsim.t -> Event -> list Batsim.Cmd)
    (n : nat) (b : Batsim.t) :
  let b' := snd (Batsim.finish (Batsim._dispatch_events callbacks (S n)) b) in
  Batsim.sent b' = Batsim.sent b /\
  Batsim.is_running b' = false /\
  Batsim.bound b' = false /\
  Batsim.current_time_ b' = Batsim.current_time_ b /\
  exists rest,
    Batsim.notified b' =
      Batsim.notified b ++ SimulationEndsEvent (Batsim.current_time b) :: rest.
Proof.
  cbv zeta. unfold Batsim.finish.
  set (b0 := Batsim._close_simulator b).
  set (e := SimulationEndsEvent (Batsim.current_time b0)).
  assert (Batsim.sent (hand_over_one e b0) = Batsim.sent b /\
          Batsim.simulator (hand_over_one e b0) = false /\
          Batsim.bound (hand_over_one e b0) = false /\
          Batsim.current_time b0 = Batsim.current_time b /\
          Batsim.notified b0 = Batsim.notified b /\
          Batsim.current_time_ b0 = Batsim.current_time_ b)
    as (S1 & S2 & S3 & S4 & S5 & S6).
  { subst e b0. destruct b as [rq ct sim pf snt bnd ntf].
    destruct sim; cbn; repeat split. }
  destruct (batsim_dispatch_first callbacks n e [] b0) as (T1 & rest & T2).
  cbv zeta in T1, T2.
  rewrite batsim_dispatch_single in *.
  pose proof (batsim_run_cmds_frame callbacks n
                (callbacks (hand_over_one e b0) e) (hand_over_one e b0))
    as (F1 & F2 & F3 & F4 & F5).
  set (b' := snd (Batsim.run_cmds _ _ _)) in *.
  assert (Batsim.simulator b' = false) as Hsim by congruence.
  split; [congruence |]. split; [exact Hsim |]. split; [congruence |].
  split; [congruence |].
  exists rest. rewrite T2, S5. subst e. now rewrite S4.
Qed.

(** X21. [finish] of the remote handler closes the process before it
    hands out [SimulationEnds], so that, whatever the callbacks do, it
    sends neither an acknowledgement nor the queued requests: the messages
    sent are what they were, the process is gone, the channel closed, the
    clock unmoved, and [SimulationEnds] has reached the callbacks.  A
    [proceed_simulation] that follows fails its assertion.  When the
    callbacks of the policy issue no command, [finish] returns and leaves
    the buffer empty. *)
Theorem batsim_finish_effect
    (callbacks : Batsim.t -> Event -> list Batsim.Cmd) (n : nat)
    (b : Batsim.t) (msg : Batsim.Reply) :
  let dispatch := Batsim._dispatch_events callbacks (S n) in
  (let b' := snd (Batsim.finish dispatch b) in
   Batsim.sent b' = Batsim.sent b /\
   Batsim.is_running b' = false /\
   Batsim.bound b' = false /\
   Batsim.current_time_ b' = Batsim.current_time_ b /\
   (exists rest,
      Batsim.notified b' =
        Batsim.notified b ++ SimulationEndsEvent (Batsim.current_time b) :: rest) /\
   Batsim.proceed_simulation dispatch msg b' = (Raised AssertionError, b')) /\
  (let b' := snd (Batsim.finish (quiet_dispatch n) b) in
   fst (Batsim.finish (quiet_dispatch n) b) = Returned /\
   Batsim.requests b' = [] /\
   Batsim.notified b' =
     Batsim.notified b ++ [SimulationEndsEvent (Batsim.current_time b)]).
Proof.
  cbv zeta. split.
  - destruct (batsim_finish_any callbacks n b) as (H1 & H2 & H3 & H4 & H5).
    cbv zeta in H1, H2, H3, H4, H5.
    repeat split; try assumption.
    unfold Batsim.proceed_simulation. now rewrite H2.
  - unfold Batsim.finish. rewrite quiet_dispatch_eq.
    destruct b as [rq ct sim pf snt bnd ntf].
    destruct sim; cbn; repeat split.
Qed.

Lemma batsim_finish_effect_witness :
  Batsim.sent (snd (Batsim.finish (quiet_dispatch 0) example_batsim))
    = Batsim.sent example_batsim /\
  Batsim.requests (snd (Batsim.finish (quiet_dispatch 0) example_batsim)) = [].
Proof.
  split.
  - exact (proj1 (proj1 (batsim_finish_effect batsim_quiet 0 example_batsim
                           (empty_reply 6)))).
  - exact (proj1 (proj2 (proj2 (batsim_finish_effect batsim_quiet 0
                                  example_batsim (empty_reply 6))))).
Defined.

(** X22. [start] of the remote handler fails its assertions when a process
    runs and when no platform is given, and then changes nothing.
    Otherwise, whatever the callbacks do, it spawns the process, binds the
    channel, sets the clock to 0, takes the platform, sends nothing and
    hands [SimulationBegins] to the callbacks; a handler that was finished
    can be started again.  When the callbacks of the policy issue no
    command, it returns, and requests that were queued before stay in the
    buffer. *)
Theorem batsim_start_cases
    (callbacks : Batsim.t -> Event -> list Batsim.Cmd) (n : nat)
    (b : Batsim.t) :
  let dispatch := Batsim._dispatch_events callbacks (S n) in
  (forall p, Batsim.is_running b = true ->
             Batsim.start dispatch p b = (Raised AssertionError, b)) /\
  Batsim.start dispatch None b = (Raised AssertionError, b) /\
  (forall p,
     Batsim.is_running b = false ->
     let b' := snd (Batsim.start dispatch (Some p) b) in
     Batsim.is_running b' = true /\ Batsim.bound b' = true /\
     Batsim.current_time b' = 0%Z /\
     Batsim.platform b' = Some p /\
     Batsim.sent b' = Batsim.sent b /\
     exists rest,
       Batsim.notified b' = Batsim.notified b ++ SimulationBeginsEvent 0 p :: rest) /\
  (forall p,
     Batsim.is_running
       (snd (Batsim.start dispatch (Some p) (snd (Batsim.finish dispatch b))))
       = true) /\
  (forall p,
     Batsim.is_running b = false ->
     let b' := snd (Batsim.start (quiet_dispatch n) (Some p) b) in
     fst (Batsim.start (quiet_dispatch n) (Some p) b) = Returned /\
     Batsim.requests b' = Batsim.requests b /\
     Batsim.notified b' = Batsim.notified b ++ [SimulationBeginsEvent 0 p]) /\
  (forall p,
     fst (Batsim.start (quiet_dispatch n) (Some p)
            (snd (Batsim.finish (quiet_dispatch n) b))) = Returned).
Proof.
  cbv zeta.
  assert (forall p b0,
            Batsim.is_running b0 = false ->
            let b' := snd (Batsim.start (Batsim._dispatch_events callbacks (S n))
                             (Some p) b0) in
            Batsim.is_running b' = true /\ Batsim.bound b' = true /\
            Batsim.current_time b' = 0%Z /\
            Batsim.platform b' = Some p /\
            Batsim.sent b' = Batsim.sent b0 /\
            exists rest,
              Batsim.notified b' =
                Batsim.notified b0 ++ SimulationBeginsEvent 0 p :: rest)
    as Hstart.
  { intros p b0 Hr. unfold Batsim.start. rewrite Hr. cbv zeta.
    match goal with
    | |- context [Batsim._dispatch_events callbacks (S n) [?e0] ?x] =>
        set (e := e0); set (b1 := x)
    end.
    destruct (batsim_dispatch_first callbacks n e [] b1) as (T1 & rest & T2).
    pose proof (batsim_dispatch_frame callbacks (S n) [e] b1 eq_refl)
      as (F1 & F2 & F3 & F4 & F5).
    cbv zeta in T1, T2.
    set (b' := snd (Batsim._dispatch_events callbacks (S n) [e] b1)) in *.
    unfold Batsim.is_running, Batsim.current_time.
    rewrite F1, F2, F3, F4, F5, T2.
    repeat split. exists rest. reflexivity. }
  split; [| split; [| split; [| split; [| split]]]].
  - intros p Hr. unfold Batsim.start. now rewrite Hr.
  - unfold Batsim.start. destruct (Batsim.is_running b); reflexivity.
  - exact (fun p => Hstart p b).
  - intros p. apply Hstart.
    exact (proj1 (proj2 (batsim_finish_any callbacks n b))).
  - intros p Hr. unfold Batsim.start. rewrite Hr, quiet_dispatch_eq.
    destruct b as [rq ct sim pf snt bnd ntf]. cbn. repeat split.
  - intros p. unfold Batsim.start, Batsim.finish. rewrite !quiet_dispatch_eq.
    destruct b as [rq ct sim pf snt bnd ntf]. destruct sim; reflexivity.
Qed.

Lemma batsim_start_cases_witness :
  Batsim.start (Batsim._dispatch_events batsim_quiet 1)
    (Some example_platform) example_batsim =
    (Raised AssertionError, example_batsim) /\
  Batsim.is_running
    (snd (Batsim.start (Batsim._dispatch_events batsim_quiet 1)
            (Some example_platform) Batsim.init))
    = true.
Proof.
  split.
  - refine (proj1 (batsim_start_cases batsim_quiet 0 example_batsim)
              (Some example_platform) _).
    reflexivity.
  - refine (proj1 (proj1 (proj2 (proj2 (batsim_start_cases batsim_quiet 0
                                          Batsim.init)))
                     example_platform _)).
    reflexivity.
Defined.

(** ** [set_resources_pstate] of the remote backend *)

Lemma fold_dd_append_acc (k : Z) (rs : list Resource) (acc : list Z) :
  fold_left (fun d r => dd_append k (r_id r) d) rs [(k, acc)] =
  [(k, acc ++ map r_id rs)].
Proof.
  revert acc. induction rs as [| r rs IH]; intros acc; simpl.
  - now rewrite app_nil_r.
  - rewrite Z.eqb_refl, IH, <- app_assoc. reflexivity.
Qed.

Lemma fold_dd_append_fresh (k : Z) (rs : list Resource) :
  rs <> [] ->
  fold_left (fun d r => dd_append k (r_id r) d) rs [] = [(k, map r_id rs)].
Proof.
  destruct rs as [| r rs]; [congruence | intros _].
  simpl. now rewrite fold_dd_append_acc.
Qed.

Lemma transitions_loop_visited (p : Platform) (pstate : Z)
    (rs : list Resource) (tr : list (Z * list Z)) (nv : list Z)
    (rv : option Resource) (node : Z) :
  Forall (fun r => r_parent_id r = node) rs ->
  existsb (Z.eqb node) nv = true ->
  Batsim.transitions_loop p pstate rs tr nv rv = inr tr.
Proof.
  intros Hall Hv. induction Hall as [| r rs Hr Hall IH]; simpl.
  - reflexivity.
  - rewrite Hr, Hv. exact IH.
Qed.

(** The platform is not touched by the first part of the call. *)
Lemma batsim_merge_platform (resources : list Z) (pstate : Z) (b : Batsim.t) :
  Batsim.platform
    match Batsim.merge_request (Batsim.current_time b) resources
            (Batsim.requests b) with
    | Some l => Batsim.set_requests l b
    | None =>
        Batsim._append_request
          (Batsim.SetResourceStateRequest (Batsim.current_time b) resources
             pstate) b
    end = Batsim.platform b.
Proof. now destruct (Batsim.merge_request _ _ _). Qed.

(** X23. The remote [set_resources_pstate] reads the variable of its inner
    loop after the loop, also when the loop has not run.  When the node of
    the first requested resource needs no transition (the target is neither
    a sleep state nor a computation state of a node that is off), the call
    raises [UnboundLocalError] after it has queued or merged its request,
    and hands nothing to the callbacks, whatever they are. *)
Theorem batsim_set_resources_pstate_raises
    (dispatch : list Event -> Batsim.t -> Outcome * Batsim.t) (b : Batsim.t)
    (resources : list Z) (pstate : Z) (p : Platform) (r : Resource)
    (rest : list Resource) (n : Node) :
  Batsim.platform b = Some p ->
  get_resources p resources = Some (r :: rest) ->
  get_node p (r_parent_id r) = Some n ->
  transition_of n pstate = inr None ->
  let b' := snd (Batsim.set_resources_pstate dispatch resources pstate b) in
  fst (Batsim.set_resources_pstate dispatch resources pstate b) =
    Raised UnboundLocalError /\
  Batsim.notified b' = Batsim.notified b /\
  Batsim.requests b' =
    match Batsim.merge_request (Batsim.current_time b) resources
            (Batsim.requests b) with
    | Some l => l
    | None =>
        SortedList_add Batsim.rq_timestamp
          (Batsim.SetResourceStateRequest (Batsim.current_time b) resources
             pstate)
          (Batsim.requests b)
    end.
Proof.
  intros Hp Hrs Hn Htrans. unfold Batsim.set_resources_pstate.
  rewrite batsim_merge_platform, Hp, Hrs.
  cbn [Batsim.transitions_loop existsb]. rewrite Hn, Htrans.
  cbn [fst snd]. destruct (Batsim.merge_request _ _ _); repeat split.
Qed.

Lemma batsim_set_resources_pstate_raises_witness :
  fst (Batsim.set_resources_pstate (quiet_dispatch 0) [1%Z] 0 example_batsim) =
    Raised UnboundLocalError /\
  Batsim.requests
    (snd (Batsim.set_resources_pstate (quiet_dispatch 0) [1%Z] 0
            example_batsim)) =
    [ Batsim.SetResourceStateRequest 5 [1%Z] 0 ].
Proof.
  destruct (batsim_set_resources_pstate_raises (quiet_dispatch 0)
              example_batsim [1%Z] 0
              example_platform
              {| r_id := 1; r_parent_id := 0; r_speed := 2 |} [] example_node
              eq_refl eq_refl eq_refl eq_refl) as (H1 & _ & H3).
  split; [exact H1 | exact H3].
Defined.

(** X24. When the resources of a request lie on one node that needs a
    transition, the remote [set_resources_pstate] hands to the callbacks
    one event that moves all the resources of the node to the transition
    state at the current time, before anything that the callbacks cause,
    and sends nothing; the final state is left to the external process.
    When the callbacks of the policy issue no command, the call returns
    and that event is all that the trace gains. *)
Theorem batsim_set_resources_pstate_transition
    (callbacks : Batsim.t -> Event -> list Batsim.Cmd) (fuel : nat)
    (b : Batsim.t) (resources : list Z) (pstate : Z) (p : Platform)
    (n : Node) (rs : list Resource) (ps : PowerState) :
  Batsim.platform b = Some p ->
  get_resources p resources = Some rs ->
  rs <> [] ->
  Forall (fun r => r_parent_id r = n_id n) rs ->
  get_node p (n_id n) = Some n ->
  n_resources n <> [] ->
  node_owns_resources n ->
  transition_of n pstate = inr (Some ps) ->
  let event :=
    ResourcePowerStateChangedEvent (Batsim.current_time b)
      (ProcSet (map r_id (n_resources n))) (ps_id ps) in
  (let b' := snd (Batsim.set_resources_pstate
                    (Batsim._dispatch_events callbacks (S fuel))
                    resources pstate b) in
   Batsim.sent b' = Batsim.sent b /\
   exists rest, Batsim.notified b' = Batsim.notified b ++ event :: rest) /\
  (let b' := snd (Batsim.set_resources_pstate (quiet_dispatch fuel)
                    resources pstate b) in
   fst (Batsim.set_resources_pstate (quiet_dispatch fuel) resources pstate b)
     = Returned /\
   Batsim.notified b' = Batsim.notified b ++ [event]).
Proof.
  intros Hp Hrs Hne Hall Hnode Hres Howns Htrans event.
  assert (forall dispatch,
            Batsim.set_resources_pstate dispatch resources pstate b =
            dispatch [event]
              match Batsim.merge_request (Batsim.current_time b) resources
                      (Batsim.requests b) with
              | Some l => Batsim.set_requests l b
              | None =>
                  Batsim._append_request
                    (Batsim.SetResourceStateRequest (Batsim.current_time b)
                       resources pstate) b
              end) as Hcall.
  { intros dispatch. unfold Batsim.set_resources_pstate.
    rewrite batsim_merge_platform, Hp, Hrs.
    destruct rs as [| r rs]; [congruence |].
    apply Forall_cons_iff in Hall as [Hr Hall].
    cbn [Batsim.transitions_loop existsb]. rewrite Hr, Hnode, Htrans.
    rewrite (fold_dd_append_fresh _ _ Hres).
    destruct (last_map_Some_In (n_resources n) None Hres) as (x & -> & Hx).
    unfold node_owns_resources in Howns.
    rewrite List.Forall_forall in Howns. rewrite (Howns x Hx).
    rewrite (transitions_loop_visited _ _ _ _ _ _ (n_id n) Hall)
      by (simpl; now rewrite Z.eqb_refl).
    cbn [map]. subst event.
    destruct (Batsim.merge_request _ _ _); reflexivity. }
  split.
  - cbv zeta. rewrite Hcall.
    match goal with
    | |- context [Batsim._dispatch_events callbacks (S fuel) [event] ?x] =>
        set (b0 := x)
    end.
    assert (Batsim.sent b0 = Batsim.sent b /\
            Batsim.notified b0 = Batsim.notified b) as [S1 S2]
      by (subst b0; destruct (Batsim.merge_request _ _ _); split; reflexivity).
    pose proof (batsim_dispatch_frame callbacks (S fuel) [event] b0 eq_refl)
      as (F1 & _).
    destruct (batsim_dispatch_first callbacks fuel event [] b0)
      as (_ & rest & T2).
    cbv zeta in T2. rewrite F1, T2, S1, S2. split; [reflexivity |].
    exists rest. reflexivity.
  - cbv zeta. rewrite Hcall, quiet_dispatch_eq. cbn [fst snd hand_over].
    split; [reflexivity |].
    destruct (Batsim.merge_request _ _ _); reflexivity.
Qed.

Lemma batsim_set_resources_pstate_transition_witness :
  Batsim.notified
    (snd (Batsim.set_resources_pstate (quiet_dispatch 0) [1%Z] 1
            example_batsim)) =
    Batsim.notified example_batsim ++
    [ ResourcePowerStateChangedEvent 5 (ProcSet [0; 1]%Z) 2 ].
Proof.
  refine (proj2 (proj2 (batsim_set_resources_pstate_transition batsim_quiet 0
                   example_batsim
                   [1%Z] 1 example_platform example_node
                   [ {| r_id := 1; r_parent_id := 0; r_speed := 2 |} ]
                   {| ps_id := 2; ps_type := switching_off; ps_speed := 1 # 5 |}
                   eq_refl eq_refl _ _ eq_refl _ _ eq_refl))).
  - discriminate.
  - repeat constructor.
  - discriminate.
  - repeat constructor.
Defined.

(** * The event enumerations *)

(** X25. In each of the three enumerations of [events.py] the values are
    the consecutive integers from 0 in the order of the members: the lookup
    of a member by value inverts [value], and it fails exactly on the
    integers outside that range. *)
Theorem events_value_round_trip :
  ((forall e, Events.JobEvent_of_value (Events.JobEvent_value e) = Some e) /\
   (forall v e, Events.JobEvent_of_value v = Some e ->
                Events.JobEvent_value e = v) /\
   (forall v, Events.JobEvent_of_value v = None <-> (v < 0 \/ 4 < v)%Z)) /\
  ((forall e, Events.HostEvent_of_value (Events.HostEvent_value e) = Some e) /\
   (forall v e, Events.HostEvent_of_value v = Some e ->
                Events.HostEvent_value e = v) /\
   (forall v, Events.HostEvent_of_value v = None <-> (v < 0 \/ 7 < v)%Z)) /\
  ((forall e, Events.SimulatorEvent_of_value (Events.SimulatorEvent_value e)
              = Some e) /\
   (forall v e, Events.SimulatorEvent_of_value v = Some e ->
                Events.SimulatorEvent_value e = v) /\
   (forall v, Events.SimulatorEvent_of_value v = None <-> (v < 0 \/ 1 < v)%Z)).
Proof.
  repeat split.
  - intros e. now destruct e.
  - intros v e H. apply find_some in H as [_ H]. now apply Z.eqb_eq.
  - unfold Events.JobEvent_of_value, Events.JobEvent_members.
    cbn [find Events.JobEvent_value].
    repeat (match goal with
            | |- context [Z.eqb ?a v] => destruct (Z.eqb_spec a v)
            end; [intros; discriminate |]). lia.
  - unfold Events.JobEvent_of_value, Events.JobEvent_members.
    cbn [find Events.JobEvent_value].
    repeat (match goal with
            | |- context [Z.eqb ?a v] => destruct (Z.eqb_spec a v)
            end; [intros; lia |]). reflexivity.
  - intros e. now destruct e.
  - intros v e H. apply find_some in H as [_ H]. now apply Z.eqb_eq.
  - unfold Events.HostEvent_of_value, Events.HostEvent_members.
    cbn [find Events.HostEvent_value].
    repeat (match goal with
            | |- context [Z.eqb ?a v] => destruct (Z.eqb_spec a v)
            end; [intros; discriminate |]). lia.
  - unfold Events.HostEvent_of_value, Events.HostEvent_members.
    cbn [find Events.HostEvent_value].
    repeat (match goal with
            | |- context [Z.eqb ?a v] => destruct (Z.eqb_spec a v)
            end; [intros; lia |]). reflexivity.
  - intros e. now destruct e.
  - intros v e H. apply find_some in H as [_ H]. now apply Z.eqb_eq.
  - unfold Events.SimulatorEvent_of_value, Events.SimulatorEvent_members.
    cbn [find Events.SimulatorEvent_value].
    repeat (match goal with
            | |- context [Z.eqb ?a v] => destruct (Z.eqb_spec a v)
            end; [intros; discriminate |]). lia.
  - unfold Events.SimulatorEvent_of_value, Events.SimulatorEvent_members.
    cbn [find Events.SimulatorEvent_value].
    repeat (match goal with
            | |- context [Z.eqb ?a v] => destruct (Z.eqb_spec a v)
            end; [intros; lia |]). reflexivity.
Qed.

Lemma events_value_round_trip_witness :
  Events.HostEvent_value Events.SLEEP = 4%Z.
Proof.
  refine (proj1 (proj2 (proj1 (proj2 events_value_round_trip)))
            4%Z Events.SLEEP _).
  reflexivity.
Defined.

(** ** The feeder flag *)

Ltac feeder_returns :=
  intros [= <- <-]; reflexivity.

Lemma fold_keeps_feeder {X : Type} (f : Grid.t -> X -> Grid.t) (xs : list X)
    (g : Grid.t) :
  (forall g0 x, Grid.submitter_ended (f g0 x) = Grid.submitter_ended g0) ->
  Grid.submitter_ended (fold_left f xs g) = Grid.submitter_ended g.
Proof.
  intros Hf. revert g. induction xs as [| x xs IH]; intros g; simpl.
  - reflexivity.
  - now rewrite IH, Hf.
Qed.

Lemma execute_job_feeder (id : string) (alloc : list Z) (g g' : Grid.t)
    (o : Outcome) :
  Grid.execute_job id alloc g = (o, g') ->
  Grid.submitter_ended g' = Grid.submitter_ended g.
Proof.
  unfold Grid.execute_job.
  destruct (ProcSet_new alloc); [| feeder_returns].
  destruct (Grid.jobs g !! id); [| feeder_returns].
  cbn [Grid.platform Grid.profiles Grid.set_jobs].
  destruct (Grid.platform g); [| feeder_returns].
  destruct (get_resources _ _); [| feeder_returns].
  destruct (py_min_list _); [| feeder_returns].
  destruct (Grid.profiles g !! _) as [prof |]; [| feeder_returns].
  match goal with
  | |- context [match ?x with inl _ => _ | inr _ => _ end] => destruct x
  end; feeder_returns.
Qed.

Lemma kill_job_feeder (ids : list string) (g g' : Grid.t) (o : Outcome) :
  Grid.kill_job ids g = (o, g') ->
  Grid.submitter_ended g' = Grid.submitter_ended g.
Proof.
  unfold Grid.kill_job. destruct (Grid.kill_loop ids g) as [o' g1] eqn:E.
  apply kill_loop_shrinks in E as (Hg & _ & _).
  destruct o'; intros [= <- <-]; rewrite Hg; reflexivity.
Qed.

Lemma set_resources_pstate_feeder (rs : list Z) (ps : Z) (g g' : Grid.t)
    (o : Outcome) :
  Grid.set_resources_pstate rs ps g = (o, g') ->
  Grid.submitter_ended g' = Grid.submitter_ended g.
Proof.
  unfold Grid.set_resources_pstate.
  destruct (Grid.platform g); [| feeder_returns].
  destruct (get_resources _ _); [| feeder_returns].
  destruct (Grid.pstate_loop _ _ _ _) as [ex | loc]; [feeder_returns |].
  intros [= <- <-].
  rewrite !fold_keeps_feeder; [reflexivity | intros g0 [k v]; reflexivity ..].
Qed.

(** One command raises the flag exactly when it ends the feeding, and never
    lowers it. *)
Lemma run_cmd_feeder (c : Grid.Cmd) (g : Grid.t) :
  Grid.submitter_ended (snd (Grid.run_cmd c g)) =
  Grid.submitter_ended g || ends_feeding c.
Proof.
  destruct (Grid.run_cmd c g) as [o g'] eqn:E. cbn [snd].
  destruct c; simpl in E; cbn [ends_feeding]; rewrite ?orb_false_r.
  - now apply execute_job_feeder in E.
  - revert E. unfold Grid.reject_job. destruct (_ !! _); feeder_returns.
  - revert E. unfold Grid.call_me_later.
    destruct (Z.leb _ _); [| feeder_returns].
    destruct (negb _); feeder_returns.
  - now apply kill_job_feeder in E.
  - revert E. unfold Grid.register_job. feeder_returns.
  - revert E. unfold Grid.register_profile. feeder_returns.
  - now apply set_resources_pstate_feeder in E.
  - revert E. unfold Grid.notify.
    destruct notify_type; intros [= <- <-]; cbn;
      rewrite ?orb_true_r, ?orb_false_r; reflexivity.
Qed.

Lemma run_cmds_feeder (cs : list Grid.Cmd) (g : Grid.t) :
  (Grid.submitter_ended g = true ->
   Grid.submitter_ended (snd (Grid.run_cmds cs g)) = true) /\
  (existsb ends_feeding cs = false ->
   Grid.submitter_ended (snd (Grid.run_cmds cs g)) = Grid.submitter_ended g) /\
  (fst (Grid.run_cmds cs g) = Returned ->
   Grid.submitter_ended (snd (Grid.run_cmds cs g)) =
   Grid.submitter_ended g || existsb ends_feeding cs).
Proof.
  revert g. induction cs as [| c cs IH]; intros g; cbn [Grid.run_cmds existsb].
  - cbn [snd]. rewrite orb_false_r. auto.
  - pose proof (run_cmd_feeder c g) as Hc.
    destruct (Grid.run_cmd c g) as [o1 g1]. cbn [snd] in Hc.
    destruct (IH g1) as (I1 & I2 & I3).
    destruct o1; cbn [snd fst].
    + repeat split.
      * intros H. apply I1. rewrite Hc, H. reflexivity.
      * intros H. apply orb_false_elim in H as [H1 H2].
        rewrite I2, Hc, H1 by exact H2. apply orb_false_r.
      * intros H. rewrite I3, Hc by exact H. now rewrite orb_assoc.
    + repeat split; try discriminate.
      * intros H. rewrite Hc, H. reflexivity.
      * intros H. apply orb_false_elim in H as [H1 H2].
        rewrite Hc, H1. apply orb_false_r.
    + repeat split; try discriminate.
      * intros H. rewrite Hc, H. reflexivity.
      * intros H. apply orb_false_elim in H as [H1 H2].
        rewrite Hc, H1. apply orb_false_r.
Qed.

(** X26. What the commands of the self-contained handler leave alone: a
    sequence of commands, whatever its outcome, changes neither the clock,
    nor the running flag, nor the platform, nor what the callbacks have
    seen.  The flag [submitter_ended] is never lowered; it is raised only
    by [notify] with [no_more_static_job_to_submit] or
    [registration_finished], and is raised when such a call is part of a
    sequence that returns. *)
Theorem grid_commands_frame (cs : list Grid.Cmd) (g : Grid.t) :
  let g' := snd (Grid.run_cmds cs g) in
  Grid.current_time_ g' = Grid.current_time_ g /\
  Grid.is_running g' = Grid.is_running g /\
  Grid.platform g' = Grid.platform g /\
  Grid.notified g' = Grid.notified g /\
  (Grid.submitter_ended g = true -> Grid.submitter_ended g' = true) /\
  (existsb ends_feeding cs = false ->
   Grid.submitter_ended g' = Grid.submitter_ended g) /\
  (fst (Grid.run_cmds cs g) = Returned ->
   Grid.submitter_ended g' =
   Grid.submitter_ended g || existsb ends_feeding cs).
Proof.
  cbv zeta.
  destruct (Grid.run_cmds cs g) as [o g'] eqn:E.
  pose proof (run_cmds_frame _ _ _ _ E) as (F1 & F2 & F3 & F4).
  pose proof (run_cmds_feeder cs g) as H. rewrite E in H.
  cbn [snd fst] in *. tauto.
Qed.

Lemma grid_commands_frame_witness :
  let cs := [ Grid.RegisterJob "j1" "p1" 1 10 "user";
              Grid.Notify registration_finished;
              Grid.CallMeLater 5 ] in
  let g := example_started_grid in
  let g' := snd (Grid.run_cmds cs g) in
  Grid.current_time_ g' = Grid.current_time_ g /\
  Grid.is_running g' = Grid.is_running g /\
  Grid.platform g' = Grid.platform g /\
  Grid.notified g' = Grid.notified g /\
  (Grid.submitter_ended g = true -> Grid.submitter_ended g' = true) /\
  (existsb ends_feeding cs = false ->
   Grid.submitter_ended g' = Grid.submitter_ended g) /\
  (fst (Grid.run_cmds cs g) = Returned ->
   Grid.submitter_ended g' =
   Grid.submitter_ended g || existsb ends_feeding cs).
Proof.
  exact (grid_commands_frame
           [ Grid.RegisterJob "j1" "p1" 1 10 "user";
             Grid.Notify registration_finished;
             Grid.CallMeLater 5 ]
           example_started_grid).
Defined.

(** Dispatching with callbacks that never end the feeding keeps the flag. *)
Lemma dispatch_events_feeder (callbacks : Grid.t -> Event -> list Grid.Cmd)
    (fuel : nat) (g : Grid.t) :
  (forall g0 e, existsb ends_feeding (callbacks g0 e) = false) ->
  Grid.submitter_ended (snd (Grid._dispatch_events callbacks fuel g)) =
  Grid.submitter_ended g.
Proof.
  intros Hcb. revert g. induction fuel as [| fuel IH]; intros g; simpl.
  - reflexivity.
  - destruct (Grid.events g) as [| e rest]; [reflexivity |].
    destruct (Qeq_bool _ _); [| reflexivity].
    match goal with
    | |- context [Grid.run_cmds ?cs ?g0] =>
        destruct (run_cmds_feeder cs g0) as (_ & Hq & _);
        specialize (Hq (Hcb _ _));
        destruct (Grid.run_cmds cs g0) as [o1 g1]
    end.
    cbn [snd] in Hq. cbn in Hq.
    destruct o1; cbn [snd]; [rewrite IH |..]; exact Hq.
Qed.

(** X27. A run does not end before the end of the feeding is notified: on
    a running handler whose flag [submitter_ended] is down, with callbacks
    that never call [notify] with [no_more_static_job_to_submit] or
    [registration_finished], [proceed_simulation] leaves the handler
    running with the flag down, whatever its outcome; when nothing is
    queued it raises [RuntimeError] and changes nothing, also when no job
    is pending. *)
Theorem run_goes_on_until_notified
    (callbacks : Grid.t -> Event -> list Grid.Cmd) (fuel : nat) (g : Grid.t) :
  (forall g0 e, existsb ends_feeding (callbacks g0 e) = false) ->
  Grid.is_running g = true ->
  Grid.submitter_ended g = false ->
  let g' := snd (Grid.proceed_simulation callbacks fuel g) in
  Grid.is_running g' = true /\
  Grid.submitter_ended g' = false /\
  (Grid.events g = [] ->
   Grid.proceed_simulation callbacks fuel g = (Raised RuntimeError, g)).
Proof.
  intros Hcb Hrun Hflag. cbv zeta.
  unfold Grid.proceed_simulation. rewrite Hrun, Hflag. cbn [negb andb].
  destruct (Grid.events g) as [| e rest] eqn:He.
  - cbn [snd]. auto.
  - rewrite dispatch_events_feeder by exact Hcb.
    destruct (Grid._dispatch_events _ _ _) as [o g'] eqn:E.
    apply dispatch_events_frame in E as (_ & E & _).
    cbn [snd]. cbn in E. repeat split; [congruence | exact Hflag | discriminate].
Qed.

Lemma run_goes_on_until_notified_witness :
  let g := example_started_grid in
  let g' := snd (Grid.proceed_simulation quiet 5 g) in
  Grid.is_running g' = true /\
  Grid.submitter_ended g' = false /\
  (Grid.events g = [] ->
   Grid.proceed_simulation quiet 5 g = (Raised RuntimeError, g)).
Proof.
  apply (run_goes_on_until_notified quiet 5 example_started_grid).
  - intros g0 e. reflexivity.
  - vm_compute. reflexivity.
  - vm_compute. reflexivity.
Defined.
